(** * XISIC: conversion of INMET station files to gridded datasets

    A shallow embedding of [XISIC.py]: the variable-name sanitizer
    ([clean_variable_names]), the per-file pipeline
    ([debug_inmet_file], [parse_inmet_csv_to_netcdf_robust]) and the batch
    orchestrator ([_normalize_filter], [convert_csvs_to_netcdf]).

    Python strings are sequences of Unicode code points, modelled as lists of
    [N]; a [dict] is an insertion-ordered association list with unique keys;
    exceptions are an explicit [result] type; the file system the
    orchestrator reads and writes is threaded as a state. *)

From Stdlib Require Import ZArith NArith Ascii String Lia.
From Stdlib Require PrimFloat Uint63 DecimalString.
From stdpp Require Import base option list sorting.

Local Open Scope N_scope.

(** ** Python strings *)

Module Py.

Definition char := N.
Definition str := list char.

(** An ASCII literal of the source as a code-point list. *)
Definition lit (s : string) : str := map N_of_ascii (list_ascii_of_string s).

Definition DEGREE : char := 176.       (* U+00B0 *)
Definition SUPER_TWO : char := 178.    (* U+00B2 *)
Definition SUPER_THREE : char := 179.  (* U+00B3 *)
Definition UNDERSCORE : char := 95.
Definition LF : char := 10.
Definition CR : char := 13.

Fixpoint startswith (p s : str) : bool :=
  match p, s with
  | [], _ => true
  | _ :: _, [] => false
  | a :: p', b :: s' => (a =? b) && startswith p' s'
  end.

(** [old in s] for strings. *)
Fixpoint contains (sub s : str) : bool :=
  startswith sub s ||
  match s with
  | [] => false
  | _ :: t => contains sub t
  end.

(** [s.replace(old, new)] for a non-empty [old]: left to right, non-overlapping.
    [skip] counts the characters of a match that are still to be dropped. *)
Fixpoint replace_go (old new : str) (skip : nat) (s : str) : str :=
  match s with
  | [] => []
  | c :: t =>
      match skip with
      | S k => replace_go old new k t
      | O =>
          if startswith old (c :: t)
          then new ++ replace_go old new (length old - 1) t
          else c :: replace_go old new 0 t
      end
  end.

Definition replace (old new s : str) : str := replace_go old new 0 s.

(** [s.split(sep)] for a one-character separator. *)
Fixpoint split (sep : char) (s : str) : list str :=
  match s with
  | [] => [[]]
  | c :: t =>
      if c =? sep then [] :: split sep t
      else match split sep t with
           | [] => [[c]]
           | w :: ws => (c :: w) :: ws
           end
  end.

Fixpoint lstrip (p : char -> bool) (s : str) : str :=
  match s with
  | [] => []
  | c :: t => if p c then lstrip p t else s
  end.

Fixpoint rstrip (p : char -> bool) (s : str) : str :=
  match s with
  | [] => []
  | c :: t =>
      match rstrip p t with
      | [] => if p c then [] else [c]
      | r => c :: r
      end
  end.

(** [s.strip(chars)]: [p] tells which characters are stripped. *)
Definition strip (p : char -> bool) (s : str) : str := lstrip p (rstrip p s).

(** [re.sub('_+', '_', s)]: every maximal run of underscores becomes one
    underscore, that is, an underscore followed by an underscore is dropped. *)
Fixpoint sub_underscores (s : str) : str :=
  match s with
  | [] => []
  | c :: t =>
      match t with
      | c' :: _ =>
          if (c =? UNDERSCORE) && (c' =? UNDERSCORE) then sub_underscores t
          else c :: sub_underscores t
      | [] => [c]
      end
  end.

Definition in_ranges (table : list (N * N)) (c : char) : bool :=
  existsb (fun r => (fst r <=? c) && (c <=? snd r)) table.

(** [str.isdigit] on one character: the code points whose Unicode
    Numeric_Type is Decimal or Digit (CPython 3.11, Unicode 14). *)
Definition digit_ranges : list (N * N) :=
  [(48, 57); (178, 179); (185, 185); (1632, 1641); (1776, 1785);
   (1984, 1993); (2406, 2415); (2534, 2543); (2662, 2671); (2790, 2799);
   (2918, 2927); (3046, 3055); (3174, 3183); (3302, 3311); (3430, 3439);
   (3558, 3567); (3664, 3673); (3792, 3801); (3872, 3881); (4160, 4169);
   (4240, 4249); (4969, 4977); (6112, 6121); (6160, 6169); (6470, 6479);
   (6608, 6618); (6784, 6793); (6800, 6809); (6992, 7001); (7088, 7097);
   (7232, 7241); (7248, 7257); (8304, 8304); (8308, 8313); (8320, 8329);
   (9312, 9320); (9332, 9340); (9352, 9360); (9450, 9450); (9461, 9469);
   (9471, 9471); (10102, 10110); (10112, 10120); (10122, 10130);
   (42528, 42537); (43216, 43225); (43264, 43273); (43472, 43481);
   (43504, 43513); (43600, 43609); (44016, 44025); (65296, 65305);
   (66720, 66729); (68160, 68163); (68912, 68921); (69216, 69224);
   (69714, 69722); (69734, 69743); (69872, 69881); (69942, 69951);
   (70096, 70105); (70384, 70393); (70736, 70745); (70864, 70873);
   (71248, 71257); (71360, 71369); (71472, 71481); (71904, 71913);
   (72016, 72025); (72784, 72793); (73040, 73049); (73120, 73129);
   (92768, 92777); (92864, 92873); (93008, 93017); (120782, 120831);
   (123200, 123209); (123632, 123641); (125264, 125273); (127232, 127242);
   (130032, 130041)].

Definition isdigit (c : char) : bool := in_ranges digit_ranges c.

(** [str.isspace] on one character, as used by [strip()] without argument. *)
Definition space_ranges : list (N * N) :=
  [(9, 13); (28, 32); (133, 133); (160, 160); (5760, 5760); (8192, 8202);
   (8232, 8233); (8239, 8239); (8287, 8287); (12288, 12288)].

Definition isspace (c : char) : bool := in_ranges space_ranges c.

End Py.

Import Py.

Local Notation "# s" := (lit s) (at level 1, format "# s").

(** ** Dictionaries

    A Python [dict]: keys are unique and keep the position of their first
    insertion; assigning to an existing key replaces its value in place. *)

Abbreviation dict V := (list (str * V)).

Fixpoint dict_set {V} (d : dict V) (k : str) (v : V) : dict V :=
  match d with
  | [] => [(k, v)]
  | (k', v') :: d' =>
      if decide (k' = k) then (k', v) :: d' else (k', v') :: dict_set d' k v
  end.

Fixpoint dict_get {V} (d : dict V) (k : str) : option V :=
  match d with
  | [] => None
  | (k', v') :: d' => if decide (k' = k) then Some v' else dict_get d' k
  end.

Definition dict_keys {V} (d : dict V) : list str := map fst d.

(** [d.get(k, default)] *)
Definition dict_get_default {V} (d : dict V) (k : str) (default : V) : V :=
  match dict_get d k with Some v => v | None => default end.

(** ** clean_variable_names *)

(** The chain of [.replace] calls of the sanitizer. *)
Definition replace_symbols (var_name : str) : str :=
  replace [SUPER_THREE] #"3"
    (replace [SUPER_TWO] #"2"
      (replace #"." #"_"
        (replace #"-" #"_"
          (replace #"," #"_"
            (replace #" " #"_"
              (replace [DEGREE] #"deg"
                (replace #")" #"_"
                  (replace #"(" #"_"
                    (replace #"/" #"_per_" var_name))))))))).

Definition is_underscore (c : char) : bool := c =? UNDERSCORE.

(** The body of the loop of [clean_variable_names]: the name under which
    the data of [var_name] is stored. *)
Definition clean_name (var_name : str) : str :=
  let clean_name := replace_symbols var_name in
  let clean_name := sub_underscores clean_name in
  let clean_name := strip is_underscore clean_name in
  let clean_name :=
    match clean_name with
    | c :: _ => if isdigit c then #"var_" ++ clean_name else clean_name
    | [] => clean_name
    end in
  match clean_name with
  | [] => #"unknown_variable"
  | _ => clean_name
  end.

Definition clean_variable_names {V} (data_vars : dict V) : dict V :=
  fold_left (fun cleaned_vars item => dict_set cleaned_vars (clean_name (fst item)) (snd item))
            data_vars [].

(** The identifier syntax [^[A-Za-z_][A-Za-z0-9_]*$] of the specification. *)
Definition is_ascii_letter (c : char) : bool :=
  ((65 <=? c) && (c <=? 90)) || ((97 <=? c) && (c <=? 122)).
Definition is_ascii_digit (c : char) : bool := (48 <=? c) && (c <=? 57).
Definition ident_start (c : char) : bool := is_ascii_letter c || is_underscore c.
Definition ident_char (c : char) : bool :=
  is_ascii_letter c || is_ascii_digit c || is_underscore c.
Definition is_identifier (s : str) : bool :=
  match s with
  | [] => false
  | c :: t => ident_start c && forallb ident_char t
  end.

(** The characters the sanitizer rewrites. *)
Definition replaced_symbols : list char :=
  #"/" ++ #"(" ++ #")" ++ [DEGREE] ++ #" " ++ #"," ++ #"-" ++ #"." ++ [SUPER_TWO; SUPER_THREE].

Definition is_replaced (c : char) : bool := existsb (N.eqb c) replaced_symbols.

(** ** Exceptions *)

Inductive reason :=
  | NoEncoding          (* debug_inmet_file: no candidate encoding reads the file *)
  | NoDateHourColumns   (* the pipeline: 'date' or 'hour_utc' is not a column *)
  | NotAFloat           (* float(): the string is not a number *)
  | CannotReshape       (* numpy: reshape to another size *)
  | DuplicateLabel      (* pandas: to_datetime on a selection that is a frame *)
  | InDataVarsAndCoords (* xarray: a name is both a data variable and a coordinate *).

Inductive exn :=
  | ValueError (m : reason)
  | IndexError
  | KeyError (k : str)
  | AttributeError
  | LibraryError (code : N)   (* what pd.read_csv raises *)
  | WriteError (code : N)     (* what ds.to_netcdf raises *).

Inductive result (A : Type) :=
  | Ok (a : A)
  | Raise (e : exn).
Arguments Ok {A} a.
Arguments Raise {A} e.

(** Sequencing: an exception raised by [r] propagates. *)
#[global] Instance result_bind : MBind result := fun A B k r =>
  match r with
  | Ok a => k a
  | Raise e => Raise e
  end.

Definition succeeds {A} (r : result A) : bool :=
  match r with Ok _ => true | Raise _ => false end.

(** [l[i]] on a list. *)
Definition getitem {A} (l : list A) (i : nat) : result A :=
  match l !! i with
  | Some x => Ok x
  | None => Raise IndexError
  end.

(** ** Text encodings and reading a file *)

Definition bytes := list Byte.byte.

Inductive encoding := cp1252 | latin1 | utf_8.

(** The bytes 0x80..0x9F of code page 1252; five of them are undefined. *)
Definition cp1252_high : list (option char) :=
  [Some 8364; None; Some 8218; Some 402; Some 8222; Some 8230; Some 8224;
   Some 8225; Some 710; Some 8240; Some 352; Some 8249; Some 338; None;
   Some 381; None; None; Some 8216; Some 8217; Some 8220; Some 8221;
   Some 8226; Some 8211; Some 8212; Some 732; Some 8482; Some 353;
   Some 8250; Some 339; None; Some 382; Some 376].

Definition cp1252_char (b : N) : option char :=
  if (128 <=? b) && (b <? 160)
  then match cp1252_high !! N.to_nat (b - 128) with
       | Some (Some c) => Some c
       | _ => None
       end
  else Some b.

Fixpoint decode_cp1252 (bs : list N) : option str :=
  match bs with
  | [] => Some []
  | b :: t =>
      match cp1252_char b, decode_cp1252 t with
      | Some c, Some s => Some (c :: s)
      | _, _ => None
      end
  end.

(** Every byte is a Latin-1 character: this codec never fails. *)
Definition decode_latin1 (bs : list N) : option str := Some bs.

Definition is_cont (b : N) : bool := (128 <=? b) && (b <=? 191).
Definition between (lo hi b : N) : bool := (lo <=? b) && (b <=? hi).

(** Strict UTF-8: shortest form only, no surrogates, at most U+10FFFF. *)
Fixpoint decode_utf8 (bs : list N) : option str :=
  match bs with
  | [] => Some []
  | b0 :: t0 =>
      if b0 <? 128 then option_map (cons b0) (decode_utf8 t0)
      else if between 194 223 b0 then
        match t0 with
        | b1 :: t1 =>
            if is_cont b1
            then option_map (cons ((b0 - 192) * 64 + (b1 - 128))) (decode_utf8 t1)
            else None
        | _ => None
        end
      else if between 224 239 b0 then
        match t0 with
        | b1 :: b2 :: t2 =>
            if between (if b0 =? 224 then 160 else 128)
                       (if b0 =? 237 then 159 else 191) b1 && is_cont b2
            then option_map
                   (cons ((b0 - 224) * 4096 + (b1 - 128) * 64 + (b2 - 128)))
                   (decode_utf8 t2)
            else None
        | _ => None
        end
      else if between 240 244 b0 then
        match t0 with
        | b1 :: b2 :: b3 :: t3 =>
            if between (if b0 =? 240 then 144 else 128)
                       (if b0 =? 244 then 143 else 191) b1
               && is_cont b2 && is_cont b3
            then option_map
                   (cons ((b0 - 240) * 262144 + (b1 - 128) * 4096
                          + (b2 - 128) * 64 + (b3 - 128)))
                   (decode_utf8 t3)
            else None
        | _ => None
        end
      else None
  end.

(** Decoding the whole content; [None] is [UnicodeDecodeError]. *)
Definition decode (enc : encoding) (content : bytes) : option str :=
  let bs := map Byte.to_N content in
  match enc with
  | cp1252 => decode_cp1252 bs
  | latin1 => decode_latin1 bs
  | utf_8 => decode_utf8 bs
  end.

(** [f.readlines()] of a file opened in text mode: ["\r\n"] and ["\r"] are
    read as ["\n"], and every line keeps its terminator. *)
Fixpoint readlines (s : str) : list str :=
  match s with
  | [] => []
  | c :: t =>
      if c =? LF then [LF] :: readlines t
      else if c =? CR then
        [LF] :: match t with
                | c' :: t' => if c' =? LF then readlines t' else readlines t
                | [] => []
                end
      else match t with
           | [] => [[c]]
           | _ :: _ =>
               match readlines t with
               | l :: ls => (c :: l) :: ls
               | [] => [[c]]
               end
           end
  end.

(** The loop [for enc in encs: try: open, readlines; break; except
    UnicodeDecodeError: continue]: the first candidate that decodes. *)
Fixpoint try_encodings (encs : list encoding) (content : bytes)
  : option (encoding * list str) :=
  match encs with
  | [] => None
  | enc :: rest =>
      match decode enc content with
      | Some text => Some (enc, readlines text)
      | None => try_encodings rest content
      end
  end.

Definition DEBUG_ENCODINGS : list encoding := [latin1; utf_8].
Definition SILENT_ENCODINGS : list encoding := [cp1252; latin1; utf_8].

(** One iteration of the metadata loop. *)
Definition metadata_line (metadata : dict str) (line : str) : dict str :=
  match split 59 (strip isspace line) with
  | key :: value :: _ => dict_set metadata (replace #":" [] key) value
  | _ => metadata
  end.

Fixpoint metadata_loop (lines : list str) (range : list nat) (metadata : dict str)
  : result (dict str) :=
  match range with
  | [] => Ok metadata
  | i :: range' =>
      line ← getitem lines i;
      metadata_loop lines range' (metadata_line metadata line)
  end.

(** [metadata = {}; for i in range(8): ...] *)
Definition extract_metadata (lines : list str) : result (dict str) :=
  metadata_loop lines (seq 0 8) [].

(** debug_inmet_file, without its printing. *)
Definition debug_inmet_file (content : bytes)
  : result (encoding * dict str * list str) :=
  match try_encodings DEBUG_ENCODINGS content with
  | None => Raise (ValueError NoEncoding)
  | Some (enc, lines) =>
      metadata ← extract_metadata lines;
      header_line ← getitem lines 8;
      Ok (enc, metadata, split 59 (strip isspace header_line))
  end.

(** The [else] branch of the pipeline's [if debug]: no candidate leaves
    [encoding = None] and [lines = []], and nothing is raised here. *)
Definition read_silently (content : bytes) : option encoding * list str :=
  match try_encodings SILENT_ENCODINGS content with
  | Some (enc, lines) => (Some enc, lines)
  | None => (None, [])
  end.

(** The reading stage of the pipeline in either mode. *)
Definition read_station_file (debug : bool) (content : bytes)
  : result (option encoding * dict str) :=
  if debug then
    r ← debug_inmet_file content;
    Ok (Some (fst (fst r)), snd (fst r))
  else
    let (encoding, lines) := read_silently content in
    metadata ← extract_metadata lines;
    Ok (encoding, metadata).

(** The reading stage as the specification words it: the first candidate
    of [encs] that decodes, or the encoding failure when none does. *)
Definition EncodingFailure : exn := ValueError NoEncoding.

Definition spec_decode_file (encs : list encoding) (content : bytes)
  : result (encoding * list str) :=
  match List.find (fun enc => bool_decide (is_Some (decode enc content))) encs with
  | Some enc =>
      match decode enc content with
      | Some text => Ok (enc, readlines text)
      | None => Raise EncodingFailure
      end
  | None => Raise EncodingFailure
  end.

Definition candidate_encodings (debug : bool) : list encoding :=
  if debug then DEBUG_ENCODINGS else SILENT_ENCODINGS.

Definition spec_read_station_file (debug : bool) (content : bytes)
  : result (option encoding * dict str) :=
  r ← spec_decode_file (candidate_encodings debug) content;
  metadata ← extract_metadata (snd r);
  _ ← (if debug then getitem (snd r) 8 else Ok []);
  Ok (Some (fst r), metadata).

(** ** Tables and arrays *)

Definition float := PrimFloat.float.
Definition nan : float := PrimFloat.nan.

(** A cell of a pandas frame: [numpy.float64] (with NaN for a missing
    value), [numpy.int64], [numpy.bool_] or [str]. *)
Inductive value :=
  | VFloat (x : float)
  | VInt (z : Z)
  | VBool (b : bool)
  | VStr (s : str).

(** A frame: the number of rows and the labelled columns in order. A cell
    that a column does not hold is missing. read_csv numbers repeated
    labels, so the labels of a frame it returns are distinct. *)
Record DataFrame := {
  nrows : nat;
  columns : list (str * list value)
}.

Definition cell (col : list value) (r : nat) : value := nth r col (VFloat nan).

Definition isna (v : value) : bool :=
  match v with
  | VFloat x => PrimFloat.is_nan x
  | _ => false
  end.

(** A calendar date (year, month, day), ordered as [datetime.date] is. *)
Definition date := (Z * Z * Z)%type.

Definition date_leb (a b : date) : bool :=
  let '(y1, m1, d1) := a in
  let '(y2, m2, d2) := b in
  ((y1 <? y2) || ((y1 =? y2) && ((m1 <? m2) || ((m1 =? m2) && (d1 <=? d2)))))%Z.

Definition date_le (a b : date) : Prop := date_leb a b = true.

#[global] Instance date_le_dec : RelDecision date_le.
Proof. intros a b. unfold date_le. apply _. Defined.

Record datetime := {
  dt_date : date;
  dt_hour : Z;
  dt_minute : Z
}.

(** An n-dimensional array of floats in row-major order. *)
Record ndarray := {
  shape : list nat;
  data : list float
}.

Definition size_of (shp : list nat) : nat := fold_right Nat.mul 1%nat shp.

(** [np.full(shp, x)] *)
Definition np_full (shp : list nat) (x : float) : ndarray :=
  {| shape := shp; data := replicate (size_of shp) x |}.

(** [a[i, j] = x] on a two-dimensional array (indices within bounds). *)
Definition setitem2 (a : ndarray) (i j : nat) (x : float) : ndarray :=
  {| shape := shape a;
     data := <[(i * nth 1 (shape a) 0 + j)%nat := x]> (data a) |}.

(** [a[i, j]] *)
Definition getitem2 (a : ndarray) (i j : nat) : option float :=
  data a !! (i * nth 1 (shape a) 0 + j)%nat.

(** [a.reshape(shp)] *)
Definition reshape (a : ndarray) (shp : list nat) : result ndarray :=
  if decide (size_of shp = length (data a))
  then Ok {| shape := shp; data := data a |}
  else Raise (ValueError CannotReshape).

(** [pandas.unique]: the distinct values in order of first appearance. *)
Fixpoint unique {A} `{EqDecision A} (l : list A) : list A :=
  match l with
  | [] => []
  | x :: t => x :: filter (fun y => y ≠ x) (unique t)
  end.

(** [enumerate(l)] *)
Definition enumerate {A} (l : list A) : list (nat * A) :=
  zip (seq 0 (length l)) l.

(** ** The per-file pipeline *)

Definition DIMS : list str :=
  [#"region"; #"uf"; #"wmo_code"; #"date"; #"hour_utc"; #"lat"; #"lon"; #"alt"].

Definition EXCLUDED_COLS : list str :=
  [#"date"; #"hour_utc"; #"hour_clean"; #"datetime"; #"date_only"; #"hour_only"].

(** The station of a file: what the pipeline derives before it reads the
    table. *)
Record Station := {
  region : str;
  uf : str;
  wmo_code : str;
  station_name : str;
  latitude : float;
  longitude : float;
  altitude : float
}.

(** The time axes and the rows they come from. [rows] are the index labels
    of the rows whose timestamp parsed, in file order. *)
Record TimeIndex := {
  rows : list nat;
  date_only : nat -> date;
  hour_only : nat -> Z;
  dates : list date;
  hours : list Z
}.

Inductive attr :=
  | AStr (s : str)
  | AFloat (x : float).

(** An [xr.Dataset]: data variables (dimension names and array) by name,
    the eight coordinates, and the global attributes (the creation
    timestamp, read from the clock, is left out). *)
Record Dataset := {
  data_vars : dict (list str * ndarray);
  coord_region : list str;
  coord_uf : list str;
  coord_wmo_code : list str;
  coord_date : list date;
  coord_hour_utc : list Z;
  coord_lat : list float;
  coord_lon : list float;
  coord_alt : list float;
  attrs : dict attr
}.

(** ** The library calls of the pipeline

    What pandas, xarray and the built-ins compute is not part of the
    repository: the pipeline is stated over any implementation of these
    calls. *)

(** What [ds.to_netcdf(path)] does: the file is written, or the call
    raises, and then it has created the file of that path or it has not.
    Which of these happens is taken to depend on the dataset and the path
    alone. *)
Inductive write_outcome :=
  | Saved
  | WriteFailed (code : N) (left_behind : bool).

Class Library := {
  (** [float(s)] on a string; [None] is [ValueError] *)
  float_of_str : str -> option float;
  (** [float(n)] on an integer *)
  float_of_int : Z -> float;
  (** [str(x)] on a float and on an integer, as [astype(str)] applies it *)
  str_of_float : float -> str;
  str_of_int : Z -> str;
  (** [s.upper()] *)
  upper : str -> str;
  (** [pd.read_csv(path, sep=';', decimal=',', skiprows=8, header=0,
      encoding=encoding, na_values=['', ' ', 'NULL', 'null', '-9999'],
      keep_default_na=True)] on the content of the file: the frame, or the
      code of the exception pandas raises *)
  read_csv : option encoding -> bytes -> N + DataFrame;
  (** [pd.to_datetime(s, format='%Y/%m/%d %H%M', errors='coerce')] on one
      string; [None] is [NaT] *)
  to_datetime : str -> option datetime;
  (** [ds.to_netcdf(path)] *)
  to_netcdf : Dataset -> str -> write_outcome
}.

(** [Path(csv_file_path).stem] from the final component of the path. *)
Fixpoint rfind (c : char) (s : str) : option nat :=
  match s with
  | [] => None
  | x :: t =>
      match rfind c t with
      | Some i => Some (S i)
      | None => if x =? c then Some 0%nat else None
      end
  end.

Definition stem (name : str) : str :=
  match rfind 46 name with
  | Some i => if bool_decide (0 < i < length name - 1)%nat then take i name else name
  | None => name
  end.

(** The renaming of the two main columns, by substring. *)
Definition rename_column (col : str) : str :=
  if contains #"Data" col then #"date"
  else if contains #"Hora" col && contains #"UTC" col then #"hour_utc"
  else col.

(** [df.dropna(axis=1, how='all')] *)
Definition dropna_columns (df : DataFrame) : DataFrame :=
  {| nrows := nrows df;
     columns := filter (fun c => ¬ forallb (fun r => isna (cell (snd c) r))
                                           (seq 0 (nrows df)))
                       (columns df) |}.

(** [df.rename(columns=column_renames)] *)
Definition rename_columns (df : DataFrame) : DataFrame :=
  {| nrows := nrows df;
     columns := map (fun c => (rename_column (fst c), snd c)) (columns df) |}.

Definition column_names (df : DataFrame) : list str := map fst (columns df).

Definition has_column (df : DataFrame) (name : str) : bool :=
  bool_decide (name ∈ column_names df).

(** The columns selected by [df[name]]. *)
Definition select (df : DataFrame) (name : str) : list (list value) :=
  map snd (filter (fun c => fst c = name) (columns df)).

(** [df.loc[mask, var]] reads the column labelled [var]. *)
Definition column (df : DataFrame) (var : str) : list value :=
  match select df var with
  | col :: _ => col
  | [] => []
  end.

Definition DatasetCoords : list str := DIMS.

(** The files of a folder once the file [path] is written in it. *)
Definition written (path : str) (netcdf : list str) : list str :=
  if bool_decide (path ∈ netcdf) then netcdf else netcdf ++ [path].

Section Pipeline.

Context `{Library}.

(** [series.astype(str)] on one cell *)
Definition astype_str (v : value) : str :=
  match v with
  | VFloat x => str_of_float x
  | VInt z => str_of_int z
  | VBool b => if b then #"True" else #"False"
  | VStr s => s
  end.

(** [float(metadata[key].replace(',', '.'))] *)
Definition coordinate (metadata : dict str) (key : str) : result float :=
  match dict_get metadata key with
  | None => Raise (KeyError key)
  | Some text =>
      match float_of_str (replace #"," #"." text) with
      | Some x => Ok x
      | None => Raise (ValueError NotAFloat)
      end
  end.

(** Identity from the file name when it has five segments, from the
    metadata otherwise; the coordinates always from the metadata. *)
Definition station_of (csv_file_name : str) (metadata : dict str) : result Station :=
  let filename := stem csv_file_name in
  let file_parts := split UNDERSCORE filename in
  let '(region, uf, wmo_code, station_name) :=
    if bool_decide (5 ≤ length file_parts)%nat
    then (nth 1 file_parts [], nth 2 file_parts [],
          nth 3 file_parts [], nth 4 file_parts [])
    else (dict_get_default metadata #"REGIAO" #"Unknown",
          dict_get_default metadata #"UF" #"Unknown",
          dict_get_default metadata #"CODIGO (WMO)" #"Unknown",
          dict_get_default metadata #"ESTACAO" #"Unknown") in
  latitude ← coordinate metadata #"LATITUDE";
  longitude ← coordinate metadata #"LONGITUDE";
  altitude ← coordinate metadata #"ALTITUDE";
  Ok {| region := region; uf := uf; wmo_code := wmo_code;
        station_name := station_name; latitude := latitude;
        longitude := longitude; altitude := altitude |}.

(** The [try] block around [pd.read_csv]: the exception is raised again. *)
Definition load_table (encoding : option encoding) (content : bytes) : result DataFrame :=
  match read_csv encoding content with
  | inr df => Ok df
  | inl code => Raise (LibraryError code)
  end.

(** The table after the empty columns are dropped and the main columns
    renamed; [ValueError] unless both ['date'] and ['hour_utc'] are columns. *)
Definition prepare_table (df : DataFrame) : result DataFrame :=
  let df := dropna_columns df in
  let df := rename_columns df in
  if negb (has_column df #"date") || negb (has_column df #"hour_utc")
  then Raise (ValueError NoDateHourColumns)
  else Ok df.

(** [.astype(str).str.replace(' UTC', '').str.replace('UTC', '').str.strip()] *)
Definition hour_clean (v : value) : str :=
  strip isspace (replace #"UTC" [] (replace #" UTC" [] (astype_str v))).

(** The [try] block that builds the timestamps, then the axes. A label
    that names two columns selects a frame: a frame has no [.str], and
    [to_datetime] refuses a frame without year, month and day columns. *)
Definition time_index (debug : bool) (df : DataFrame) : result TimeIndex :=
  hour_utc ← match select df #"hour_utc" with
             | [col] => Ok col
             | _ => Raise AttributeError
             end;
  date_col ← match select df #"date" with
             | [col] => Ok col
             | _ => Raise (ValueError DuplicateLabel)
             end;
  let stamp (r : nat) : option datetime :=
    to_datetime (astype_str (cell date_col r) ++ #" " ++ hour_clean (cell hour_utc r)) in
  let rows := filter (fun r => is_Some (stamp r)) (seq 0 (nrows df)) in
  let date_only (r : nat) : date :=
    match stamp r with Some t => dt_date t | None => (0, 0, 0)%Z end in
  let hour_only (r : nat) : Z :=
    match stamp r with Some t => dt_hour t | None => 0%Z end in
  let dates := merge_sort date_le (unique (map date_only rows)) in
  let hours := merge_sort Z.le (unique (map hour_only rows)) in
  _ ← (if debug then getitem dates 0 else Ok (0, 0, 0)%Z);
  Ok {| rows := rows; date_only := date_only; hour_only := hour_only;
        dates := dates; hours := hours |}.

Definition met_variables (df : DataFrame) : list str :=
  filter (fun col => col ∉ EXCLUDED_COLS) (column_names df).

(** [float(value)] on a cell; [None] is [ValueError] or [TypeError]. *)
Definition float_of_value (v : value) : option float :=
  match v with
  | VFloat x => Some x
  | VInt z => Some (float_of_int z)
  | VBool b => Some (if b then PrimFloat.one else PrimFloat.zero)
  | VStr s => float_of_str s
  end.

(** [pd.notna(value) and value != ''] *)
Definition usable (v : value) : bool :=
  negb (isna v) && negb (match v with VStr [] => true | _ => false end).

(** The rows selected by the mask of the cell. *)
Definition mask (t : TimeIndex) (d : date) (h : Z) : list nat :=
  filter (fun r => date_only t r = d ∧ hour_only t r = h) (rows t).

(** The body of the two loops over the axes: the cell [i, j]. *)
Definition fill_cell (t : TimeIndex) (col : list value)
    (var_matrix : ndarray) (i : nat) (d : date) (j : nat) (h : Z) : ndarray :=
  match mask t d h with
  | r :: _ =>
      let value := cell col r in
      if usable value then
        match float_of_value value with
        | Some x => setitem2 var_matrix i j x
        | None => var_matrix
        end
      else var_matrix
  | [] => var_matrix
  end.

Definition fill_row (t : TimeIndex) (col : list value)
    (var_matrix : ndarray) (i : nat) (d : date) : ndarray :=
  fold_left (fun m jh => fill_cell t col m i d (fst jh) (snd jh))
            (enumerate (hours t)) var_matrix.

(** The two-dimensional matrix of one variable. *)
Definition var_matrix (t : TimeIndex) (col : list value) : ndarray :=
  fold_left (fun m id => fill_row t col m (fst id) (snd id))
            (enumerate (dates t))
            (np_full [length (dates t); length (hours t)] nan).

(** The loop over the variables: [data_vars[var] = (dims, var_array)]. *)
Fixpoint build_data_vars (df : DataFrame) (t : TimeIndex) (vars : list str)
    (data_vars : dict (list str * ndarray)) : result (dict (list str * ndarray)) :=
  match vars with
  | [] => Ok data_vars
  | var :: vars' =>
      var_array ← reshape (var_matrix t (column df var))
                   [1; 1; 1; length (dates t); length (hours t); 1; 1; 1]%nat;
      build_data_vars df t vars' (dict_set data_vars var (DIMS, var_array))
  end.

Definition title_of (station_name : str) : str :=
  #"Dados meteorol" ++ [243] ++ #"gicos hor" ++ [225] ++ #"rios - " ++ station_name.

Definition global_attrs (metadata : dict str) (s : Station) : dict attr :=
  [(#"source", AStr #"INMET");
   (#"station", AStr (station_name s));
   (#"date_of_foundation",
     AStr (dict_get_default metadata #"DATA DE FUNDACAO" #"Unknown"));
   (#"title", AStr (title_of (station_name s)));
   (#"institution", AStr #"Instituto Nacional de Meteorologia (INMET)");
   (#"region", AStr (region s));
   (#"uf", AStr (uf s));
   (#"wmo_code", AStr (wmo_code s));
   (#"latitude", AFloat (latitude s));
   (#"longitude", AFloat (longitude s));
   (#"altitude_m", AFloat (altitude s));
   (#"conventions", AStr #"CF-1.8")].

(** [xr.Dataset(data_vars=data_vars, coords=coords)] and its attributes;
    xarray refuses a name that is both a data variable and a coordinate. *)
Definition make_dataset (metadata : dict str) (s : Station) (t : TimeIndex)
    (data_vars : dict (list str * ndarray)) : result Dataset :=
  if bool_decide (Exists (fun name => name ∈ DatasetCoords) (dict_keys data_vars))
  then Raise (ValueError InDataVarsAndCoords)
  else Ok {| data_vars := data_vars;
             coord_region := [region s];
             coord_uf := [uf s];
             coord_wmo_code := [wmo_code s];
             coord_date := dates t;
             coord_hour_utc := hours t;
             coord_lat := [latitude s];
             coord_lon := [longitude s];
             coord_alt := [altitude s];
             attrs := global_attrs metadata s |}.

(** The stages after the table is loaded. *)
Definition grid_dataset (debug : bool) (metadata : dict str) (s : Station)
    (df : DataFrame) : result Dataset :=
  df ← prepare_table df;
  t ← time_index debug df;
  data_vars ← build_data_vars df t (met_variables df) [];
  make_dataset metadata s t (clean_variable_names data_vars).

(** parse_inmet_csv_to_netcdf_robust up to the point where it saves: the
    dataset it builds from the file named [csv_file_name] holding [content]. *)
Definition parse_inmet_csv (csv_file_name : str) (content : bytes) (debug : bool)
  : result Dataset :=
  r ← read_station_file debug content;
  let '(encoding, metadata) := r in
  s ← station_of csv_file_name metadata;
  df ← load_table encoding content;
  grid_dataset debug metadata s df.

(** parse_inmet_csv_to_netcdf_robust: [netcdf] holds the names of the files
    of the output folder. When an output is asked for, [ds.to_netcdf]
    writes it or raises; the exception leaves the function, and the file
    may be there all the same. *)
Definition parse_inmet_csv_to_netcdf_robust (csv_file_name : str) (content : bytes)
    (output_netcdf_path : option str) (debug : bool) (netcdf : list str)
  : result Dataset * list str :=
  match parse_inmet_csv csv_file_name content debug with
  | Ok ds =>
      match output_netcdf_path with
      | Some path =>
          match to_netcdf ds path with
          | Saved => (Ok ds, written path netcdf)
          | WriteFailed code left_behind =>
              (Raise (WriteError code),
               if left_behind then written path netcdf else netcdf)
          end
      | None => (Ok ds, netcdf)
      end
  | Raise e => (Raise e, netcdf)
  end.

End Pipeline.

(** ** The batch orchestrator *)

(** A filter argument: [None], one string, or a list of strings. *)
Inductive filter_arg :=
  | FNone
  | FStr (s : str)
  | FList (l : list str).

(** The file system as the orchestrator sees it. [csv_folder] is [None]
    when the path of the CSV folder does not exist, and otherwise holds the
    files that [glob] chooses its candidates from, by name and content and
    in its order: the entries of the folder, unless the path itself holds
    pattern characters and [glob] lists other folders for it.
    [netcdf_folder] holds the names of the files of the folder NETCDF
    beside the CSV folder (none when that folder is yet to be created). A
    CSV folder that is itself named NETCDF is that folder: [netcdf_folder]
    then names its entries, and the outputs are written among them. *)
Record filesystem := {
  csv_folder : option (list (str * bytes));
  netcdf_folder : list str
}.

Inductive folder := CsvFolder | NetcdfFolder.

(** The message of a result, by its parts. *)
Inductive summary :=
  | FolderNotFound
  | NoCsvFound
  | NoFileForFilters (filters_applied : list (str * list str))
  | Finished (converted skipped failed : nat)
  | NothingProcessed (failed : nat).

(** [saved_paths] are given by the name of the file inside NETCDF,
    [failed_files] by the name of the input. *)
Record NetCDFConversionResult := {
  folder_path : folder;
  success : bool;
  message : summary;
  converted_files : nat;
  skipped_files : nat;
  total_files_found : nat;
  saved_paths : list str;
  failed_files : list str
}.

(** The variables the conversion loop updates, with the output folder. *)
Record progress := {
  st_netcdf : list str;
  st_saved_paths : list str;
  st_failed_files : list str;
  st_skipped_files : list str;
  st_converted_files : nat
}.

Definition endswith (suffix s : str) : bool := startswith (rev suffix) (rev s).

(** [glob] of ["INMET_*.CSV"] on one name. *)
Definition is_inmet_csv (name : str) : bool :=
  startswith #"INMET_" name && endswith #".CSV" name
  && bool_decide (10 ≤ length name)%nat.

(** The truth value of a normalized filter: [None] and [[]] are false. *)
Definition active (filter : option (list str)) : bool :=
  match filter with
  | Some (_ :: _) => true
  | _ => false
  end.

Definition rejects (filter : option (list str)) (x : str) : bool :=
  active filter && bool_decide (x ∉ default [] filter).

(** The name of the output of an input file. *)
Definition netcdf_name (filename : str) : str := replace #".CSV" #".nc" filename.

(** The segments of a file name the orchestrator filters on. *)
Definition name_parts (filename : str) : list str :=
  split UNDERSCORE (replace #".CSV" [] filename).

Section Batch.

Context `{Library}.

(** _normalize_filter: upper case, a single string as a list of one. *)
Definition _normalize_filter (filter_value : filter_arg) : option (list str) :=
  match filter_value with
  | FNone => None
  | FStr s => Some [upper s]
  | FList l => Some (map upper l)
  end.

(** The body of the filtering loop: whether the file is appended. *)
Definition include_file (region_filter uf_filter wmo_filter : option (list str))
    (filename : str) : bool :=
  let parts := name_parts filename in
  if bool_decide (length parts < 5)%nat then false
  else
    let file_region := upper (nth 1 parts []) in
    let file_uf := upper (nth 2 parts []) in
    let file_wmo := upper (nth 3 parts []) in
    negb (rejects region_filter file_region)
    && negb (rejects uf_filter file_uf)
    && negb (rejects wmo_filter file_wmo).

Definition filter_files (all_files : bool)
    (region_filter uf_filter wmo_filter : option (list str))
    (all_csv_files : list (str * bytes)) : list (str * bytes) :=
  if all_files then all_csv_files
  else filter (fun f => include_file region_filter uf_filter wmo_filter (fst f))
              all_csv_files.

(** The body of the conversion loop for one selected file. *)
Definition convert_file (skip_existing : bool) (st : progress) (file : str * bytes)
  : progress :=
  let filename := fst file in
  let netcdf_filename := netcdf_name filename in
  if bool_decide (netcdf_filename ∈ st_netcdf st) && skip_existing then
    {| st_netcdf := st_netcdf st;
       st_saved_paths := st_saved_paths st ++ [netcdf_filename];
       st_failed_files := st_failed_files st;
       st_skipped_files := st_skipped_files st ++ [filename];
       st_converted_files := st_converted_files st |}
  else
    match parse_inmet_csv_to_netcdf_robust filename (snd file)
            (Some netcdf_filename) false (st_netcdf st) with
    | (Ok dataset, netcdf) =>
        if bool_decide (netcdf_filename ∈ netcdf) then
          {| st_netcdf := netcdf;
             st_saved_paths := st_saved_paths st ++ [netcdf_filename];
             st_failed_files := st_failed_files st;
             st_skipped_files := st_skipped_files st;
             st_converted_files := S (st_converted_files st) |}
        else
          {| st_netcdf := netcdf;
             st_saved_paths := st_saved_paths st;
             st_failed_files := st_failed_files st ++ [filename];
             st_skipped_files := st_skipped_files st;
             st_converted_files := st_converted_files st |}
    | (Raise e, netcdf) =>
        {| st_netcdf := netcdf;
           st_saved_paths := st_saved_paths st;
           st_failed_files := st_failed_files st ++ [filename];
           st_skipped_files := st_skipped_files st;
           st_converted_files := st_converted_files st |}
    end.

Definition start (netcdf : list str) : progress :=
  {| st_netcdf := netcdf; st_saved_paths := []; st_failed_files := [];
     st_skipped_files := []; st_converted_files := 0 |}.

(** [for i, csv_file_path in enumerate(filtered_files): try: ... except
    Exception: ...] *)
Definition convert_files (skip_existing : bool) (filtered_files : list (str * bytes))
    (netcdf : list str) : progress :=
  fold_left (convert_file skip_existing) filtered_files (start netcdf).

Definition filters_applied (region_filter uf_filter wmo_filter : option (list str))
  : list (str * list str) :=
  (if active region_filter then [(#"region", default [] region_filter)] else [])
  ++ (if active uf_filter then [(#"uf", default [] uf_filter)] else [])
  ++ (if active wmo_filter then [(#"wmo_code", default [] wmo_filter)] else []).

Definition early (where_ : folder) (msg : summary) (found : nat)
  : NetCDFConversionResult :=
  {| folder_path := where_; success := false; message := msg;
     converted_files := 0; skipped_files := 0; total_files_found := found;
     saved_paths := []; failed_files := [] |}.

(** convert_csvs_to_netcdf: the result, and the names of the files of the
    folder NETCDF when the call returns. *)
Definition convert_csvs_to_netcdf (fs : filesystem)
    (region uf wmo_code : filter_arg) (all_files debug skip_existing : bool)
  : NetCDFConversionResult * list str :=
  match csv_folder fs with
  | None => (early CsvFolder FolderNotFound 0, netcdf_folder fs)
  | Some entries =>
      let all_csv_files := filter (fun f => is_inmet_csv (fst f)) entries in
      match all_csv_files with
      | [] => (early CsvFolder NoCsvFound 0, netcdf_folder fs)
      | _ :: _ =>
          let region_filter := _normalize_filter region in
          let uf_filter := _normalize_filter uf in
          let wmo_filter := _normalize_filter wmo_code in
          let filtered_files :=
            filter_files all_files region_filter uf_filter wmo_filter all_csv_files in
          match filtered_files with
          | [] =>
              (early CsvFolder
                 (NoFileForFilters (filters_applied region_filter uf_filter wmo_filter))
                 (length all_csv_files), netcdf_folder fs)
          | _ :: _ =>
              let st := convert_files skip_existing filtered_files (netcdf_folder fs) in
              let skipped := length (st_skipped_files st) in
              let failed := length (st_failed_files st) in
              let total_processed := (st_converted_files st + skipped)%nat in
              let success := bool_decide (0 < total_processed)%nat in
              ({| folder_path := NetcdfFolder;
                  success := success;
                  message := if success
                             then Finished (st_converted_files st) skipped failed
                             else NothingProcessed failed;
                  converted_files := st_converted_files st;
                  skipped_files := skipped;
                  total_files_found := length all_csv_files;
                  saved_paths := st_saved_paths st;
                  failed_files := st_failed_files st |},
               st_netcdf st)
          end
      end
  end.

(** The files a call selects, for stating what happens to them. *)
Definition selected_files (fs : filesystem) (region uf wmo_code : filter_arg)
    (all_files : bool) : list (str * bytes) :=
  filter_files all_files (_normalize_filter region) (_normalize_filter uf)
    (_normalize_filter wmo_code)
    (filter (fun f => is_inmet_csv (fst f)) (default [] (csv_folder fs))).

End Batch.

(** ** A reference implementation of the library calls

    Enough of Python, pandas and xarray to run the pipeline on plain station
    files: decimal literals of at most fifteen digits, ASCII letters,
    timestamps of the exact shape [YYYY/MM/DD HHMM], tables whose rows have
    no more fields than the header, and a writer that refuses the variable
    names netCDF refuses. Every statement below holds for any
    implementation; this one serves the concrete files. *)

Module Reference.

Fixpoint digits_value (acc : N) (s : str) : option N :=
  match s with
  | [] => Some acc
  | c :: t => if is_ascii_digit c then digits_value (acc * 10 + (c - 48)) t else None
  end.

(** A non-empty run of ASCII digits. *)
Definition natural (s : str) : option N :=
  match s with
  | [] => None
  | _ => digits_value 0 s
  end.

Definition float_of_N (n : N) : float := PrimFloat.of_uint63 (Uint63.of_Z (Z.of_N n)).

(** [digits] or [digits.digits] with an optional sign: both the digits
    and the power of ten are exact doubles, so their quotient is the
    double nearest to the literal. *)
Definition float_of_str (s : str) : option float :=
  let '(negative, body) :=
    match s with
    | 45 :: t => (true, t)
    | 43 :: t => (false, t)
    | _ => (false, s)
    end in
  let magnitude :=
    match split 46 body with
    | [whole] =>
        if bool_decide (length whole ≤ 15)%nat
        then option_map float_of_N (natural whole) else None
    | [whole; fraction] =>
        if bool_decide (length whole + length fraction ≤ 15)%nat
        then match natural whole, natural fraction with
             | Some _, Some _ =>
                 option_map
                   (fun m => PrimFloat.div (float_of_N m)
                               (float_of_N (10 ^ N.of_nat (length fraction))))
                   (natural (whole ++ fraction))
             | _, _ => None
             end
        else None
    | _ => None
    end in
  option_map (fun x => if negative then PrimFloat.opp x else x) magnitude.

Definition float_of_int (z : Z) : float :=
  if (z <? 0)%Z then PrimFloat.opp (float_of_N (Z.abs_N z)) else float_of_N (Z.abs_N z).

Definition str_of_int (z : Z) : str :=
  lit (DecimalString.NilZero.string_of_int (Z.to_int z)).

(** A float other than NaN prints as a number, which no step of the
    pipeline tells apart from any other text that is not a date or hour. *)
Definition str_of_float (x : float) : str :=
  if PrimFloat.is_nan x then #"nan" else #"<float>".

Definition upper (s : str) : str :=
  map (fun c => if (97 <=? c) && (c <=? 122) then c - 32 else c) s.

Definition days_in_month (y m : N) : N :=
  if m =? 2 then
    if ((y mod 4 =? 0) && negb (y mod 100 =? 0)) || (y mod 400 =? 0) then 29 else 28
  else if (m =? 4) || (m =? 6) || (m =? 9) || (m =? 11) then 30 else 31.

Definition to_datetime (s : str) : option datetime :=
  match s with
  | [y1; y2; y3; y4; 47; m1; m2; 47; d1; d2; 32; h1; h2; n1; n2] =>
      match natural [y1; y2; y3; y4], natural [m1; m2], natural [d1; d2],
            natural [h1; h2], natural [n1; n2] with
      | Some y, Some m, Some d, Some h, Some n =>
          if (1 <=? m) && (m <=? 12) && (1 <=? d) && (d <=? days_in_month y m)
             && (h <=? 23) && (n <=? 59)
          then Some {| dt_date := (Z.of_N y, Z.of_N m, Z.of_N d);
                       dt_hour := Z.of_N h; dt_minute := Z.of_N n |}
          else None
      | _, _, _, _, _ => None
      end
  | _ => None
  end.

Definition NA_VALUES : list str :=
  [[]; #" "; #"NULL"; #"null"; #"-9999"; #"#N/A"; #"#N/A N/A"; #"#NA";
   #"-1.#IND"; #"-1.#QNAN"; #"-NaN"; #"-nan"; #"1.#IND"; #"1.#QNAN";
   #"<NA>"; #"N/A"; #"NA"; #"NaN"; #"None"; #"n/a"; #"nan"].

Definition is_na (s : str) : bool := bool_decide (s ∈ NA_VALUES).

(** A field as a number under [decimal=',']. *)
Definition numeric (s : str) : option float :=
  if contains #"." s then None else float_of_str (replace #"," #"." s).

Definition typed_column (fields : list str) : list value :=
  if forallb (fun s => is_na s || bool_decide (is_Some (numeric s))) fields
  then map (fun s => VFloat (if is_na s then nan else default nan (numeric s))) fields
  else map (fun s => if is_na s then VFloat nan else VStr s) fields.

Definition chomp (line : str) : str := rstrip (fun c => c =? LF) line.

Definition label (i : nat) (s : str) : str :=
  match s with
  | [] => #"Unnamed: " ++ lit (DecimalString.NilZero.string_of_uint (Nat.to_uint i))
  | _ => s
  end.

(** Error codes: 1 no header line, 2 a row longer than the header,
    3 undecodable content. *)
Definition read_csv (encoding : option encoding) (content : bytes) : N + DataFrame :=
  match decode (default utf_8 encoding) content with
  | None => inl 3
  | Some text =>
      let lines := filter (fun l => l ≠ []) (map chomp (drop 8 (readlines text))) in
      match lines with
      | [] => inl 1
      | header :: body =>
          let labels := split 59 header in
          let records := map (split 59) body in
          if forallb (fun r => bool_decide (length r ≤ length labels)%nat) records
          then inr {| nrows := length records;
                     columns :=
                       imap (fun i l =>
                               (label i l, typed_column (map (fun r => nth i r []) records)))
                            labels |}
          else inl 2
      end
  end.

(** The names netCDF takes: an ASCII letter, a digit, an underscore or a
    character beyond ASCII first, then no slash and no control character,
    and no space last. *)
Definition netcdf_accepts (name : str) : bool :=
  match name with
  | [] => false
  | c :: _ =>
      (is_ascii_digit c || ((65 <=? c) && (c <=? 90)) || ((97 <=? c) && (c <=? 122))
       || (c =? 95) || (128 <=? c))
      && forallb (fun x => (32 <=? x) && negb (x =? 47) && negb (x =? 127)) name
      && negb (default 0 (last name) =? 32)
  end.

(** The file is created first and the variables next: a refused name
    raises with the file in place. *)
Definition to_netcdf (ds : Dataset) (path : str) : write_outcome :=
  if forallb netcdf_accepts (dict_keys (data_vars ds)) then Saved
  else WriteFailed 1 true.

Definition library : Library :=
  Build_Library float_of_str float_of_int str_of_float str_of_int upper
                read_csv to_datetime to_netcdf.

End Reference.

(** ** Station files for the concrete cases *)

Module Files.

Definition bytes_of (s : string) : bytes := map byte_of_ascii (list_ascii_of_string s).

(** The content of a file from its lines, each ended by a line feed. *)
Definition file_of_lines (ls : list string) : bytes :=
  flat_map (fun l => bytes_of l ++ [Byte.x0a]) ls.

Definition PREAMBLE : list string :=
  ["REGIAO:;CO"; "UF:;DF"; "ESTACAO:;BRASILIA"; "CODIGO (WMO):;A001";
   "LATITUDE:;-15,5"; "LONGITUDE:;-47,25"; "ALTITUDE:;1160,75";
   "DATA DE FUNDACAO:;07/05/00"]%string.

(** Two dates, three hours, one blank cell. *)
Definition brasilia : bytes :=
  file_of_lines
    (PREAMBLE ++
     ["Data;Hora UTC;TEMPERATURA (C);UMIDADE, HORARIA (%)";
      "2024/01/01;0000 UTC;20,5;80";
      "2024/01/01;0100 UTC;;81";
      "2024/01/01;0200 UTC;21,5;82";
      "2024/01/02;0000 UTC;22,5;83";
      "2024/01/02;0100 UTC;23,5;84";
      "2024/01/02;0200 UTC;24,5;85"]%string).

Definition brasilia_name : str := #"INMET_CO_DF_A001_BRASILIA_01-01-2024_A_31-12-2024.CSV".

Definition brasilia_metadata : dict str :=
  Eval vm_compute in
    match read_station_file false brasilia with
    | Ok r => snd r
    | Raise _ => []
    end.

(** -15.5, -47.25 and 1160.75 as doubles. *)
Definition brasilia_latitude : float :=
  Eval vm_compute in
    PrimFloat.opp (PrimFloat.div (Reference.float_of_N 31) (Reference.float_of_N 2)).
Definition brasilia_longitude : float :=
  Eval vm_compute in
    PrimFloat.opp (PrimFloat.div (Reference.float_of_N 189) (Reference.float_of_N 4)).
Definition brasilia_altitude : float :=
  Eval vm_compute in PrimFloat.div (Reference.float_of_N 4643) (Reference.float_of_N 4).

(** The same station without its latitude line. *)
Definition no_latitude : bytes :=
  file_of_lines
    (["REGIAO:;CO"; "UF:;DF"; "ESTACAO:;BRASILIA"; "CODIGO (WMO):;A001";
      "SITUACAO:;Operante"; "LONGITUDE:;-47,25"; "ALTITUDE:;1160,75";
      "DATA DE FUNDACAO:;07/05/00";
      "Data;Hora UTC;TEMPERATURA (C)";
      "2024/01/01;0000 UTC;20,5"]%string).

Definition no_latitude_metadata : dict str :=
  Eval vm_compute in
    match read_station_file false no_latitude with
    | Ok r => snd r
    | Raise _ => []
    end.

(** A table with a date column and an hour column that is not marked UTC. *)
Definition hour_without_utc : bytes :=
  file_of_lines
    (PREAMBLE ++
     ["Data;Hora;TEMPERATURA (C)";
      "2024/01/01;0000;20,5";
      "2024/01/01;0100;21,5"]%string).

(** Two rows with the same date and hour. *)
Definition repeated_hour : bytes :=
  file_of_lines
    (PREAMBLE ++
     ["Data;Hora UTC;TEMPERATURA (C)";
      "2024/01/01;0000 UTC;20,5";
      "2024/01/01;0000 UTC;21,5"]%string).

(** A file with too few lines for a preamble. *)
Definition truncated : bytes := file_of_lines ["REGIAO:;CO"; "UF:;DF"]%string.

(** A name with three segments. *)
Definition short_name : str := #"INMET_BRASILIA_2024.CSV".

Definition gama_name : str := #"INMET_CO_DF_A002_GAMA_01-01-2024_A_31-12-2024.CSV".

(** A folder with a file that cannot be read as a station and one that can,
    and nothing converted yet. *)
Definition station_folder : filesystem :=
  {| csv_folder := Some [(gama_name, truncated); (brasilia_name, brasilia)];
     netcdf_folder := [] |}.

(** A column whose sanitized name, [%_UMIDADE], netCDF refuses. *)
Definition percent_first : bytes :=
  file_of_lines
    (PREAMBLE ++
     ["Data;Hora UTC;% UMIDADE";
      "2024/01/01;0000 UTC;80";
      "2024/01/01;0100 UTC;81"]%string).

(** A folder with that file alone, and nothing converted yet. *)
Definition refused_folder : filesystem :=
  {| csv_folder := Some [(brasilia_name, percent_first)];
     netcdf_folder := [] |}.

Definition planaltina_name : str :=
  #"INMET_CO_DF_A003_PLANALTINA_01-01-2024_A_31-12-2024.CSV".

(** A folder with a file that cannot be read, one that is converted and
    one whose write raises, and nothing converted yet. *)
Definition mixed_folder : filesystem :=
  {| csv_folder := Some [(gama_name, truncated); (brasilia_name, brasilia);
                         (planaltina_name, percent_first)];
     netcdf_folder := [] |}.

(** A folder with a file whose name has three segments. *)
Definition short_folder : filesystem :=
  {| csv_folder := Some [(short_name, brasilia); (brasilia_name, brasilia)];
     netcdf_folder := [] |}.

Definition TEMPERATURA : str := #"TEMPERATURA (C)".

(** 20.5 and 21.5 as doubles. *)
Definition twenty_and_a_half : float :=
  Eval vm_compute in PrimFloat.div (Reference.float_of_N 41) (Reference.float_of_N 2).
Definition twenty_one_and_a_half : float :=
  Eval vm_compute in PrimFloat.div (Reference.float_of_N 43) (Reference.float_of_N 2).

End Files.

(** ** Predicates for stating the properties of the sanitizer *)

(** No two underscores in a row. *)
Fixpoint single_underscores (s : str) : Prop :=
  match s with
  | c :: (c' :: _) as t => ¬ (c = UNDERSCORE ∧ c' = UNDERSCORE) ∧ single_underscores t
  | _ => True
  end.

(** Neither the first nor the last character satisfies [p]. *)
Definition trimmed (p : char → bool) (s : str) : Prop :=
  (∀ c, head s = Some c → p c = false) ∧ (∀ c, last s = Some c → p c = false).

(** What every output of [clean_name] satisfies. *)
Record sanitized (s : str) : Prop := {
  sanitized_symbols : Forall (fun c => is_replaced c = false) s;
  sanitized_single : single_underscores s;
  sanitized_trimmed : trimmed is_underscore s;
  sanitized_digit : ∀ c, head s = Some c → isdigit c = false;
  sanitized_nonempty : s ≠ []
}.

(** The data stored under [name]: that of the last label, in iteration
    order, whose sanitized name is [name]. *)
Definition last_cleaned_to {V} (name : str) (data_vars : dict V) : option V :=
  snd <$> last (filter (fun item => clean_name (fst item) = name) data_vars).

(** ** Predicates for stating the properties of the pipeline *)

Definition COORDINATE_KEYS : list str := [#"LATITUDE"; #"LONGITUDE"; #"ALTITUDE"].

Definition MissingEssentialColumns : exn := ValueError NoDateHourColumns.

Section PipelineSpec.

Context `{Library}.

(** The preamble gives no usable number under [key]: the key is absent, or
    its value, with the comma read as the decimal point, is not a number. *)
Definition no_coordinate (metadata : dict str) (key : str) : Prop :=
  dict_get metadata key = None
  ∨ ∃ text, dict_get metadata key = Some text
            ∧ float_of_str (replace #"," #"." text) = None.

(** The preamble gives the number [x] under [key]: the text under the key,
    with the comma read as the decimal point, is the number [x]. *)
Definition coordinate_is (metadata : dict str) (key : str) (x : float) : Prop :=
  ∃ text, dict_get metadata key = Some text
          ∧ float_of_str (replace #"," #"." text) = Some x.

(** The table of a file, when the pipeline gets as far as loading it. *)
Definition table_of (csv_file_name : str) (content : bytes) (debug : bool)
  : option DataFrame :=
  match read_station_file debug content with
  | Ok (encoding, metadata) =>
      match station_of csv_file_name metadata, load_table encoding content with
      | Ok _, Ok df => Some df
      | _, _ => None
      end
  | Raise _ => None
  end.

(** The labels of the table when the pipeline looks for its main columns. *)
Definition labels_after_renaming (df : DataFrame) : list str :=
  column_names (rename_columns (dropna_columns df)).

End PipelineSpec.

(** ** Predicates for stating the properties of the grids *)

(** One assignment to the flat data of a matrix: the index and the value,
    when there is one to write. *)
Definition upd (l : list float) (u : nat * option float) : list float :=
  match snd u with
  | Some x => <[fst u := x]> l
  | None => l
  end.

Section GridSpec.

Context `{Library}.

(** The float a raw cell gives to a grid: [float(v)] when [v] is present
    and a number, the missing marker otherwise. *)
Definition grid_value (v : value) : float :=
  if usable v then default nan (float_of_value v) else nan.

(** What the loop body writes for the cell of [d] and [h], if anything. *)
Definition cell_update (t : TimeIndex) (col : list value) (d : date) (h : Z)
  : option float :=
  match mask t d h with
  | r :: _ => if usable (cell col r) then float_of_value (cell col r) else None
  | [] => None
  end.

(** All the assignments of the two loops, in order. *)
Definition updates (t : TimeIndex) (col : list value) : list (nat * option float) :=
  flat_map (fun id =>
              map (fun jh => (fst id * length (hours t) + fst jh,
                              cell_update t col (snd id) (snd jh))%nat)
                  (enumerate (hours t)))
           (enumerate (dates t)).

(** The array of one variable as the dataset holds it. *)
Definition var_array (t : TimeIndex) (col : list value) : ndarray :=
  {| shape := [1; 1; 1; length (dates t); length (hours t); 1; 1; 1]%nat;
     data := data (var_matrix t col) |}.

(** The prepared table and the time index of a run that gets that far. *)
Definition index_of (csv_file_name : str) (content : bytes) (debug : bool)
  : option (DataFrame * TimeIndex) :=
  match table_of csv_file_name content debug with
  | Some df0 =>
      match prepare_table df0 with
      | Ok df =>
          match time_index debug df with
          | Ok t => Some (df, t)
          | Raise _ => None
          end
      | Raise _ => None
      end
  | None => None
  end.

(** [r0] is the earliest surviving row with the date and hour of [r]. *)
Definition first_of_cell (t : TimeIndex) (r0 r : nat) : Prop :=
  r0 ∈ rows t
  ∧ date_only t r0 = date_only t r ∧ hour_only t r0 = hour_only t r
  ∧ ∀ r', r' ∈ rows t → date_only t r' = date_only t r →
          hour_only t r' = hour_only t r → (r0 ≤ r')%nat.

(** The axes hold every date and every hour of the surviving rows once. *)
Definition distinct_axes (t : TimeIndex) : Prop :=
  NoDup (dates t) ∧ (∀ d, d ∈ dates t ↔ ∃ r, r ∈ rows t ∧ date_only t r = d)
  ∧ NoDup (hours t) ∧ (∀ h, h ∈ hours t ↔ ∃ r, r ∈ rows t ∧ hour_only t r = h).

(** An array laid out on the eight axes, one cell for each date and hour,
    with the missing marker wherever no surviving row falls. *)
Definition gridded (t : TimeIndex) (dims : list str) (arr : ndarray) : Prop :=
  dims = DIMS
  ∧ shape arr = [1; 1; 1; length (dates t); length (hours t); 1; 1; 1]%nat
  ∧ length (data arr) = (length (dates t) * length (hours t))%nat
  ∧ ∀ i j d h, dates t !! i = Some d → hours t !! j = Some h →
               mask t d h = [] →
               data arr !! (i * length (hours t) + j)%nat = Some nan.

(** What the grids hold for the surviving row [r]. *)
Definition row_is_gridded (df : DataFrame) (t : TimeIndex) (r : nat) : Prop :=
  (∃ data_vars, build_data_vars df t (met_variables df) [] = Ok data_vars)
  ∧ ∀ var, ∃ i j r0,
      dates t !! i = Some (date_only t r)
      ∧ hours t !! j = Some (hour_only t r)
      ∧ first_of_cell t r0 r
      ∧ getitem2 (var_matrix t (column df var)) i j
        = Some (grid_value (cell (column df var) r0)).

(** The layout of the dataset of a run. *)
Definition gridded_dataset (csv_file_name : str) (content : bytes) (debug : bool)
    (ds : Dataset) : Prop :=
  ∃ df t,
    index_of csv_file_name content debug = Some (df, t)
    ∧ coord_date ds = dates t ∧ coord_hour_utc ds = hours t
    ∧ distinct_axes t
    ∧ length (coord_region ds) = 1%nat ∧ length (coord_uf ds) = 1%nat
    ∧ length (coord_wmo_code ds) = 1%nat ∧ length (coord_lat ds) = 1%nat
    ∧ length (coord_lon ds) = 1%nat ∧ length (coord_alt ds) = 1%nat
    ∧ ∀ name dims arr, (name, (dims, arr)) ∈ data_vars ds → gridded t dims arr.

End GridSpec.

(** ** Predicates for stating the properties of the orchestrator *)

(** [count c s]: the occurrences of [c] in [s]. *)
Definition count (c : char) (s : list char) : nat := length (filter (fun x => x = c) s).

(** The outcome of a file in a batch. *)
Inductive outcome := Converted | SkippedExisting | Failed.

#[global] Instance outcome_eq_dec : EqDecision outcome.
Proof. solve_decision. Defined.

(** The files of a progress that are accounted for. *)
Definition accounted (st : progress) : nat :=
  (st_converted_files st + length (st_skipped_files st) + length (st_failed_files st))%nat.

Section BatchSpec.

Context `{Library}.

(** The pipeline, as the orchestrator calls it, reads the file and writes
    its output. *)
Definition converts (file : str * bytes) : bool :=
  match parse_inmet_csv (fst file) (snd file) false with
  | Ok ds =>
      match to_netcdf ds (netcdf_name (fst file)) with
      | Saved => true
      | WriteFailed _ _ => false
      end
  | Raise _ => false
  end.

(** The pipeline reads the file, and the write raises with the output
    created. *)
Definition leaves_file (file : str * bytes) : bool :=
  match parse_inmet_csv (fst file) (snd file) false with
  | Ok ds =>
      match to_netcdf ds (netcdf_name (fst file)) with
      | Saved => false
      | WriteFailed _ left_behind => left_behind
      end
  | Raise _ => false
  end.

(** The output is in the folder once the pipeline has run on the file. *)
Definition produces (file : str * bytes) : bool := converts file || leaves_file file.

(** The file is skipped when its turn comes in the state [st]. *)
Definition skips (skip_existing : bool) (st : progress) (file : str * bytes) : bool :=
  bool_decide (netcdf_name (fst file) ∈ st_netcdf st) && skip_existing.

(** The three ways the loop leaves a file. *)
Definition skipped_state (st : progress) (file : str * bytes) : progress :=
  {| st_netcdf := st_netcdf st;
     st_saved_paths := st_saved_paths st ++ [netcdf_name (fst file)];
     st_failed_files := st_failed_files st;
     st_skipped_files := st_skipped_files st ++ [fst file];
     st_converted_files := st_converted_files st |}.

Definition converted_state (st : progress) (file : str * bytes) : progress :=
  {| st_netcdf := written (netcdf_name (fst file)) (st_netcdf st);
     st_saved_paths := st_saved_paths st ++ [netcdf_name (fst file)];
     st_failed_files := st_failed_files st;
     st_skipped_files := st_skipped_files st;
     st_converted_files := S (st_converted_files st) |}.

Definition failed_state (st : progress) (file : str * bytes) : progress :=
  {| st_netcdf := if leaves_file file
                  then written (netcdf_name (fst file)) (st_netcdf st)
                  else st_netcdf st;
     st_saved_paths := st_saved_paths st;
     st_failed_files := st_failed_files st ++ [fst file];
     st_skipped_files := st_skipped_files st;
     st_converted_files := st_converted_files st |}.

(** The candidates of a call: the entries that [glob] returns. *)
Definition all_csv_files (fs : filesystem) : list (str * bytes) :=
  filter (fun f => is_inmet_csv (fst f)) (default [] (csv_folder fs)).

(** The outcome of a file whose turn comes with the files [netcdf] in the
    output folder: skipped when its output is there and existing outputs
    are to be skipped, converted when the pipeline reads it and writes its
    output, failed otherwise. *)
Definition outcome_of (skip_existing : bool) (netcdf : list str) (file : str * bytes)
  : outcome :=
  if bool_decide (netcdf_name (fst file) ∈ netcdf) && skip_existing then SkippedExisting
  else if converts file then Converted
  else Failed.

(** The output folder after the turn of a file. *)
Definition folder_after (skip_existing : bool) (netcdf : list str) (file : str * bytes)
  : list str :=
  match outcome_of skip_existing netcdf file with
  | SkippedExisting => netcdf
  | Converted => written (netcdf_name (fst file)) netcdf
  | Failed => if leaves_file file then written (netcdf_name (fst file)) netcdf else netcdf
  end.

(** The output folder after the turns of the files, in their order. *)
Definition final_folder (skip_existing : bool) (netcdf : list str)
    (files : list (str * bytes)) : list str :=
  fold_left (folder_after skip_existing) files netcdf.

(** Every file with the outcome it has when its turn comes. *)
Fixpoint outcomes (skip_existing : bool) (netcdf : list str)
    (files : list (str * bytes)) : list ((str * bytes) * outcome) :=
  match files with
  | [] => []
  | file :: rest =>
      (file, outcome_of skip_existing netcdf file)
      :: outcomes skip_existing (folder_after skip_existing netcdf file) rest
  end.

(** The files with a given outcome. *)
Definition with_outcome (o : outcome) (outs : list ((str * bytes) * outcome))
  : list (str * bytes) :=
  map fst (filter (fun x => snd x = o) outs).

(** The outputs listed as saved: those of the files converted or skipped. *)
Definition listed_outputs (outs : list ((str * bytes) * outcome)) : list str :=
  map (fun x => netcdf_name (fst (fst x))) (filter (fun x => snd x ≠ Failed) outs).

(** Two file systems hold the same input files: [glob] returns the same
    candidates. *)
Definition same_candidates (fs fs' : filesystem) : Prop :=
  all_csv_files fs' = all_csv_files fs.

End BatchSpec.


(** ** More predicates for the sanitizer *)

(** The characters the sanitizer turns into a single underscore. *)
Definition SEPARATORS : list char := #"(" ++ #")" ++ #" " ++ #"," ++ #"-" ++ #"." ++ #"_".

(** The label with each key sanitized, in the order of the input. *)
Definition renamed {V} (data_vars : dict V) : dict V :=
  map (fun item => (clean_name (fst item), snd item)) data_vars.

(** The sanitized names of the labels, in the order of the input. *)
Definition cleaned_keys {V} (data_vars : dict V) : list str :=
  map (fun item => clean_name (fst item)) data_vars.

(** ** More predicates for reading a station file *)

(** The five bytes that code page 1252 leaves undefined. *)
Definition CP1252_UNDEFINED : list N := [129; 141; 143; 144; 157].

(** The encoding the branch without debug ends with. *)
Definition silent_encoding (content : bytes) : encoding :=
  if bool_decide (Exists (fun b => Byte.to_N b ∈ CP1252_UNDEFINED) content)
  then latin1 else cp1252.

(** The text of a file under an encoding that reads it. *)
Definition text_of (enc : encoding) (content : bytes) : str :=
  default [] (decode enc content).

(** The dictionary the metadata loop builds from the first eight lines. *)
Definition preamble (lines : list str) : dict str :=
  fold_left metadata_line (take 8 lines) [].

(** What one line of the preamble says about [key]: its second field, when
    the line has two fields or more and its first field, colons removed,
    is [key]. *)
Definition preamble_value (key : str) (line : str) : option str :=
  match split 59 (strip isspace line) with
  | k :: value :: _ => if decide (replace #":" [] k = key) then Some value else None
  | _ => None
  end.

(** A byte outside 0x80..0x9F, where code page 1252 and Latin-1 differ. *)
Definition plain_byte (b : Byte.byte) : Prop := ¬ (128 ≤ Byte.to_N b < 160).

(** An entry of the preamble as the loop leaves it: no colon (58) and no
    semicolon (59) in the key, no semicolon in the value. *)
Definition preamble_entry (item : str * str) : Prop :=
  (58 ∉ fst item) ∧ (59 ∉ fst item) ∧ (59 ∉ snd item).

(** Two characters that break lines alike: both or neither a line feed,
    both or neither a carriage return. *)
Definition same_breaks (c b : char) : Prop :=
  (c =? LF) = (b =? LF) ∧ (c =? CR) = (b =? CR).

(** ** More predicates for file names *)

(** A file name that ends in [.CSV] and holds [.CSV] nowhere else: [base]
    is what comes before the extension. *)
Definition plain_csv_name (filename base : str) : Prop :=
  filename = base ++ #".CSV" ∧ contains #".CSV" base = false.

(** ** More predicates for the pipeline *)

(** Dates in strictly increasing order. *)
Definition date_lt (a b : date) : Prop := date_le a b ∧ a ≠ b.

(** A column other than the time columns whose sanitized name is that of
    one of the eight coordinates. *)
Definition clashes (df : DataFrame) : Prop :=
  Exists (fun var => clean_name var ∈ DIMS) (met_variables df).

(** The first row of each cell of the grid. *)
Definition first_rows (t : TimeIndex) (r : nat) : Prop :=
  ∃ d h, d ∈ dates t ∧ h ∈ hours t ∧ head (mask t d h) = Some r.

Section PipelineSpecMore.

Context `{Library}.

(** The timestamp the pipeline reads on the row [r] of a prepared table. *)
Definition timestamp (df : DataFrame) (r : nat) : option datetime :=
  to_datetime (astype_str (cell (column df #"date") r) ++ #" "
               ++ hour_clean (cell (column df #"hour_utc") r)).

End PipelineSpecMore.

(** ** More station files for the concrete cases *)

Module Cases.

(** A header and no row. *)
Definition header_only : bytes :=
  Files.file_of_lines (Files.PREAMBLE ++ ["Data;Hora UTC;TEMPERATURA (C)"]%string).

(** Rows whose dates are not written as year/month/day. *)
Definition unreadable_dates : bytes :=
  Files.file_of_lines
    (Files.PREAMBLE ++
     ["Data;Hora UTC;TEMPERATURA (C)";
      "01-01-2024;0000 UTC;20,5";
      "02-01-2024;0100 UTC;21,5"]%string).

(** A column named as the latitude coordinate. *)
Definition latitude_column : bytes :=
  Files.file_of_lines
    (Files.PREAMBLE ++
     ["Data;Hora UTC;lat";
      "2024/01/01;0000 UTC;20,5"]%string).

(** One cell on two rows. *)
Definition one_cell : TimeIndex :=
  {| rows := [0; 1]%nat;
     date_only := fun _ => (2024, 1, 1)%Z;
     hour_only := fun _ => 0%Z;
     dates := [(2024, 1, 1)%Z];
     hours := [0%Z] |}.

End Cases.

(** ** The exceptions a run can end with *)

Definition pipeline_error (e : exn) : Prop :=
  e = IndexError
  ∨ (∃ key, key ∈ COORDINATE_KEYS ∧ e = KeyError key)
  ∨ e = ValueError NotAFloat
  ∨ (∃ code, e = LibraryError code)
  ∨ e = ValueError NoDateHourColumns
  ∨ e = AttributeError
  ∨ e = ValueError DuplicateLabel
  ∨ e = ValueError InDataVarsAndCoords.

Section DatasetSpec.

Context `{Library}.

(** The column that gives the variable [name] its grid: the last of the
    distinct labels, in the order of the table, whose sanitized name is
    [name]. *)
Definition source_column (df : DataFrame) (name : str) : option str :=
  last (filter (fun var => clean_name var = name) (unique (met_variables df))).

End DatasetSpec.

(** ** More predicates for the orchestrator *)

Section BatchSpecMore.

Context `{Library}.

(** The values a filter argument stands for: those of its list in upper
    case, none for [None] and for the empty list. *)
Definition filter_values (filter_value : filter_arg) : list str :=
  default [] (_normalize_filter filter_value).

(** The outputs of the files the pipeline converts, in the order of the
    files. *)
Definition converted_outputs (files : list (str * bytes)) : list str :=
  map (fun f => netcdf_name (fst f)) (filter (fun f => converts f = true) files).

(** The outputs the pipeline puts in the folder, those of the files it
    converts and those a write leaves as it raises, in the order of the
    files. *)
Definition produced_outputs (files : list (str * bytes)) : list str :=
  map (fun f => netcdf_name (fst f)) (filter (fun f => produces f = true) files).

(** The names of the files the pipeline fails on, in the order of the
    files. *)
Definition failing_names (files : list (str * bytes)) : list str :=
  map fst (filter (fun f => converts f = false) files).

End BatchSpecMore.

(** * Properties *)

(** ** The sanitizer on concrete labels *)

Example clean_name_precip :
  clean_name #"PRECIPITACAO TOTAL, HORARIO (mm)" = #"PRECIPITACAO_TOTAL_HORARIO_mm".
Proof. reflexivity. Qed.
Example clean_name_wind : clean_name #"VENTO, VELOCIDADE HORARIA (m/s)" = #"VENTO_VELOCIDADE_HORARIA_m_per_s".
Proof. reflexivity. Qed.
Example clean_name_digit : clean_name #"2m temp" = #"var_2m_temp".
Proof. reflexivity. Qed.
Example clean_name_empty : clean_name #"(-)" = #"unknown_variable".
Proof. reflexivity. Qed.

(** ** The sanitizer: replacement of one character *)

Lemma replace_single (c : char) (new s : str) :
  replace [c] new s = flat_map (fun x => if x =? c then new else [x]) s.
Proof.
  unfold replace. induction s as [|x s IH]; [done|].
  cbn [replace_go startswith flat_map length]. rewrite andb_true_r, N.eqb_sym.
  destruct (x =? c); cbn; by rewrite IH.
Qed.

Lemma replace_single_app (c : char) (new a b : str) :
  replace [c] new (a ++ b) = replace [c] new a ++ replace [c] new b.
Proof. rewrite !replace_single. apply flat_map_app. Qed.

Lemma replace_symbols_app (a b : str) :
  replace_symbols (a ++ b) = replace_symbols a ++ replace_symbols b.
Proof.
  unfold replace_symbols.
  change #"/" with [47]; change #"(" with [40]; change #")" with [41];
  change #" " with [32]; change #"," with [44]; change #"-" with [45];
  change #"." with [46].
  by rewrite !replace_single_app.
Qed.

Lemma replace_symbols_flat_map (s : str) :
  replace_symbols s = flat_map (fun c => replace_symbols [c]) s.
Proof.
  induction s as [|c s IH]; [done|].
  change (c :: s) with ([c] ++ s). rewrite replace_symbols_app, IH. done.
Qed.

Lemma is_replaced_unfold (c : char) :
  is_replaced c =
    (c =? 47) || ((c =? 40) || ((c =? 41) || ((c =? 176) || ((c =? 32)
    || ((c =? 44) || ((c =? 45) || ((c =? 46) || ((c =? 178) || ((c =? 179)
    || false))))))))).
Proof. reflexivity. Qed.

Ltac evaluate_symbols :=
  match goal with
  | |- context [replace_symbols ?s] =>
      let r := eval vm_compute in (replace_symbols s) in
      change (replace_symbols s) with r
  end.

(** What the chain of replacements does to one character: one of the ten
    symbols becomes its substitute, any other character stays. *)
Lemma replace_symbols_char (c : char) :
  (is_replaced c = false ∧ replace_symbols [c] = [c]) ∨
  (is_replaced c = true ∧
   Forall (fun x => is_replaced x = false ∧ ident_char x = true) (replace_symbols [c])).
Proof.
  destruct (is_replaced c) eqn:Hc.
  - right. split; [done|].
    rewrite is_replaced_unfold in Hc.
    repeat match type of Hc with
           | (?x =? ?k) || _ = true =>
               destruct (N.eqb_spec x k) as [E|_];
               [rewrite E; evaluate_symbols; by repeat constructor
               |cbn [orb] in Hc]
           end.
    done.
  - left. split; [done|].
    rewrite is_replaced_unfold in Hc.
    repeat match type of Hc with
           | (?x =? ?k) || _ = false =>
               apply orb_false_elim in Hc as [? Hc]
           end.
    unfold replace_symbols.
    change #"/" with [47]; change #"(" with [40]; change #")" with [41];
    change #" " with [32]; change #"," with [44]; change #"-" with [45];
    change #"." with [46]; change DEGREE with 176; change SUPER_TWO with 178;
    change SUPER_THREE with 179.
    rewrite !replace_single. cbn [flat_map app].
    repeat match goal with
           | E : (c =? ?k) = false |- _ => rewrite E; clear E; cbn [flat_map app]
           end.
    done.
Qed.

Lemma replace_symbols_clean (s : str) :
  Forall (fun x => is_replaced x = false) (replace_symbols s).
Proof.
  rewrite replace_symbols_flat_map. induction s as [|c s IH]; [constructor|].
  cbn [flat_map]. apply Forall_app. split; [|done].
  destruct (replace_symbols_char c) as [[Hc ->]|[_ Hc]].
  - by constructor.
  - eapply Forall_impl; [exact Hc|]. by intros x [? _].
Qed.

Lemma replace_symbols_fixed (s : str) :
  Forall (fun x => is_replaced x = false) s → replace_symbols s = s.
Proof.
  intros Hs. rewrite replace_symbols_flat_map.
  induction Hs as [|c s Hc _ IH]; [done|].
  cbn [flat_map]. rewrite IH.
  destruct (replace_symbols_char c) as [[_ ->]|[Hc' _]]; [done|congruence].
Qed.

Lemma replace_symbols_ident (s : str) :
  Forall (fun c => ident_char c = true ∨ is_replaced c = true) s →
  Forall (fun c => ident_char c = true) (replace_symbols s).
Proof.
  intros Hs. rewrite replace_symbols_flat_map.
  induction Hs as [|c s Hc _ IH]; [constructor|].
  cbn [flat_map]. apply Forall_app. split; [|done].
  destruct (replace_symbols_char c) as [[Hn ->]|[_ Hr]].
  - constructor; [|constructor]. destruct Hc; congruence.
  - eapply Forall_impl; [exact Hr|]. by intros x [_ ?].
Qed.

(** ** The sanitizer: underscores *)

Lemma sub_underscores_cons (c c' : char) (s : str) :
  sub_underscores (c :: c' :: s) =
    if (c =? UNDERSCORE) && (c' =? UNDERSCORE) then sub_underscores (c' :: s)
    else c :: sub_underscores (c' :: s).
Proof. reflexivity. Qed.

Lemma sub_underscores_head (c : char) (s : str) :
  ∃ t, sub_underscores (c :: s) = c :: t.
Proof.
  revert c. induction s as [|c' s IH]; intros c; [by eexists|].
  rewrite sub_underscores_cons. destruct ((c =? UNDERSCORE) && (c' =? UNDERSCORE)) eqn:E.
  - apply andb_true_iff in E as [->%N.eqb_eq ->%N.eqb_eq]. apply IH.
  - by eexists.
Qed.

Lemma sub_underscores_single (s : str) : single_underscores (sub_underscores s).
Proof.
  induction s as [|c s IH]; [done|].
  destruct s as [|c' s]; [done|].
  rewrite sub_underscores_cons. destruct ((c =? UNDERSCORE) && (c' =? UNDERSCORE)) eqn:E; [done|].
  destruct (sub_underscores_head c' s) as [t Ht]. rewrite Ht in IH |- *.
  split; [|done]. intros [-> ->]. by rewrite !N.eqb_refl in E.
Qed.

Lemma sub_underscores_fixed (s : str) : single_underscores s → sub_underscores s = s.
Proof.
  induction s as [|c s IH]; [done|].
  destruct s as [|c' s]; [done|].
  intros [Hne Hs]. rewrite sub_underscores_cons.
  destruct ((c =? UNDERSCORE) && (c' =? UNDERSCORE)) eqn:E.
  - apply andb_true_iff in E as [?%N.eqb_eq ?%N.eqb_eq]. by destruct Hne.
  - by rewrite IH.
Qed.

Lemma sub_underscores_Forall (P : char → Prop) (s : str) :
  Forall P s → Forall P (sub_underscores s).
Proof.
  induction 1 as [|c s Hc Hs IH]; [constructor|].
  destruct s as [|c' s]; [by repeat constructor|].
  rewrite sub_underscores_cons. destruct ((c =? UNDERSCORE) && (c' =? UNDERSCORE)); [done|].
  by constructor.
Qed.

Lemma single_underscores_tail (c : char) (s : str) :
  single_underscores (c :: s) → single_underscores s.
Proof. destruct s; [done|]. by intros [_ ?]. Qed.

Lemma lstrip_suffix (p : char → bool) (s : str) : lstrip p s `suffix_of` s.
Proof.
  induction s as [|c s IH]; [done|]. cbn. destruct (p c); [|done].
  by apply suffix_cons_r.
Qed.

Lemma rstrip_prefix (p : char → bool) (s : str) : rstrip p s `prefix_of` s.
Proof.
  induction s as [|c s IH]; [done|]. cbn.
  destruct (rstrip p s) as [|x r] eqn:E.
  - destruct (p c); [apply prefix_nil|]. by apply prefix_cons, prefix_nil.
  - by apply prefix_cons.
Qed.

Lemma single_underscores_app_l (a b : str) :
  single_underscores (a ++ b) → single_underscores a.
Proof.
  induction a as [|c a IH]; [done|]. destruct a as [|c' a]; [done|].
  intros [? ?]. split; [done|]. by apply IH.
Qed.

Lemma single_underscores_app_r (a b : str) :
  single_underscores (a ++ b) → single_underscores b.
Proof.
  induction a as [|c a IH]; [done|]. intros Hs. apply IH.
  by eapply single_underscores_tail.
Qed.

Lemma strip_sublist (p : char → bool) (s : str) :
  ∃ a b, s = a ++ strip p s ++ b.
Proof.
  unfold strip.
  destruct (rstrip_prefix p s) as [b Hb].
  destruct (lstrip_suffix p (rstrip p s)) as [a Ha].
  exists a, b. rewrite Hb at 1. rewrite Ha at 1. by rewrite <- app_assoc.
Qed.

Lemma strip_single (p : char → bool) (s : str) :
  single_underscores s → single_underscores (strip p s).
Proof.
  intros Hs. destruct (strip_sublist p s) as (a & b & E). rewrite E in Hs.
  by eapply single_underscores_app_l, single_underscores_app_r.
Qed.

Lemma strip_Forall (P : char → Prop) (p : char → bool) (s : str) :
  Forall P s → Forall P (strip p s).
Proof.
  intros Hs. destruct (strip_sublist p s) as (a & b & E). rewrite E in Hs.
  by apply Forall_app in Hs as [_ [? _]%Forall_app].
Qed.

Lemma lstrip_head (p : char → bool) (s : str) (c : char) :
  head (lstrip p s) = Some c → p c = false.
Proof.
  induction s as [|x s IH]; [done|]. cbn. destruct (p x) eqn:E; [done|].
  cbn. by intros [= <-].
Qed.

Lemma rstrip_last (p : char → bool) (s : str) (c : char) :
  last (rstrip p s) = Some c → p c = false.
Proof.
  induction s as [|x s IH]; [done|]. cbn.
  destruct (rstrip p s) as [|y r] eqn:E.
  - destruct (p x) eqn:Ex; [done|]. cbn. by intros [= <-].
  - done.
Qed.

Lemma suffix_last (a s : str) (c : char) :
  a `suffix_of` s → last a = Some c → last s = Some c.
Proof. intros [k ->] Ha. by rewrite last_app, Ha. Qed.

Lemma strip_trimmed (p : char → bool) (s : str) : trimmed p (strip p s).
Proof.
  split; intros c Hc.
  - by eapply lstrip_head.
  - eapply rstrip_last, suffix_last; [apply lstrip_suffix|done].
Qed.

Lemma rstrip_fixed (p : char → bool) (s : str) :
  (∀ c, last s = Some c → p c = false) → rstrip p s = s.
Proof.
  induction s as [|x s IH]; [done|]. intros Hl. cbn.
  destruct s as [|y s].
  - cbn. by rewrite (Hl x).
  - rewrite IH; [done|]. intros c Hc. apply Hl. by rewrite last_cons, Hc.
Qed.

Lemma lstrip_fixed (p : char → bool) (s : str) :
  (∀ c, head s = Some c → p c = false) → lstrip p s = s.
Proof. destruct s as [|x s]; [done|]. intros Hh. cbn. by rewrite (Hh x). Qed.

Lemma strip_fixed (p : char → bool) (s : str) : trimmed p s → strip p s = s.
Proof.
  intros [Hh Hl]. unfold strip. rewrite rstrip_fixed by done. by apply lstrip_fixed.
Qed.

(** ** The sanitizer: its fixed points *)

Lemma isdigit_not_underscore (c : char) : isdigit c = true → c ≠ UNDERSCORE.
Proof. by intros Hc ->. Qed.

Lemma unknown_variable_sanitized : sanitized #"unknown_variable".
Proof.
  let r := eval vm_compute in #"unknown_variable" in change (sanitized r).
  split.
  - by repeat constructor.
  - cbn. repeat split; by intros [? ?].
  - split; intros c [= <-]; reflexivity.
  - intros c [= <-]. reflexivity.
  - done.
Qed.

Lemma var_prefix_sanitized (c : char) (t : str) :
  isdigit c = true →
  Forall (fun x => is_replaced x = false) (c :: t) →
  single_underscores (c :: t) →
  trimmed is_underscore (c :: t) →
  sanitized (#"var_" ++ c :: t).
Proof.
  intros Hd Hf Hs [_ Hl]. change #"var_" with [118; 97; 114; 95].
  split.
  - apply Forall_app. split; [by repeat constructor|done].
  - cbn [app single_underscores]. repeat split; try by intros [? ?].
    + intros [_ ->]. by apply isdigit_not_underscore in Hd.
    + done.
  - split; [by intros x [= <-]|].
    intros x Hx. apply Hl. by rewrite last_app_cons in Hx.
  - intros x [= <-]. reflexivity.
  - done.
Qed.

Lemma clean_name_sanitized (s : str) : sanitized (clean_name s).
Proof.
  unfold clean_name.
  pose proof (strip_trimmed is_underscore (sub_underscores (replace_symbols s))) as Ht.
  pose proof (strip_single is_underscore _ (sub_underscores_single (replace_symbols s))) as Hs.
  pose proof (strip_Forall _ is_underscore _
                (sub_underscores_Forall _ _ (replace_symbols_clean s))) as Hf.
  destruct (strip is_underscore (sub_underscores (replace_symbols s))) as [|c t].
  - apply unknown_variable_sanitized.
  - destruct (isdigit c) eqn:Hd.
    + by apply var_prefix_sanitized.
    + split; try done. by intros x [= <-].
Qed.

Lemma sanitized_fixed (s : str) : sanitized s → clean_name s = s.
Proof.
  intros [Hf Hs Ht Hd Hn]. unfold clean_name.
  rewrite replace_symbols_fixed, sub_underscores_fixed, strip_fixed by done.
  destruct s as [|c t]; [done|]. by rewrite (Hd c).
Qed.

Lemma ascii_digit_isdigit (c : char) : is_ascii_digit c = true → isdigit c = true.
Proof.
  intros Hc. unfold is_ascii_digit in Hc. unfold isdigit, in_ranges, digit_ranges.
  cbn [existsb fst snd]. by rewrite Hc.
Qed.

Lemma Forall_forallb {A} (f : A → bool) (l : list A) :
  Forall (fun x => f x = true) l → forallb f l = true.
Proof. induction 1 as [|x l Hx _ IH]; [done|]. cbn. by rewrite Hx, IH. Qed.

Lemma clean_name_identifier (s : str) :
  Forall (fun c => ident_char c = true ∨ is_replaced c = true) s →
  is_identifier (clean_name s) = true.
Proof.
  intros Hs. unfold clean_name.
  pose proof (strip_trimmed is_underscore (sub_underscores (replace_symbols s))) as [Hh _].
  pose proof (strip_Forall _ is_underscore _
                (sub_underscores_Forall _ _ (replace_symbols_ident s Hs))) as Hf.
  destruct (strip is_underscore (sub_underscores (replace_symbols s))) as [|c t]; [done|].
  apply Forall_cons in Hf as [Hc Hf]. apply Forall_forallb in Hf.
  destruct (isdigit c) eqn:Hd.
  - cbn. rewrite Hc, Hf. done.
  - cbn. rewrite Hf, andb_true_r. unfold ident_start. unfold ident_char in Hc.
    rewrite (Hh c) in * by done.
    destruct (is_ascii_digit c) eqn:Ea;
      [by rewrite (ascii_digit_isdigit _ Ea) in Hd|].
    by rewrite !orb_false_r in *.
Qed.

(** ** The sanitizer: the claims *)

(** C4, as stated, fails: a percent sign is none of the characters the
    sanitizer rewrites, so the humidity label of a station file keeps it and
    the output is no identifier. *)
Lemma clean_name_keeps_percent :
  clean_name #"UMIDADE RELATIVA DO AR, HORARIA (%)" = #"UMIDADE_RELATIVA_DO_AR_HORARIA_%"
  ∧ is_identifier (clean_name #"UMIDADE RELATIVA DO AR, HORARIA (%)") = false.
Proof. split; reflexivity. Qed.

(** C4, amended: sanitizing is idempotent on every label, and the output is
    an identifier [^[A-Za-z_][A-Za-z0-9_]*$] for every label made of ASCII
    letters, digits, underscores and the ten characters the sanitizer
    rewrites. *)
Theorem clean_name_idempotent_identifier (s : str) :
  clean_name (clean_name s) = clean_name s
  ∧ (Forall (fun c => ident_char c = true ∨ is_replaced c = true) s →
     is_identifier (clean_name s) = true).
Proof.
  split.
  - apply sanitized_fixed, clean_name_sanitized.
  - apply clean_name_identifier.
Qed.

Lemma clean_name_idempotent_identifier_witness :
  Forall (fun c => ident_char c = true ∨ is_replaced c = true)
         #"VENTO, VELOCIDADE HORARIA (m/s)"
  ∧ is_identifier (clean_name #"VENTO, VELOCIDADE HORARIA (m/s)") = true.
Proof.
  assert (Hs : Forall (fun c => ident_char c = true ∨ is_replaced c = true)
                      #"VENTO, VELOCIDADE HORARIA (m/s)").
  { let r := eval vm_compute in #"VENTO, VELOCIDADE HORARIA (m/s)" in
    change #"VENTO, VELOCIDADE HORARIA (m/s)" with r.
    repeat (apply List.Forall_cons; [first [by left | by right]|]). apply List.Forall_nil. }
  split; [exact Hs|].
  exact (proj2 (clean_name_idempotent_identifier _) Hs).
Defined.

Lemma dict_get_set {V} (d : dict V) (k k' : str) (v : V) :
  dict_get (dict_set d k v) k' = if decide (k = k') then Some v else dict_get d k'.
Proof.
  induction d as [|[k0 v0] d IH]; cbn.
  - done.
  - destruct (decide (k0 = k)) as [->|Hne]; cbn.
    + by destruct (decide (k = k')).
    + rewrite IH. destruct (decide (k0 = k')) as [->|]; [|done].
      by rewrite decide_False.
Qed.

Lemma clean_variable_names_fold {V} (data_vars cleaned_vars : dict V) (name : str) :
  dict_get
    (fold_left (fun cleaned_vars item =>
                  dict_set cleaned_vars (clean_name (fst item)) (snd item))
               data_vars cleaned_vars) name
  = match last_cleaned_to name data_vars with
    | Some v => Some v
    | None => dict_get cleaned_vars name
    end.
Proof.
  revert cleaned_vars. induction data_vars as [|[k v] l IH]; intros acc; [done|].
  cbn [fold_left]. rewrite IH. unfold last_cleaned_to. rewrite filter_cons.
  cbn [fst snd]. rewrite dict_get_set.
  destruct (decide (clean_name k = name)) as [E|E].
  - rewrite last_cons. by destruct (last (filter _ l)).
  - done.
Qed.

(** C1, as stated, fails: two distinct labels with the same sanitized name
    end as one entry, and the data of the first is gone from the result. *)
Lemma clean_variable_names_merges :
  clean_variable_names [(#"TEMP (C)", 1%nat); (#"TEMP-C", 2%nat)] = [(#"TEMP_C", 2%nat)]
  ∧ ¬ ∃ name, dict_get (clean_variable_names
                          [(#"TEMP (C)", 1%nat); (#"TEMP-C", 2%nat)]) name = Some 1%nat.
Proof.
  split; [reflexivity|].
  intros [name Hname].
  change (clean_variable_names _) with [(#"TEMP_C", 2%nat)] in Hname.
  cbn in Hname. by destruct (decide _).
Qed.

(** C1, amended: no suffix is ever applied. Labels with the same sanitized
    name are merged into one entry, which holds the data of the last of
    them in iteration order; every entry of the result is of this kind. *)
Theorem clean_variable_names_last_wins {V} (data_vars : dict V) (name : str) :
  dict_get (clean_variable_names data_vars) name = last_cleaned_to name data_vars.
Proof.
  unfold clean_variable_names. rewrite clean_variable_names_fold.
  by destruct (last_cleaned_to name data_vars).
Qed.

(** ** Reading a station file *)

Lemma spec_decode_file_loop (encs : list encoding) (content : bytes) :
  spec_decode_file encs content =
    match try_encodings encs content with
    | Some r => Ok r
    | None => Raise EncodingFailure
    end.
Proof.
  unfold spec_decode_file. induction encs as [|enc encs IH]; [done|].
  cbn [List.find try_encodings].
  destruct (decode enc content) as [text|] eqn:E.
  - rewrite bool_decide_eq_true_2 by eauto. by rewrite E.
  - rewrite bool_decide_eq_false_2 by (by intros [? ?]). done.
Qed.

(** Latin-1 reads every file, so the loop over the candidates always ends
    with an encoding, in either mode. *)
Lemma some_candidate_decodes (debug : bool) (content : bytes) :
  ∃ enc lines, try_encodings (candidate_encodings debug) content = Some (enc, lines).
Proof.
  destruct debug; cbn.
  - eauto.
  - destruct (decode_cp1252 _); eauto.
Qed.

(** The order of the candidates shows on the byte 0x80, which cp1252 reads
    as the euro sign, and on 0x81, which cp1252 does not define. *)
Example silent_reads_cp1252_first :
  read_silently [Byte.x80] = (Some cp1252, [[8364%N]]).
Proof. reflexivity. Qed.

Example silent_falls_back_to_latin1 :
  read_silently [Byte.x81] = (Some latin1, [[129%N]]).
Proof. reflexivity. Qed.

Example debug_reads_latin1 :
  try_encodings DEBUG_ENCODINGS [Byte.x80] = Some (latin1, [[128%N]]).
Proof. reflexivity. Qed.

#[local] Arguments extract_metadata : simpl never.
#[local] Arguments getitem : simpl never.

Lemma read_station_file_refines (debug : bool) (content : bytes) :
  read_station_file debug content = spec_read_station_file debug content.
Proof.
  unfold read_station_file, spec_read_station_file, debug_inmet_file, read_silently.
  rewrite spec_decode_file_loop.
  destruct (some_candidate_decodes debug content) as (enc & lines & E).
  rewrite E.
  destruct debug.
  - change DEBUG_ENCODINGS with (candidate_encodings true). rewrite E. cbn.
    destruct (extract_metadata lines); [|done]. cbn.
    by destruct (getitem lines 8).
  - change SILENT_ENCODINGS with (candidate_encodings false). by rewrite E.
Qed.

(** C2: in either mode the pipeline reads the file as the specification
    says: it takes the first encoding of its fixed list that decodes the
    content, and an input that no candidate decodes would end the run with
    the encoding failure. (No input is of that kind: see
    [some_candidate_decodes].) *)
Theorem pipeline_decodes_first_candidate `{Library}
    (csv_file_name : str) (content : bytes) (debug : bool) :
  parse_inmet_csv csv_file_name content debug =
    (r ← spec_read_station_file debug content;
     s ← station_of csv_file_name (snd r);
     df ← load_table (fst r) content;
     grid_dataset debug (snd r) s df).
Proof.
  unfold parse_inmet_csv. rewrite read_station_file_refines.
  destruct (spec_read_station_file debug content) as [[encoding metadata]|e]; done.
Qed.

(** ** The pipeline: failures of its stages *)

Lemma bind_Ok {A B} (r : result A) (k : A → result B) (b : B) :
  r ≫= k = Ok b ↔ ∃ a, r = Ok a ∧ k a = Ok b.
Proof.
  destruct r as [a|e]; cbn; split; [eauto| |done|].
  - by intros (? & [= <-] & ?).
  - by intros (? & ? & ?).
Qed.

Lemma bind_Raise {A B} (r : result A) (k : A → result B) (e : exn) :
  r ≫= k = Raise e ↔ r = Raise e ∨ ∃ a, r = Ok a ∧ k a = Raise e.
Proof.
  destruct r as [a|e']; cbn; split.
  - right. eauto.
  - by intros [?|(? & [= <-] & ?)].
  - intros [= ->]. by left.
  - by intros [[= ->]|(? & ? & ?)].
Qed.

Section PipelineFacts.

Context `{Library}.

Lemma coordinate_Raise (metadata : dict str) (key : str) :
  no_coordinate metadata key ↔ ∃ e, coordinate metadata key = Raise e.
Proof.
  unfold no_coordinate, coordinate. destruct (dict_get metadata key) as [text|].
  - destruct (float_of_str _) eqn:E; split.
    + intros [|(? & [= <-] & ?)]; congruence.
    + by intros [? ?].
    + eauto.
    + right. eauto.
  - split; eauto.
Qed.

Lemma coordinate_Ok (metadata : dict str) (key : str) (x : float) :
  coordinate metadata key = Ok x ↔ coordinate_is metadata key x.
Proof.
  unfold coordinate_is, coordinate. destruct (dict_get metadata key) as [text|].
  - destruct (float_of_str _) eqn:E; split.
    + intros [= <-]. eauto.
    + intros (? & [= <-] & ?). congruence.
    + done.
    + intros (? & [= <-] & ?). congruence.
  - split; [done|]. by intros (? & ? & ?).
Qed.

Lemma station_of_Ok (csv_file_name : str) (metadata : dict str) (s : Station) :
  station_of csv_file_name metadata = Ok s →
  coordinate metadata #"LATITUDE" = Ok (latitude s)
  ∧ coordinate metadata #"LONGITUDE" = Ok (longitude s)
  ∧ coordinate metadata #"ALTITUDE" = Ok (altitude s).
Proof.
  unfold station_of. destruct (bool_decide _).
  all: intros (lat & -> & (lon & -> & (alt & -> & [= <-])%bind_Ok)%bind_Ok)%bind_Ok.
  all: done.
Qed.

Lemma station_of_Raise (csv_file_name : str) (metadata : dict str) (key : str) :
  key ∈ COORDINATE_KEYS → no_coordinate metadata key →
  ∃ e, station_of csv_file_name metadata = Raise e.
Proof.
  intros Hkey [e He]%coordinate_Raise.
  destruct (station_of csv_file_name metadata) as [s|e'] eqn:E; [|eauto].
  apply station_of_Ok in E as (E1 & E2 & E3).
  repeat (apply elem_of_cons in Hkey as [->|Hkey]; [congruence|]).
  by apply elem_of_nil in Hkey.
Qed.

(** What a successful run went through. *)
Lemma parse_inmet_csv_Ok (csv_file_name : str) (content : bytes) (debug : bool)
    (ds : Dataset) :
  parse_inmet_csv csv_file_name content debug = Ok ds →
  ∃ encoding metadata s df0 df t vars,
    read_station_file debug content = Ok (encoding, metadata)
    ∧ station_of csv_file_name metadata = Ok s
    ∧ read_csv encoding content = inr df0
    ∧ prepare_table df0 = Ok df
    ∧ time_index debug df = Ok t
    ∧ build_data_vars df t (met_variables df) [] = Ok vars
    ∧ make_dataset metadata s t (clean_variable_names vars) = Ok ds.
Proof.
  unfold parse_inmet_csv, grid_dataset, load_table.
  intros ([encoding metadata] & E1 & (s & E2 & (df0 & E3 & (df & E4 & (t & E5 &
          (vars & E6 & E7)%bind_Ok)%bind_Ok)%bind_Ok)%bind_Ok)%bind_Ok)%bind_Ok.
  exists encoding, metadata, s, df0, df, t, vars.
  destruct (read_csv encoding content) eqn:E; [done|]. by injection E3 as ->.
Qed.

Lemma getitem_Raise {A} (l : list A) (i : nat) (e : exn) :
  getitem l i = Raise e → e = IndexError.
Proof. unfold getitem. destruct (l !! i); congruence. Qed.

Lemma metadata_loop_Raise (lines : list str) (range : list nat)
    (metadata : dict str) (e : exn) :
  metadata_loop lines range metadata = Raise e → e = IndexError.
Proof.
  revert metadata. induction range as [|i range IH]; intros metadata; [done|].
  cbn [metadata_loop]. intros [E|(line & _ & E)]%bind_Raise.
  - by eapply getitem_Raise.
  - by eapply IH.
Qed.

Lemma read_station_file_Raise (debug : bool) (content : bytes) (e : exn) :
  read_station_file debug content = Raise e → e = IndexError ∨ e = EncodingFailure.
Proof.
  unfold read_station_file, debug_inmet_file, read_silently, extract_metadata.
  destruct debug.
  - destruct (try_encodings _ _) as [[enc lines]|].
    + intros [[E|(md & _ & [E|(? & _ & E)]%bind_Raise)]%bind_Raise|(? & _ & E)]%bind_Raise;
        try done; left.
      * by eapply metadata_loop_Raise.
      * by eapply getitem_Raise.
    + cbn. intros [= <-]. by right.
  - destruct (try_encodings _ _) as [[enc lines]|].
    all: intros [E|(? & _ & E)]%bind_Raise; try done; left.
    all: by eapply metadata_loop_Raise.
Qed.

Lemma coordinate_not_columns (metadata : dict str) (key : str) :
  coordinate metadata key ≠ Raise MissingEssentialColumns.
Proof.
  unfold coordinate. destruct (dict_get metadata key); [|done].
  by destruct (float_of_str _).
Qed.

Lemma station_of_not_columns (csv_file_name : str) (metadata : dict str) :
  station_of csv_file_name metadata ≠ Raise MissingEssentialColumns.
Proof.
  unfold station_of. destruct (bool_decide _).
  all: intros [E|(? & _ & [E|(? & _ & [E|(? & _ & E)]%bind_Raise)]%bind_Raise)]%bind_Raise.
  all: try done; by eapply coordinate_not_columns.
Qed.

Lemma time_index_not_columns (debug : bool) (df : DataFrame) :
  time_index debug df ≠ Raise MissingEssentialColumns.
Proof.
  unfold time_index.
  intros [E|(? & _ & [E|(? & _ & [E|(? & _ & E)]%bind_Raise)]%bind_Raise)]%bind_Raise.
  - by destruct (select df #"hour_utc") as [|? [|? ?]].
  - by destruct (select df #"date") as [|? [|? ?]].
  - destruct debug; [|done]. by apply getitem_Raise in E.
  - done.
Qed.

Lemma build_data_vars_Raise (df : DataFrame) (t : TimeIndex) (vars : list str)
    (acc : dict (list str * ndarray)) (e : exn) :
  build_data_vars df t vars acc = Raise e → e = ValueError CannotReshape.
Proof.
  revert acc. induction vars as [|var vars IH]; intros acc; [done|].
  cbn [build_data_vars]. intros [E|(? & _ & E)]%bind_Raise.
  - unfold reshape in E. destruct (decide _); congruence.
  - by eapply IH.
Qed.

Lemma prepare_table_Raise (df : DataFrame) (e : exn) :
  prepare_table df = Raise e ↔
  e = MissingEssentialColumns
  ∧ (#"date" ∉ labels_after_renaming df ∨ #"hour_utc" ∉ labels_after_renaming df).
Proof.
  unfold prepare_table, has_column, labels_after_renaming.
  destruct (decide (#"date" ∈ column_names (rename_columns (dropna_columns df)))) as [Hd|Hd];
  destruct (decide (#"hour_utc" ∈ column_names (rename_columns (dropna_columns df)))) as [Hh|Hh].
  all: rewrite ?(bool_decide_eq_true_2 _ Hd), ?(bool_decide_eq_false_2 _ Hd),
               ?(bool_decide_eq_true_2 _ Hh), ?(bool_decide_eq_false_2 _ Hh); cbn.
  - split; [done|]. by intros [_ [?|?]].
  - split; [intros [= <-]|intros [-> _]]; auto.
  - split; [intros [= <-]|intros [-> _]]; auto.
  - split; [intros [= <-]|intros [-> _]]; auto.
Qed.

Lemma grid_dataset_columns (debug : bool) (metadata : dict str) (s : Station)
    (df : DataFrame) :
  grid_dataset debug metadata s df = Raise MissingEssentialColumns ↔
  #"date" ∉ labels_after_renaming df ∨ #"hour_utc" ∉ labels_after_renaming df.
Proof.
  unfold grid_dataset. split.
  - intros [E|(df' & _ & [E|(t & _ & [E|(vars & _ & E)]%bind_Raise)]%bind_Raise)]%bind_Raise.
    + by apply prepare_table_Raise in E as [_ ?].
    + by apply time_index_not_columns in E.
    + by apply build_data_vars_Raise in E.
    + unfold make_dataset in E. by destruct (bool_decide _).
  - intros Hmissing. apply bind_Raise. left. by apply prepare_table_Raise.
Qed.

(** C3, amended: the run fails with MissingEssentialColumns exactly when
    its table is loaded and, once the empty columns are dropped and the main
    columns renamed, ['date'] is not a label or ['hour_utc'] is not a label:
    one missing role is enough. *)
Theorem missing_columns_iff (csv_file_name : str) (content : bytes) (debug : bool) :
  parse_inmet_csv csv_file_name content debug = Raise MissingEssentialColumns ↔
  ∃ df, table_of csv_file_name content debug = Some df
        ∧ (#"date" ∉ labels_after_renaming df ∨ #"hour_utc" ∉ labels_after_renaming df).
Proof.
  unfold parse_inmet_csv, table_of.
  destruct (read_station_file debug content) as [[encoding metadata]|e] eqn:E1; cbn.
  - destruct (station_of csv_file_name metadata) as [s|e] eqn:E2; cbn.
    + destruct (load_table encoding content) as [df|e] eqn:E3; cbn.
      * rewrite grid_dataset_columns. split; [eauto|]. by intros (? & [= <-] & ?).
      * split; [|by intros (? & ? & ?)]. intros [= ->].
        unfold load_table, MissingEssentialColumns in E3.
        by destruct (read_csv _ _).
    + split; [|by intros (? & ? & ?)]. intros [= ->].
      by apply station_of_not_columns in E2.
  - split; [|by intros (? & ? & ?)]. intros [= ->].
    by apply read_station_file_Raise in E1 as [?|?].
Qed.

(** C9: the three coordinates are read from the preamble whatever the
    file name is. A run that cannot read the preamble fails; one whose
    preamble lacks LATITUDE, LONGITUDE or ALTITUDE, or holds under one of
    them a text that is no decimal-comma number, fails; and the coordinates
    of a run that succeeds are the numbers that the texts under the three
    keys of the preamble are, with the comma read as the decimal point. *)
Theorem coordinates_come_from_preamble
    (csv_file_name : str) (content : bytes) (debug : bool) :
  match read_station_file debug content with
  | Raise e => parse_inmet_csv csv_file_name content debug = Raise e
  | Ok (_, metadata) =>
      (∀ key, key ∈ COORDINATE_KEYS → no_coordinate metadata key →
         ∃ e, parse_inmet_csv csv_file_name content debug = Raise e)
      ∧ (∀ ds, parse_inmet_csv csv_file_name content debug = Ok ds →
           ∃ lat lon alt,
             coordinate_is metadata #"LATITUDE" lat
             ∧ coordinate_is metadata #"LONGITUDE" lon
             ∧ coordinate_is metadata #"ALTITUDE" alt
             ∧ coord_lat ds = [lat] ∧ coord_lon ds = [lon] ∧ coord_alt ds = [alt])
  end.
Proof.
  destruct (read_station_file debug content) as [[encoding metadata]|e] eqn:E.
  - split.
    + intros key Hkey Hno.
      destruct (station_of_Raise csv_file_name metadata key Hkey Hno) as [e He].
      exists e. unfold parse_inmet_csv. rewrite E. cbn. by rewrite He.
    + intros ds (enc & md & s & df0 & df & t & vars & E1 & E2 & _ & _ & _ & _ & E7)
             %parse_inmet_csv_Ok.
      rewrite E in E1. injection E1 as <- <-.
      apply station_of_Ok in E2 as (Hlat & Hlon & Halt).
      apply coordinate_Ok in Hlat, Hlon, Halt.
      exists (latitude s), (longitude s), (altitude s).
      unfold make_dataset in E7. destruct (bool_decide _); [done|].
      by injection E7 as <-.
  - unfold parse_inmet_csv. by rewrite E.
Qed.

End PipelineFacts.

Lemma coordinates_come_from_preamble_witness :
  (#"LATITUDE" ∈ COORDINATE_KEYS
   ∧ no_coordinate (H := Reference.library) Files.no_latitude_metadata #"LATITUDE"
   ∧ ∃ e, parse_inmet_csv (H := Reference.library)
            Files.brasilia_name Files.no_latitude false = Raise e)
  ∧ ∃ ds, parse_inmet_csv (H := Reference.library)
            Files.short_name Files.brasilia false = Ok ds
          ∧ dict_get Files.brasilia_metadata #"LATITUDE" = Some #"-15,5"
          ∧ dict_get Files.brasilia_metadata #"LONGITUDE" = Some #"-47,25"
          ∧ dict_get Files.brasilia_metadata #"ALTITUDE" = Some #"1160,75"
          ∧ coord_lat ds = [Files.brasilia_latitude]
          ∧ coord_lon ds = [Files.brasilia_longitude]
          ∧ coord_alt ds = [Files.brasilia_altitude].
Proof.
  split.
  - assert (Hkey : #"LATITUDE" ∈ COORDINATE_KEYS) by (by left).
    assert (Hno : no_coordinate (H := Reference.library)
                    Files.no_latitude_metadata #"LATITUDE") by (by left).
    split; [exact Hkey|]. split; [exact Hno|].
    pose proof (coordinates_come_from_preamble (H := Reference.library)
                  Files.brasilia_name Files.no_latitude false) as T.
    change (read_station_file false Files.no_latitude)
      with (Ok (A := option encoding * dict str)
               (Some cp1252, Files.no_latitude_metadata)) in T.
    exact (proj1 T _ Hkey Hno).
  - pose proof (coordinates_come_from_preamble (H := Reference.library)
                  Files.short_name Files.brasilia false) as T.
    change (read_station_file false Files.brasilia)
      with (Ok (A := option encoding * dict str)
               (Some cp1252, Files.brasilia_metadata)) in T.
    assert (succeeds (parse_inmet_csv (H := Reference.library)
                        Files.short_name Files.brasilia false) = true) as Hok
      by (vm_compute; reflexivity).
    destruct (parse_inmet_csv (H := Reference.library)
                Files.short_name Files.brasilia false) as [ds|e] eqn:E; [|discriminate Hok].
    destruct (proj2 T ds eq_refl)
      as (lat & lon & alt & (t1 & Ht1 & Hlat) & (t2 & Ht2 & Hlon) & (t3 & Ht3 & Halt)
          & Hclat & Hclon & Hcalt).
    exists ds. split; [reflexivity|]. rewrite Hclat, Hclon, Hcalt.
    vm_compute in Ht1, Ht2, Ht3. injection Ht1 as <-. injection Ht2 as <-.
    injection Ht3 as <-.
    vm_compute in Hlat, Hlon, Halt. injection Hlat as <-. injection Hlon as <-.
    injection Halt as <-.
    repeat split; vm_compute; reflexivity.
Defined.

(** C3, as stated, fails: the date role is identified in this table (its
    first column is renamed to ['date']), the hour column is not marked UTC,
    and the run ends with MissingEssentialColumns. *)
Lemma date_role_alone_still_fails :
  ∃ df, table_of (H := Reference.library)
          Files.brasilia_name Files.hour_without_utc false = Some df
        ∧ #"date" ∈ labels_after_renaming df
        ∧ parse_inmet_csv (H := Reference.library)
            Files.brasilia_name Files.hour_without_utc false
          = Raise MissingEssentialColumns.
Proof.
  eexists. split; [vm_compute; reflexivity|]. split; [|vm_compute; reflexivity].
  vm_compute. by left.
Qed.

Lemma missing_columns_iff_witness :
  parse_inmet_csv (H := Reference.library)
    Files.brasilia_name Files.hour_without_utc false = Raise MissingEssentialColumns.
Proof.
  apply (missing_columns_iff (H := Reference.library)).
  eexists. split; [vm_compute; reflexivity|].
  right. vm_compute. intros Hin.
  repeat (apply elem_of_cons in Hin as [Hin|Hin]; [discriminate Hin|]).
  by apply elem_of_nil in Hin.
Defined.

(** ** The grids: assignments to a flat array *)

Local Open Scope nat_scope.

Lemma fold_upd_length (ups : list (nat * option float)) (l : list float) :
  length (fold_left upd ups l) = length l.
Proof.
  revert l. induction ups as [|[k [x|]] ups IH]; intros l; cbn; [done| |done].
  by rewrite IH, length_insert.
Qed.

Lemma fold_upd_other (ups : list (nat * option float)) (l : list float) (k : nat) :
  k ∉ ups.*1 → fold_left upd ups l !! k = l !! k.
Proof.
  revert l. induction ups as [|[k' [x|]] ups IH]; intros l Hk; cbn; [done| |].
  - apply not_elem_of_cons in Hk as [Hne Hk].
    rewrite IH by done. unfold upd. cbn. by rewrite list_lookup_insert_ne.
  - apply not_elem_of_cons in Hk as [_ Hk]. by apply IH.
Qed.

(** With distinct indices every assignment is final. *)
Lemma fold_upd_lookup (ups : list (nat * option float)) (l : list float)
    (k : nat) (v : option float) :
  NoDup ups.*1 → (k, v) ∈ ups → k < length l →
  fold_left upd ups l !! k = Some (default (default nan (l !! k)) v).
Proof.
  revert l. induction ups as [|[k' v'] ups IH]; intros l Hnd Hin Hk.
  { by apply elem_of_nil in Hin. }
  apply NoDup_cons in Hnd as [Hk' Hnd]. cbn [fold_left].
  apply elem_of_cons in Hin as [[= <- <-]|Hin].
  - rewrite fold_upd_other by done. unfold upd. cbn.
    destruct v as [x|]; cbn.
    + by rewrite list_lookup_insert_eq.
    + destruct (lookup_lt_is_Some_2 l k Hk) as [y ->]. done.
  - assert (k ≠ k') as Hne.
    { intros ->. apply Hk'. apply list_elem_of_fmap. by exists (k', v). }
    rewrite IH; [|done|done|].
    + unfold upd. cbn. destruct v' as [x|]; [|done].
      by rewrite list_lookup_insert_ne.
    + unfold upd. cbn. destruct v'; [by rewrite length_insert|done].
Qed.

Lemma enumerate_lookup {A} (l : list A) (i : nat) :
  enumerate l !! i = (fun x => (i, x)) <$> l !! i.
Proof.
  unfold enumerate. rewrite lookup_zip_with.
  destruct (l !! i) as [x|] eqn:E.
  - rewrite lookup_seq_lt by (by eapply lookup_lt_Some). done.
  - by destruct (seq 0 (length l) !! i).
Qed.

Lemma enumerate_fst {A} (l : list A) : (enumerate l).*1 = seq 0 (length l).
Proof. unfold enumerate. apply fst_zip. by rewrite length_seq. Qed.

Lemma flat_map_seq_rows (a n nh : nat) :
  flat_map (fun i => map (fun j => i * nh + j) (seq 0 nh)) (seq a n) = seq (a * nh) (n * nh).
Proof.
  revert a. induction n as [|n IH]; intros a; [done|].
  cbn [seq flat_map]. rewrite IH.
  change (map (λ j, a * nh + j) (seq 0 nh)) with (Nat.add (a * nh) <$> seq 0 nh).
  rewrite fmap_add_seq, Nat.add_0_r.
  replace (S n * nh) with (nh + n * nh) by lia.
  rewrite seq_app. f_equal. f_equal. lia.
Qed.

Lemma flat_map_fmap {A B C} (f : A → B) (g : B → list C) (l : list A) :
  flat_map (fun x => g (f x)) l = flat_map g (f <$> l).
Proof. induction l as [|x l IH]; [done|]. cbn. by rewrite IH. Qed.

Lemma fmap_flat_map {A B C} (f : B → C) (g : A → list B) (l : list A) :
  f <$> flat_map g l = flat_map (fun x => f <$> g x) l.
Proof. induction l as [|x l IH]; [done|]. cbn. by rewrite fmap_app, IH. Qed.

Lemma fst_map_enumerate {A B} (f : nat → nat) (g : A → B) (l : list A) :
  (map (fun jh => (f (fst jh), g (snd jh))) (enumerate l)).*1 = map f (seq 0 (length l)).
Proof.
  unfold enumerate. generalize 0. induction l as [|x l IH]; intros a; [done|].
  cbn. by rewrite IH.
Qed.

Lemma elem_of_map_enumerate {A B} (f : nat * A → B) (l : list A) (i : nat) (x : A) :
  l !! i = Some x → f (i, x) ∈ map f (enumerate l).
Proof.
  intros Hi. apply list_elem_of_In, in_map, list_elem_of_In, list_elem_of_lookup.
  exists i. by rewrite enumerate_lookup, Hi.
Qed.

(** ** The grids: the matrix of one variable *)

Section GridFacts.

Context `{Library}.

Lemma fill_cell_upd (t : TimeIndex) (col : list value) (m : ndarray)
    (i j nd nh : nat) (d : date) (h : Z) :
  shape m = [nd; nh] →
  fill_cell t col m i d j h =
    {| shape := [nd; nh];
       data := upd (data m) (i * nh + j, cell_update t col d h) |}.
Proof.
  destruct m as [shp dat]. cbn. intros ->.
  unfold fill_cell, cell_update, upd, setitem2. cbn.
  destruct (mask t d h) as [|r ?]; [done|].
  destruct (usable (cell col r)); [|done].
  by destruct (float_of_value (cell col r)).
Qed.

Lemma fill_cells_upd (t : TimeIndex) (col : list value) (i nd nh : nat) (d : date)
    (js : list (nat * Z)) (m : ndarray) :
  shape m = [nd; nh] →
  fold_left (fun m jh => fill_cell t col m i d (fst jh) (snd jh)) js m =
    {| shape := [nd; nh];
       data := fold_left upd
                 (map (fun jh => (i * nh + fst jh, cell_update t col d (snd jh))) js)
                 (data m) |}.
Proof.
  revert m. induction js as [|[j h] js IH]; intros m Hm.
  - destruct m. cbn in *. by subst.
  - cbn [fold_left map]. rewrite (fill_cell_upd _ _ _ _ _ nd nh) by done.
    by rewrite IH.
Qed.

Lemma fill_rows_upd (t : TimeIndex) (col : list value) (nd : nat)
    (ids : list (nat * date)) (m : ndarray) :
  shape m = [nd; length (hours t)] →
  fold_left (fun m id => fill_row t col m (fst id) (snd id)) ids m =
    {| shape := [nd; length (hours t)];
       data := fold_left upd
                 (flat_map
                    (fun id =>
                       map (fun jh => (fst id * length (hours t) + fst jh,
                                       cell_update t col (snd id) (snd jh)))
                           (enumerate (hours t))) ids)
                 (data m) |}.
Proof.
  revert m. induction ids as [|[i d] ids IH]; intros m Hm.
  - destruct m. cbn in *. by subst.
  - cbn [fold_left flat_map]. unfold fill_row at 2.
    rewrite (fill_cells_upd _ _ _ nd (length (hours t))) by done.
    rewrite IH by done. cbn [data fst snd]. by rewrite fold_left_app.
Qed.

Lemma var_matrix_upd (t : TimeIndex) (col : list value) :
  var_matrix t col =
    {| shape := [length (dates t); length (hours t)];
       data := fold_left upd (updates t col)
                 (replicate (length (dates t) * length (hours t)) nan) |}.
Proof.
  unfold var_matrix. rewrite (fill_rows_upd _ _ (length (dates t))) by done.
  unfold np_full, updates. cbn. by rewrite Nat.mul_1_r.
Qed.

Lemma updates_fst (t : TimeIndex) (col : list value) :
  (updates t col).*1 = seq 0 (length (dates t) * length (hours t)).
Proof.
  unfold updates. rewrite fmap_flat_map.
  rewrite (flat_map_ext _
             (fun id => map (fun j => fst id * length (hours t) + j)
                            (seq 0 (length (hours t))))).
  - rewrite (flat_map_fmap fst
               (fun i => map (fun j => i * length (hours t) + j)
                             (seq 0 (length (hours t))))).
    by rewrite enumerate_fst, flat_map_seq_rows.
  - intros [i d].
    apply (fst_map_enumerate (fun j => i * length (hours t) + j) (cell_update t col d)).
Qed.

(** The cell [i, j] of the matrix holds the value of the first of the rows
    whose timestamp falls on the date [i] and the hour [j], and the missing
    marker when there is no such row. *)
Lemma var_matrix_cell (t : TimeIndex) (col : list value) (i j : nat) (d : date) (h : Z) :
  dates t !! i = Some d → hours t !! j = Some h →
  getitem2 (var_matrix t col) i j =
    Some match head (mask t d h) with
         | Some r => grid_value (cell col r)
         | None => nan
         end.
Proof.
  intros Hd Hh. rewrite var_matrix_upd. unfold getitem2. cbn [shape data nth].
  pose proof (lookup_lt_Some _ _ _ Hd) as Hi.
  pose proof (lookup_lt_Some _ _ _ Hh) as Hj.
  assert (i * length (hours t) + j < length (dates t) * length (hours t)) as Hk by nia.
  rewrite (fold_upd_lookup _ _ _ (cell_update t col d h)).
  - rewrite lookup_replicate_2 by done. cbn. f_equal.
    unfold cell_update, grid_value. destruct (mask t d h) as [|r ?]; [done|]. cbn.
    destruct (usable (cell col r)); [|done]. by destruct (float_of_value (cell col r)).
  - rewrite updates_fst. apply NoDup_seq.
  - unfold updates. apply list_elem_of_In, in_flat_map. exists (i, d). split.
    + apply list_elem_of_In, list_elem_of_lookup. exists i.
      by rewrite enumerate_lookup, Hd.
    + apply list_elem_of_In.
      by apply (elem_of_map_enumerate
                  (fun jh => (i * length (hours t) + fst jh, cell_update t col d (snd jh)))
                  _ j h).
  - by rewrite length_replicate.
Qed.

Lemma var_matrix_shape (t : TimeIndex) (col : list value) :
  shape (var_matrix t col) = [length (dates t); length (hours t)]
  ∧ length (data (var_matrix t col)) = length (dates t) * length (hours t).
Proof.
  rewrite var_matrix_upd. cbn. by rewrite fold_upd_length, length_replicate.
Qed.

(** ** The grids: the axes *)

Lemma elem_of_unique {A} `{EqDecision A} (l : list A) (x : A) : x ∈ unique l ↔ x ∈ l.
Proof.
  induction l as [|y l IH]; [done|]. cbn [unique].
  rewrite !elem_of_cons, list_elem_of_filter, IH.
  destruct (decide (x = y)) as [->|Hne].
  - split; intros _; by left.
  - split; [intros [?|[_ ?]]|intros [?|?]]; auto.
Qed.

Lemma elem_of_map {A B} (f : A → B) (l : list A) (y : B) :
  y ∈ map f l ↔ ∃ x, x ∈ l ∧ f x = y.
Proof.
  rewrite list_elem_of_In, in_map_iff. split.
  - intros (x & ? & ?%list_elem_of_In). eauto.
  - intros (x & ?%list_elem_of_In & ?). eauto.
Qed.

Lemma NoDup_unique {A} `{EqDecision A} (l : list A) : NoDup (unique l).
Proof.
  induction l as [|y l IH]; [constructor|]. cbn [unique]. apply NoDup_cons. split.
  - rewrite list_elem_of_filter. by intros [? _].
  - by apply NoDup_filter.
Qed.

Lemma head_filter_seq_least (P : nat → Prop) `{∀ x, Decision (P x)} (a n r0 : nat) :
  head (filter P (seq a n)) = Some r0 → ∀ r, r ∈ seq a n → P r → r0 ≤ r.
Proof.
  revert a. induction n as [|n IH]; intros a; [done|].
  cbn [seq]. rewrite filter_cons. destruct (decide (P a)) as [Ha|Ha].
  - cbn. intros [= <-] r Hr _. apply elem_of_cons in Hr as [->|Hr]; [done|].
    apply elem_of_seq in Hr. lia.
  - intros Hh r Hr HP. apply elem_of_cons in Hr as [->|Hr]; [done|]. by eapply IH.
Qed.

Lemma time_index_Ok (debug : bool) (df : DataFrame) (t : TimeIndex) :
  time_index debug df = Ok t →
  dates t = merge_sort date_le (unique (map (date_only t) (rows t)))
  ∧ hours t = merge_sort Z.le (unique (map (hour_only t) (rows t)))
  ∧ ∃ (P : nat → Prop) (dec : ∀ x, Decision (P x)),
      rows t = filter P (seq 0 (nrows df)).
Proof.
  unfold time_index.
  intros (hour_utc & _ & (date_col & _ & (? & _ & [= <-])%bind_Ok)%bind_Ok)%bind_Ok.
  cbn. split; [done|]. split; [done|]. eauto.
Qed.

(** The axes hold each date and each hour of the surviving rows once. *)
Lemma time_index_axes (debug : bool) (df : DataFrame) (t : TimeIndex) :
  time_index debug df = Ok t →
  NoDup (dates t) ∧ (∀ d, d ∈ dates t ↔ ∃ r, r ∈ rows t ∧ date_only t r = d)
  ∧ NoDup (hours t) ∧ (∀ h, h ∈ hours t ↔ ∃ r, r ∈ rows t ∧ hour_only t r = h).
Proof.
  intros (-> & -> & _)%time_index_Ok. split; [|split; [|split]].
  - rewrite merge_sort_Permutation. apply NoDup_unique.
  - intros d. by rewrite merge_sort_Permutation, elem_of_unique, elem_of_map.
  - rewrite merge_sort_Permutation. apply NoDup_unique.
  - intros h. by rewrite merge_sort_Permutation, elem_of_unique, elem_of_map.
Qed.

(** The first row of a mask is the earliest row of the file with that
    date and hour. *)
Lemma mask_head_least (debug : bool) (df : DataFrame) (t : TimeIndex)
    (d : date) (h : Z) (r0 : nat) :
  time_index debug df = Ok t → head (mask t d h) = Some r0 →
  r0 ∈ rows t ∧ date_only t r0 = d ∧ hour_only t r0 = h
  ∧ ∀ r, r ∈ rows t → date_only t r = d → hour_only t r = h → r0 ≤ r.
Proof.
  intros (_ & _ & P & dec & Hrows)%time_index_Ok Hhead.
  pose proof (head_Some_elem_of _ _ Hhead) as Hin.
  unfold mask in Hin. apply list_elem_of_filter in Hin as [[Hd Hh] Hin].
  repeat split; try done.
  intros r Hr Hrd Hrh. unfold mask in Hhead.
  rewrite Hrows, list_filter_filter in Hhead. rewrite Hrows in Hr.
  apply list_elem_of_filter in Hr as [HP Hr].
  by eapply (head_filter_seq_least _ _ _ _ Hhead r Hr).
Qed.

(** ** The grids: the data variables of a run *)

Lemma reshape_var_matrix (t : TimeIndex) (col : list value) :
  reshape (var_matrix t col) [1; 1; 1; length (dates t); length (hours t); 1; 1; 1]
  = Ok (var_array t col).
Proof.
  unfold reshape. destruct (var_matrix_shape t col) as [_ Hlen].
  rewrite decide_True; [done|]. rewrite Hlen. cbn. lia.
Qed.

Lemma elem_of_dict_set {V} (d : dict V) (k : str) (v : V) (item : str * V) :
  item ∈ dict_set d k v → item ∈ d ∨ item = (k, v).
Proof.
  induction d as [|[k' v'] d IH]; cbn.
  - intros ->%list_elem_of_singleton. by right.
  - destruct (decide (k' = k)) as [->|_].
    + intros [->|?]%elem_of_cons; [by right|]. left. by right.
    + intros [->|[?|?]%IH]%elem_of_cons; [left; by left|left; by right|by right].
Qed.

(** The loop over the variables never raises, and each entry it adds is the
    array of one of the variables. *)
Lemma build_data_vars_Ok (df : DataFrame) (t : TimeIndex) (vars : list str)
    (acc : dict (list str * ndarray)) :
  ∃ data_vars, build_data_vars df t vars acc = Ok data_vars
    ∧ ∀ item, item ∈ data_vars →
        item ∈ acc
        ∨ ∃ var, var ∈ vars ∧ item = (var, (DIMS, var_array t (column df var))).
Proof.
  revert acc. induction vars as [|var vars IH]; intros acc.
  - exists acc. split; [done|]. by left.
  - cbn [build_data_vars]. rewrite reshape_var_matrix. cbn.
    destruct (IH (dict_set acc var (DIMS, var_array t (column df var))))
      as (data_vars & -> & Hitems).
    exists data_vars. split; [done|]. intros item Hitem.
    destruct (Hitems item Hitem) as [[?| ->]%elem_of_dict_set|(var' & ? & ->)].
    + by left.
    + right. exists var. split; [by left|done].
    + right. exists var'. split; [by right|done].
Qed.

Lemma elem_of_clean_variable_names {V} (data_vars : dict V) (name : str) (v : V) :
  (name, v) ∈ clean_variable_names data_vars →
  ∃ var, (var, v) ∈ data_vars ∧ clean_name var = name.
Proof.
  unfold clean_variable_names.
  assert (∀ acc : dict V,
            (name, v) ∈ fold_left (fun cleaned_vars item =>
                                     dict_set cleaned_vars (clean_name (fst item)) (snd item))
                                  data_vars acc →
            (name, v) ∈ acc ∨ ∃ var, (var, v) ∈ data_vars ∧ clean_name var = name) as Hfold.
  { induction data_vars as [|[k x] l IH]; intros acc; cbn [fold_left]; [by left|].
    intros [[?|[= -> ->]]%elem_of_dict_set|(var & ? & ?)]%IH.
    - by left.
    - right. exists k. split; [by left|done].
    - right. exists var. split; [by right|done]. }
  intros [Hnil|?]%Hfold; [|done]. by apply elem_of_nil in Hnil.
Qed.

Lemma index_of_Some (csv_file_name : str) (content : bytes) (debug : bool)
    (df : DataFrame) (t : TimeIndex) :
  index_of csv_file_name content debug = Some (df, t) → time_index debug df = Ok t.
Proof.
  unfold index_of. destruct (table_of _ _ _) as [df0|]; [|done].
  destruct (prepare_table df0) as [df'|]; [|done].
  destruct (time_index debug df') as [t'|] eqn:E; [|done]. by intros [= <- <-].
Qed.

(** C5, amended: each surviving row has its cell in the grid of every
    variable, and the cell holds the value of the earliest surviving row
    with that date and hour (the row itself when no earlier row shares
    them): [float(v)] when the raw value is present and a number, the
    missing marker otherwise; a later row with the same date and hour
    leaves no trace. Filling the grids raises nothing. *)
Theorem grid_holds_first_row_of_cell
    (csv_file_name : str) (content : bytes) (debug : bool)
    (df : DataFrame) (t : TimeIndex) (r : nat) :
  index_of csv_file_name content debug = Some (df, t) →
  r ∈ rows t →
  row_is_gridded df t r.
Proof.
  intros Hindex%index_of_Some Hr. split.
  { destruct (build_data_vars_Ok df t (met_variables df) []) as (dv & ? & _). eauto. }
  intros var.
  destruct (time_index_axes _ _ _ Hindex) as (_ & Hdates & _ & Hhours).
  assert (date_only t r ∈ dates t) as [i Hi]%list_elem_of_lookup by (apply Hdates; eauto).
  assert (hour_only t r ∈ hours t) as [j Hj]%list_elem_of_lookup by (apply Hhours; eauto).
  assert (r ∈ mask t (date_only t r) (hour_only t r)) as Hmask.
  { unfold mask. by apply list_elem_of_filter. }
  destruct (mask t (date_only t r) (hour_only t r)) as [|r0 rest] eqn:E.
  { by apply elem_of_nil in Hmask. }
  exists i, j, r0. split; [done|]. split; [done|]. split.
  - eapply mask_head_least; [done|]. by rewrite E.
  - rewrite (var_matrix_cell _ _ _ _ _ _ Hi Hj). by rewrite E.
Qed.

(** C6: the dataset of a successful run has for axes the distinct dates
    and the distinct hours of the surviving rows and one value for each of
    the six other coordinates; every one of its variables lies on the eight
    axes, with one cell for each date and hour (sizes 1, 1, 1, dates,
    hours, 1, 1, 1), and holds the missing marker in every cell that no
    surviving row falls on. *)
Theorem datasets_are_gridded
    (csv_file_name : str) (content : bytes) (debug : bool) (ds : Dataset) :
  parse_inmet_csv csv_file_name content debug = Ok ds →
  gridded_dataset csv_file_name content debug ds.
Proof.
  intros (enc & md & s & df0 & df & t & vars & E1 & E2 & E3 & E4 & E5 & E6 & E7)
         %parse_inmet_csv_Ok.
  exists df, t. split.
  { unfold index_of, table_of, load_table. by rewrite E1, E2, E3, E4, E5. }
  unfold make_dataset in E7. destruct (bool_decide _); [done|].
  injection E7 as <-. cbn.
  repeat (split; [done|]). split; [by eapply time_index_axes|].
  repeat (split; [done|]).
  intros name dims arr (var & Hvar & _)%elem_of_clean_variable_names.
  destruct (build_data_vars_Ok df t (met_variables df) []) as (dv & Hdv & Hitems).
  rewrite E6 in Hdv. injection Hdv as <-.
  destruct (Hitems _ Hvar) as [Hnil|(var' & _ & [= _ -> ->])].
  { by apply elem_of_nil in Hnil. }
  destruct (var_matrix_shape t (column df var')) as [_ Hlen].
  repeat split; try done.
  intros i j d h Hi Hj Hmask. cbn [var_array data].
  pose proof (var_matrix_cell t (column df var') i j d h Hi Hj) as Hcell.
  rewrite Hmask in Hcell. unfold getitem2 in Hcell.
  by rewrite (proj1 (var_matrix_shape t (column df var'))) in Hcell.
Qed.

End GridFacts.

Lemma grid_holds_first_row_of_cell_witness :
  ∃ df t,
    index_of (H := Reference.library) Files.brasilia_name Files.brasilia false
    = Some (df, t)
    ∧ 1 ∈ rows t
    ∧ row_is_gridded (H := Reference.library) df t 1.
Proof.
  destruct (index_of (H := Reference.library) Files.brasilia_name Files.brasilia false)
    as [[df t]|] eqn:E.
  - assert (option_map (fun p => rows (snd p))
              (index_of (H := Reference.library) Files.brasilia_name Files.brasilia false)
            = Some [0; 1; 2; 3; 4; 5]) as Hrows by (vm_compute; reflexivity).
    rewrite E in Hrows. injection Hrows as Hrows.
    assert (1 ∈ rows t) as Hr by (rewrite Hrows; right; left).
    exists df, t. split; [reflexivity|]. split; [exact Hr|].
    exact (grid_holds_first_row_of_cell (H := Reference.library) _ _ _ df t 1 E Hr).
  - assert (is_Some (index_of (H := Reference.library)
                       Files.brasilia_name Files.brasilia false))
      as Hsome by (apply (bool_decide_unpack _); vm_compute; reflexivity).
    rewrite E in Hsome. by destruct Hsome.
Defined.

Lemma datasets_are_gridded_witness :
  ∃ ds,
    parse_inmet_csv (H := Reference.library) Files.brasilia_name Files.brasilia false
    = Ok ds
    ∧ gridded_dataset (H := Reference.library)
        Files.brasilia_name Files.brasilia false ds.
Proof.
  destruct (parse_inmet_csv (H := Reference.library)
              Files.brasilia_name Files.brasilia false) as [ds|e] eqn:E.
  - exists ds. split; [reflexivity|].
    exact (datasets_are_gridded (H := Reference.library) _ _ _ ds E).
  - assert (succeeds (parse_inmet_csv (H := Reference.library)
                        Files.brasilia_name Files.brasilia false) = true)
      as Hok by (vm_compute; reflexivity).
    rewrite E in Hok. discriminate Hok.
Defined.

(** C5, as stated, fails: the second row of this file survives with the
    timestamp 2024/01/01 00h and the raw value 21,5, a number; the grid has
    the single cell [0, 0] for that date and hour, and the cell holds 20.5,
    the value of the first row. *)
Lemma later_row_is_not_in_the_grid :
  ∃ df t,
    index_of (H := Reference.library) Files.brasilia_name Files.repeated_hour false
    = Some (df, t)
    ∧ 1 ∈ rows t
    ∧ dates t = [date_only t 1] ∧ hours t = [hour_only t 1]
    ∧ float_of_value (H := Reference.library) (cell (column df Files.TEMPERATURA) 1)
      = Some Files.twenty_one_and_a_half
    ∧ getitem2 (var_matrix (H := Reference.library) t (column df Files.TEMPERATURA)) 0 0
      = Some Files.twenty_and_a_half
    ∧ Files.twenty_and_a_half ≠ Files.twenty_one_and_a_half.
Proof.
  destruct (index_of (H := Reference.library) Files.brasilia_name Files.repeated_hour false)
    as [[df t]|] eqn:E.
  - assert (option_map
              (fun p : DataFrame * TimeIndex =>
                 let (df, t) := p in
                 (rows t, dates t, hours t, date_only t 1, hour_only t 1,
                  float_of_value (H := Reference.library)
                    (cell (column df Files.TEMPERATURA) 1),
                  getitem2 (var_matrix (H := Reference.library) t
                              (column df Files.TEMPERATURA)) 0 0))
              (index_of (H := Reference.library)
                 Files.brasilia_name Files.repeated_hour false)
            = Some ([0; 1], [(2024, 1, 1)%Z], [0%Z], (2024, 1, 1)%Z, 0%Z,
                    Some Files.twenty_one_and_a_half, Some Files.twenty_and_a_half))
      as Hrun by (vm_compute; reflexivity).
    rewrite E in Hrun. injection Hrun as Hrows Hdates Hhours Hd Hh Hvalue Hcell.
    exists df, t. rewrite Hrows, Hdates, Hhours, Hd, Hh, Hvalue, Hcell.
    repeat split; try done. right; left.
  - assert (is_Some (index_of (H := Reference.library)
                       Files.brasilia_name Files.repeated_hour false))
      as Hsome by (apply (bool_decide_unpack _); vm_compute; reflexivity).
    rewrite E in Hsome. by destruct Hsome.
Qed.

(** ** The orchestrator: one file *)

Section BatchFacts.

Context `{Library}.

Lemma elem_of_written (path x : str) (netcdf : list str) :
  x ∈ written path netcdf ↔ x = path ∨ x ∈ netcdf.
Proof.
  unfold written. case_bool_decide as Hin.
  - split; [by right|]. by intros [->|?].
  - rewrite elem_of_app, list_elem_of_singleton. split; intros [?|?]; auto.
Qed.

Lemma written_prefix (path : str) (netcdf : list str) :
  netcdf `prefix_of` written path netcdf.
Proof. unfold written. case_bool_decide; [done|]. by apply prefix_app_r. Qed.

(** The body of the loop by cases: skipped, converted, or failed. *)
Lemma convert_file_cases (skip_existing : bool) (st : progress) (file : str * bytes) :
  convert_file skip_existing st file =
    if skips skip_existing st file then skipped_state st file
    else if converts file then converted_state st file
    else failed_state st file.
Proof.
  unfold convert_file, skips, converts, failed_state, leaves_file,
    parse_inmet_csv_to_netcdf_robust.
  destruct (bool_decide _ && skip_existing); [done|].
  destruct (parse_inmet_csv file.1 file.2 false) as [ds|e]; cbn; [|done].
  destruct (to_netcdf ds (netcdf_name file.1)) as [|code left_behind]; cbn; [|done].
  rewrite bool_decide_eq_true_2; [done|]. apply elem_of_written. by left.
Qed.

(** The same by the outcome of the file. *)
Lemma convert_file_outcome (skip_existing : bool) (st : progress) (file : str * bytes) :
  st_netcdf (convert_file skip_existing st file)
  = folder_after skip_existing (st_netcdf st) file
  ∧ convert_file skip_existing st file
    = match outcome_of skip_existing (st_netcdf st) file with
      | SkippedExisting => skipped_state st file
      | Converted => converted_state st file
      | Failed => failed_state st file
      end.
Proof.
  rewrite convert_file_cases. unfold folder_after, outcome_of, skips.
  destruct (bool_decide _ && skip_existing); [done|].
  by destruct (converts file).
Qed.

Lemma convert_file_accounted (skip_existing : bool) (st : progress) (file : str * bytes) :
  accounted (convert_file skip_existing st file) = S (accounted st).
Proof.
  rewrite convert_file_cases. unfold accounted.
  destruct (skips _ _ _); [|destruct (converts file)]; cbn;
    rewrite ?length_app; cbn; lia.
Qed.

Lemma convert_files_accounted (skip_existing : bool) (files : list (str * bytes))
    (st : progress) :
  accounted (fold_left (convert_file skip_existing) files st)
  = accounted st + length files.
Proof.
  revert st. induction files as [|f files IH]; intros st; cbn; [lia|].
  rewrite IH, convert_file_accounted. lia.
Qed.

(** Everything the loop records comes from one of its files. *)
Lemma convert_files_sources (skip_existing : bool) (files : list (str * bytes))
    (st : progress) :
  let st' := fold_left (convert_file skip_existing) files st in
  (∀ n, n ∈ st_failed_files st' →
        n ∈ st_failed_files st ∨ ∃ f, f ∈ files ∧ n = fst f)
  ∧ (∀ p, p ∈ st_saved_paths st' →
          p ∈ st_saved_paths st ∨ ∃ f, f ∈ files ∧ p = netcdf_name (fst f))
  ∧ (∀ p, p ∈ st_netcdf st' →
          p ∈ st_netcdf st ∨ ∃ f, f ∈ files ∧ p = netcdf_name (fst f)).
Proof.
  revert st. induction files as [|f files IH]; intros st; cbn.
  { repeat split; by left. }
  destruct (IH (convert_file skip_existing st f)) as (Hf & Hs & Hn).
  rewrite convert_file_cases in Hf, Hs, Hn |- *.
  repeat split.
  - intros n [Hin|(g & ? & ->)]%Hf; [|right; exists g; split; [by right|done]].
    destruct (skips _ _ _); [|destruct (converts f)]; cbn in Hin; try by left.
    apply elem_of_app in Hin as [?|Hx%list_elem_of_singleton]; [by left|].
    right. exists f. split; [by left|done].
  - intros p [Hin|(g & ? & ->)]%Hs; [|right; exists g; split; [by right|done]].
    destruct (skips _ _ _); [|destruct (converts f)]; cbn in Hin; try by left.
    all: apply elem_of_app in Hin as [?|Hx%list_elem_of_singleton]; [by left|].
    all: right; exists f; split; [by left|done].
  - intros p [Hin|(g & ? & ->)]%Hn; [|right; exists g; split; [by right|done]].
    destruct (skips _ _ _); [|destruct (converts f)]; cbn in Hin; try by left.
    2: destruct (leaves_file f); [|by left].
    all: apply elem_of_written in Hin as [->|?]; [|by left].
    all: right; exists f; split; [by left|done].
Qed.

(** ** The orchestrator: the outcomes of a run *)

Lemma filter_none {A} (P : A → Prop) `{∀ x, Decision (P x)} (l : list A) :
  (∀ x, x ∈ l → ¬ P x) → filter P l = [].
Proof.
  induction l as [|x l IH]; intros Hnone; [done|].
  rewrite filter_cons, decide_False by (apply Hnone; by left).
  apply IH. intros y Hy. apply Hnone. by right.
Qed.

Lemma folder_after_prefix (skip_existing : bool) (netcdf : list str) (file : str * bytes) :
  netcdf `prefix_of` folder_after skip_existing netcdf file.
Proof.
  unfold folder_after.
  destruct (outcome_of _ _ _); [apply written_prefix|done|].
  destruct (leaves_file file); [apply written_prefix|done].
Qed.

Lemma final_folder_prefix (skip_existing : bool) (files : list (str * bytes))
    (netcdf : list str) :
  netcdf `prefix_of` final_folder skip_existing netcdf files.
Proof.
  revert netcdf. induction files as [|f files IH]; intros netcdf; [done|].
  cbn. etrans; [apply (folder_after_prefix skip_existing netcdf f)|apply IH].
Qed.

Lemma final_folder_app (skip_existing : bool) (netcdf : list str)
    (before after : list (str * bytes)) :
  final_folder skip_existing netcdf (before ++ after)
  = final_folder skip_existing (final_folder skip_existing netcdf before) after.
Proof. unfold final_folder. by rewrite fold_left_app. Qed.

Lemma outcomes_app (skip_existing : bool) (netcdf : list str)
    (before after : list (str * bytes)) :
  outcomes skip_existing netcdf (before ++ after)
  = outcomes skip_existing netcdf before
    ++ outcomes skip_existing (final_folder skip_existing netcdf before) after.
Proof.
  revert netcdf. induction before as [|f before IH]; intros netcdf; [done|].
  cbn. by rewrite IH.
Qed.

(** The loop records every file by its outcome. *)
Lemma convert_files_outcomes (skip_existing : bool) (files : list (str * bytes))
    (st : progress) :
  let st' := fold_left (convert_file skip_existing) files st in
  let outs := outcomes skip_existing (st_netcdf st) files in
  st_netcdf st' = final_folder skip_existing (st_netcdf st) files
  ∧ st_saved_paths st' = st_saved_paths st ++ listed_outputs outs
  ∧ st_failed_files st' = st_failed_files st ++ map fst (with_outcome Failed outs)
  ∧ st_skipped_files st'
    = st_skipped_files st ++ map fst (with_outcome SkippedExisting outs)
  ∧ st_converted_files st'
    = st_converted_files st + length (with_outcome Converted outs).
Proof.
  cbv zeta. revert st. induction files as [|f files IH]; intros st.
  { cbn. rewrite !app_nil_r. repeat split. lia. }
  cbn [fold_left outcomes final_folder].
  destruct (IH (convert_file skip_existing st f)) as (Hn & Hs & Hf & Hk & Hc). clear IH.
  destruct (convert_file_outcome skip_existing st f) as [Hfolder Hstate].
  rewrite Hfolder in Hn, Hs, Hf, Hk, Hc. rewrite Hn, Hs, Hf, Hk, Hc.
  clear Hn Hs Hf Hk Hc Hfolder.
  unfold listed_outputs, with_outcome. rewrite !filter_cons. cbn [snd fst].
  rewrite Hstate. clear Hstate.
  destruct (outcome_of skip_existing (st_netcdf st) f);
    repeat case_decide; try congruence; try (exfalso; naive_solver);
    cbn; rewrite <- ?app_assoc; cbn; repeat split; lia.
Qed.

(** ** The orchestrator: the result of a call *)

(** The result reports the state the loop ends in; when no file is selected
    that is the starting state. *)
Lemma convert_csvs_to_netcdf_result (fs : filesystem) (region uf wmo_code : filter_arg)
    (all_files debug skip_existing : bool) :
  let st := convert_files skip_existing
              (selected_files fs region uf wmo_code all_files) (netcdf_folder fs) in
  let r := convert_csvs_to_netcdf fs region uf wmo_code all_files debug skip_existing in
  converted_files (fst r) = st_converted_files st
  ∧ skipped_files (fst r) = length (st_skipped_files st)
  ∧ saved_paths (fst r) = st_saved_paths st
  ∧ failed_files (fst r) = st_failed_files st
  ∧ total_files_found (fst r) = length (all_csv_files fs)
  ∧ snd r = st_netcdf st.
Proof.
  unfold convert_csvs_to_netcdf, selected_files, all_csv_files.
  destruct fs as [[entries|] netcdf]; cbn [csv_folder netcdf_folder];
    [|by destruct all_files].
  change (default [] (Some entries)) with entries.
  destruct (filter (λ f, is_inmet_csv f.1) entries) as [|f0 found] eqn:Hfound.
  { by destruct all_files. }
  by destruct (filter_files all_files _ _ _ (f0 :: found)) as [|f1 chosen] eqn:Hchosen.
Qed.

(** The result of a call by the outcomes of the selected files. *)
Lemma convert_csvs_to_netcdf_outcomes (fs : filesystem) (region uf wmo_code : filter_arg)
    (all_files debug skip_existing : bool) :
  let run := convert_csvs_to_netcdf fs region uf wmo_code all_files debug skip_existing in
  let outs := outcomes skip_existing (netcdf_folder fs)
                (selected_files fs region uf wmo_code all_files) in
  converted_files (fst run) = length (with_outcome Converted outs)
  ∧ skipped_files (fst run) = length (with_outcome SkippedExisting outs)
  ∧ saved_paths (fst run) = listed_outputs outs
  ∧ failed_files (fst run) = map fst (with_outcome Failed outs)
  ∧ snd run = final_folder skip_existing (netcdf_folder fs)
                (selected_files fs region uf wmo_code all_files).
Proof.
  cbv zeta.
  destruct (convert_csvs_to_netcdf_result fs region uf wmo_code all_files debug skip_existing)
    as (-> & -> & -> & -> & _ & ->).
  destruct (convert_files_outcomes skip_existing
              (selected_files fs region uf wmo_code all_files) (start (netcdf_folder fs)))
    as (Hn & Hs & Hf & Hk & Hc).
  unfold convert_files. rewrite Hn, Hs, Hf, Hk, Hc. cbn. by rewrite length_map.
Qed.

(** C8: when the turn of a selected file comes, it is not skipped and its
    run raises, in the parsing or in the write, the orchestrator lists the
    name of the file among the failed files and goes on: every remaining
    file has the outcome that the pipeline and the output folder give it,
    from the folder as the failed file left it, and is recorded by that
    outcome; the call returns its result, in which every selected file is
    converted, skipped or failed. *)
Theorem failures_do_not_stop_the_batch (fs : filesystem)
    (region uf wmo_code : filter_arg) (all_files debug skip_existing : bool)
    (before after : list (str * bytes)) (file : str * bytes) :
  selected_files fs region uf wmo_code all_files = before ++ file :: after →
  outcome_of skip_existing (final_folder skip_existing (netcdf_folder fs) before) file
  = Failed →
  let run := convert_csvs_to_netcdf fs region uf wmo_code all_files debug skip_existing in
  let r := fst run in
  let earlier := outcomes skip_existing (netcdf_folder fs) before in
  let remaining :=
    outcomes skip_existing
      (folder_after skip_existing
         (final_folder skip_existing (netcdf_folder fs) before) file) after in
  fst file ∈ failed_files r
  ∧ failed_files r
    = map fst (with_outcome Failed earlier)
      ++ fst file :: map fst (with_outcome Failed remaining)
  ∧ saved_paths r = listed_outputs earlier ++ listed_outputs remaining
  ∧ converted_files r
    = length (with_outcome Converted earlier) + length (with_outcome Converted remaining)
  ∧ skipped_files r
    = length (with_outcome SkippedExisting earlier)
      + length (with_outcome SkippedExisting remaining)
  ∧ snd run
    = final_folder skip_existing
        (folder_after skip_existing
           (final_folder skip_existing (netcdf_folder fs) before) file) after
  ∧ converted_files r + skipped_files r + length (failed_files r)
    = length (before ++ file :: after).
Proof.
  intros Hfiles Hfailed. cbv zeta.
  destruct (convert_csvs_to_netcdf_outcomes fs region uf wmo_code all_files debug
              skip_existing) as (Hc & Hs & Hp & Hf & Hn).
  cbv zeta in Hc, Hs, Hp, Hf, Hn. rewrite Hfiles in Hc, Hs, Hp, Hf, Hn.
  rewrite outcomes_app in Hc, Hs, Hp, Hf. cbn [outcomes] in Hc, Hs, Hp, Hf.
  rewrite Hfailed in Hc, Hs, Hp, Hf.
  rewrite final_folder_app in Hn. cbn [final_folder fold_left] in Hn.
  unfold with_outcome, listed_outputs in *.
  rewrite filter_app, filter_cons in Hc, Hs, Hp, Hf. cbn [snd] in Hc, Hs, Hp, Hf.
  rewrite decide_False in Hc by done. rewrite decide_False in Hs by done.
  rewrite decide_False in Hp by (intros Hne; by apply Hne).
  rewrite decide_True in Hf by done.
  rewrite !map_app in Hc, Hs, Hp, Hf. cbn [map fst] in Hf.
  rewrite length_app in Hc, Hs.
  assert (failed_files
            (convert_csvs_to_netcdf fs region uf wmo_code all_files debug skip_existing).1
          = map fst (map fst (filter (λ x, x.2 = Failed)
                                (outcomes skip_existing (netcdf_folder fs) before)))
            ++ file.1
               :: map fst (map fst (filter (λ x, x.2 = Failed)
                    (outcomes skip_existing
                       (folder_after skip_existing
                          (final_folder skip_existing (netcdf_folder fs) before) file)
                       after)))) as Hf' by (rewrite Hf, ?map_app; reflexivity).
  split; [|split; [exact Hf'|split; [exact Hp|split; [exact Hc|split; [exact Hs|split]]]]].
  - rewrite Hf'. apply elem_of_app. right. by left.
  - exact Hn.
  - destruct (convert_csvs_to_netcdf_result fs region uf wmo_code all_files debug
                skip_existing) as (-> & -> & _ & -> & _).
    pose proof (convert_files_accounted skip_existing
                  (selected_files fs region uf wmo_code all_files)
                  (start (netcdf_folder fs))) as Hacc.
    unfold accounted in Hacc. cbn in Hacc. unfold convert_files.
    rewrite Hfiles in Hacc |- *. lia.
Qed.

(** ** The orchestrator: a second run *)

(** A file whose output is not in the folder after a run has left nothing. *)
Lemma absent_output_not_produced (files : list (str * bytes)) (netcdf : list str)
    (f : str * bytes) :
  f ∈ files → netcdf_name (fst f) ∉ final_folder true netcdf files → produces f = false.
Proof.
  revert netcdf. induction files as [|g files IH]; intros netcdf Hin Hout;
    [by apply elem_of_nil in Hin|].
  cbn in Hout. apply elem_of_cons in Hin as [->|Hin]; [|by eapply IH].
  assert (netcdf_name g.1 ∉ folder_after true netcdf g) as Hstep.
  { intros Hx. apply Hout. eapply elem_of_prefix; [exact Hx|apply final_folder_prefix]. }
  clear Hout IH. unfold folder_after, outcome_of, produces in *.
  rewrite andb_true_r in Hstep. case_bool_decide as Hthere; [done|].
  destruct (converts g); cbn.
  - destruct Hstep. apply elem_of_written. by left.
  - destruct (leaves_file g); [|done]. destruct Hstep. apply elem_of_written. by left.
Qed.

(** A run over files that leave nothing unless their output is there:
    the files whose output is there are skipped, the others fail, and the
    folder stays as it is. *)
Lemma outcomes_of_a_rerun (files : list (str * bytes)) (netcdf : list str) :
  (∀ f, f ∈ files → netcdf_name (fst f) ∉ netcdf → produces f = false) →
  let outs := outcomes true netcdf files in
  final_folder true netcdf files = netcdf
  ∧ with_outcome Converted outs = []
  ∧ with_outcome SkippedExisting outs
    = filter (fun f => netcdf_name (fst f) ∈ netcdf) files
  ∧ listed_outputs outs
    = map (fun f => netcdf_name (fst f))
        (filter (fun f => netcdf_name (fst f) ∈ netcdf) files)
  ∧ with_outcome Failed outs = filter (fun f => netcdf_name (fst f) ∉ netcdf) files.
Proof.
  cbv zeta. induction files as [|f files IH]; intros Hnone; [done|].
  destruct IH as (Hn & Hc & Hs & Hp & Hf).
  { intros g Hg. apply Hnone. by right. }
  assert (outcome_of true netcdf f
          = (if bool_decide (netcdf_name f.1 ∈ netcdf) then SkippedExisting else Failed)
          ∧ folder_after true netcdf f = netcdf) as [Hout Hfolder].
  { unfold folder_after, outcome_of. rewrite andb_true_r.
    case_bool_decide as Hthere; [done|].
    assert (produces f = false) as Hleft by (apply Hnone; [by left|done]).
    unfold produces in Hleft.
    apply orb_false_iff in Hleft as [-> ->]. done. }
  cbn [outcomes final_folder fold_left]. rewrite Hfolder.
  fold (final_folder true netcdf files).
  unfold with_outcome, listed_outputs in *. rewrite !filter_cons. cbn [snd].
  rewrite Hout. clear Hout Hfolder Hnone.
  case_bool_decide as Hthere; repeat case_decide; try congruence;
    try (exfalso; naive_solver); cbn [map fst];
    rewrite ?Hn, ?Hc, ?Hs, ?Hp, ?Hf; done.
Qed.

(** After a run, the files whose output is in the folder are those it
    converted or skipped, and those it failed on with their output
    there. *)
Lemma outputs_after_a_run (files : list (str * bytes)) (netcdf after : list str) :
  (∀ p, p ∈ final_folder true netcdf files → p ∈ after) →
  let outs := outcomes true netcdf files in
  length (filter (fun f => netcdf_name (fst f) ∈ after) files)
  = length (with_outcome Converted outs) + length (with_outcome SkippedExisting outs)
    + length (filter (fun name => netcdf_name name ∈ after)
                (map fst (with_outcome Failed outs))).
Proof.
  cbv zeta. revert netcdf. induction files as [|f files IH]; intros netcdf Hafter; [done|].
  cbn [final_folder fold_left] in Hafter. fold (final_folder true (folder_after true netcdf f) files) in Hafter.
  specialize (IH _ Hafter).
  assert (∀ p, p ∈ folder_after true netcdf f → p ∈ after) as Hstep.
  { intros p Hp. apply Hafter. eapply elem_of_prefix; [exact Hp|apply final_folder_prefix]. }
  cbn [outcomes]. unfold with_outcome in *. rewrite !filter_cons. cbn [snd].
  unfold folder_after in Hstep.
  destruct (outcome_of true netcdf f) eqn:Hout;
    repeat (case_decide; try congruence); cbn [map fst length].
  - lia.
  - destruct H0. apply Hstep, elem_of_written. by left.
  - lia.
  - destruct H0. apply Hstep. unfold outcome_of in Hout. rewrite andb_true_r in Hout.
    case_bool_decide; [done|]. by destruct (converts f).
  - rewrite filter_cons, decide_True by done. cbn [length]. lia.
  - rewrite filter_cons, decide_False by done. lia.
Qed.

Lemma selected_files_same_candidates (fs fs' : filesystem)
    (region uf wmo_code : filter_arg) (all_files : bool) :
  same_candidates fs fs' →
  selected_files fs' region uf wmo_code all_files
  = selected_files fs region uf wmo_code all_files.
Proof. unfold same_candidates, all_csv_files, selected_files. by intros ->. Qed.

(** C7, amended: a second call with skip-existing set, on the same input
    files and the output folder as the first call left it, converts
    nothing and skips the selected files whose output is in the folder:
    as many as the first call converted or skipped, and those among its
    failed files whose output is there all the same. It lists the output
    path of each file it skips, fails on the other files, and leaves the
    output folder as it was. *)
Theorem rerun_converts_nothing (fs fs' : filesystem) (region uf wmo_code : filter_arg)
    (all_files debug debug' : bool) :
  same_candidates fs fs' →
  netcdf_folder fs'
  = snd (convert_csvs_to_netcdf fs region uf wmo_code all_files debug true) →
  let run1 := convert_csvs_to_netcdf fs region uf wmo_code all_files debug true in
  let run2 := convert_csvs_to_netcdf fs' region uf wmo_code all_files debug' true in
  let selected := selected_files fs region uf wmo_code all_files in
  converted_files (fst run2) = 0
  ∧ skipped_files (fst run2)
    = converted_files (fst run1) + skipped_files (fst run1)
      + length (filter (fun name => netcdf_name name ∈ snd run1) (failed_files (fst run1)))
  ∧ saved_paths (fst run2)
    = map (fun f => netcdf_name (fst f))
        (filter (fun f => netcdf_name (fst f) ∈ snd run1) selected)
  ∧ (∀ f, f ∈ selected → netcdf_name (fst f) ∈ snd run1 →
          netcdf_name (fst f) ∈ saved_paths (fst run2))
  ∧ failed_files (fst run2)
    = map fst (filter (fun f => netcdf_name (fst f) ∉ snd run1) selected)
  ∧ snd run2 = snd run1.
Proof.
  intros Hsame Hfolder. cbv zeta.
  destruct (convert_csvs_to_netcdf_outcomes fs' region uf wmo_code all_files debug' true)
    as (Hc2 & Hs2 & Hp2 & Hf2 & Hn2).
  cbv zeta in Hc2, Hs2, Hp2, Hf2, Hn2.
  rewrite (selected_files_same_candidates fs fs' region uf wmo_code all_files Hsame)
    in Hc2, Hs2, Hp2, Hf2, Hn2.
  rewrite Hc2, Hs2, Hp2, Hf2, Hn2, Hfolder. clear Hc2 Hs2 Hp2 Hf2 Hn2 Hfolder Hsame.
  destruct (convert_csvs_to_netcdf_outcomes fs region uf wmo_code all_files debug true)
    as (Hc1 & Hs1 & _ & Hf1 & Hn1).
  cbv zeta in Hc1, Hs1, Hf1, Hn1. rewrite Hc1, Hs1, Hf1, Hn1. clear Hc1 Hs1 Hf1 Hn1.
  set (files := selected_files fs region uf wmo_code all_files).
  set (after := final_folder true (netcdf_folder fs) files).
  destruct (outcomes_of_a_rerun files after) as (Hn & Hc & Hs & Hp & Hf).
  { intros f Hf Hout. by apply (absent_output_not_produced files (netcdf_folder fs)). }
  rewrite Hn, Hc, Hs, Hp, Hf.
  split; [done|]. split; [|split; [done|split; [|done]]].
  - by apply outputs_after_a_run.
  - intros f Hf' Hin. apply (elem_of_map (fun f => netcdf_name (fst f))).
    exists f. split; [|done]. by apply list_elem_of_filter.
Qed.

End BatchFacts.

Lemma failures_do_not_stop_the_batch_witness :
  let file := (Files.gama_name, Files.truncated) in
  let run := convert_csvs_to_netcdf (H := Reference.library)
               Files.station_folder FNone FNone FNone false false true in
  outcome_of (H := Reference.library) true [] file = Failed
  ∧ failed_files (fst run) = [Files.gama_name]
  ∧ saved_paths (fst run) = [netcdf_name Files.brasilia_name]
  ∧ converted_files (fst run) = 1
  ∧ snd run = [netcdf_name Files.brasilia_name].
Proof.
  intros file run.
  assert (selected_files (H := Reference.library) Files.station_folder FNone FNone FNone false
          = [] ++ file :: [(Files.brasilia_name, Files.brasilia)])
    as Hfiles by (vm_compute; reflexivity).
  assert (outcome_of (H := Reference.library) true
            (final_folder (H := Reference.library) true
               (netcdf_folder Files.station_folder) []) file = Failed)
    as Hfailed by (vm_compute; reflexivity).
  destruct (failures_do_not_stop_the_batch (H := Reference.library)
              Files.station_folder FNone FNone FNone false false true
              [] [(Files.brasilia_name, Files.brasilia)] file
              Hfiles Hfailed) as (_ & Hf & Hp & Hc & _ & Hn & _).
  unfold run. split; [exact Hfailed|].
  split; [rewrite Hf; vm_compute; reflexivity|].
  split; [rewrite Hp; vm_compute; reflexivity|].
  split; [rewrite Hc; vm_compute; reflexivity|].
  rewrite Hn. vm_compute. reflexivity.
Defined.

Lemma rerun_converts_nothing_witness :
  let run1 := convert_csvs_to_netcdf (H := Reference.library)
                Files.station_folder FNone FNone FNone false false true in
  let again := {| csv_folder := csv_folder Files.station_folder;
                  netcdf_folder := snd run1 |} in
  let run2 := convert_csvs_to_netcdf (H := Reference.library)
                again FNone FNone FNone false false true in
  same_candidates Files.station_folder again
  ∧ converted_files (fst run1) = 1
  ∧ converted_files (fst run2) = 0
  ∧ skipped_files (fst run2) = 1
  ∧ failed_files (fst run2) = [Files.gama_name]
  ∧ snd run2 = snd run1.
Proof.
  intros run1 again run2.
  assert (same_candidates Files.station_folder again) as Hsame
    by reflexivity.
  destruct (rerun_converts_nothing (H := Reference.library)
              Files.station_folder again FNone FNone FNone false false false
              Hsame eq_refl)
    as (Hc & Hs & _ & _ & Hf & Hn).
  unfold run2, run1. split; [exact Hsame|].
  split; [vm_compute; reflexivity|].
  split; [exact Hc|].
  split; [rewrite Hs; vm_compute; reflexivity|].
  split; [rewrite Hf; vm_compute; reflexivity|exact Hn].
Defined.

(** C7, as stated, fails: the sanitized name of the column of this file is
    one netCDF refuses, and the write raises with the output created. The
    first call converts and skips nothing and lists the file as failed;
    the second call finds the output and skips the file. *)
Lemma rerun_skips_a_failed_write :
  let run1 := convert_csvs_to_netcdf (H := Reference.library)
                Files.refused_folder FNone FNone FNone false false true in
  let again := {| csv_folder := csv_folder Files.refused_folder;
                  netcdf_folder := snd run1 |} in
  let run2 := convert_csvs_to_netcdf (H := Reference.library)
                again FNone FNone FNone false false true in
  converted_files (fst run1) = 0 ∧ skipped_files (fst run1) = 0
  ∧ failed_files (fst run1) = [Files.brasilia_name]
  ∧ snd run1 = [netcdf_name Files.brasilia_name]
  ∧ converted_files (fst run2) = 0 ∧ skipped_files (fst run2) = 1
  ∧ skipped_files (fst run2) ≠ converted_files (fst run1) + skipped_files (fst run1).
Proof. vm_compute. repeat split; try reflexivity. discriminate. Qed.

(** ** File names: segments and underscores *)

Lemma count_cons (c x : char) (s : str) :
  count c (x :: s) = if decide (x = c) then S (count c s) else count c s.
Proof. unfold count. rewrite filter_cons. by destruct (decide (x = c)). Qed.

Lemma count_app (c : char) (a b : str) : count c (a ++ b) = count c a + count c b.
Proof. unfold count. by rewrite filter_app, length_app. Qed.

Lemma count_absent (c : char) (s : str) : c ∉ s → count c s = 0.
Proof.
  induction s as [|x s IH]; [done|]. intros [Hne Hs]%not_elem_of_cons.
  rewrite count_cons, decide_False by done. by apply IH.
Qed.

Lemma length_split (c : char) (s : str) : length (split c s) = S (count c s).
Proof.
  induction s as [|x s IH]; [done|]. cbn [split]. rewrite count_cons.
  destruct (N.eqb_spec x c) as [->|Hne].
  - rewrite decide_True by done. cbn. by rewrite IH.
  - rewrite decide_False by done. destruct (split c s); cbn in *; lia.
Qed.

Lemma startswith_cons (a b : char) (p s : str) :
  startswith (a :: p) (b :: s) = true → a = b ∧ startswith p s = true.
Proof. cbn. by intros [?%N.eqb_eq ?]%andb_true_iff. Qed.

(** A character that occurs neither in [old] nor in [new] occurs as often
    after the replacement as before. *)
Lemma count_replace_go (c : char) (old new s suf : str) (skip : nat) :
  old ≠ [] → c ∉ old → c ∉ new →
  suf `suffix_of` old → length suf = skip → startswith suf s = true →
  count c (replace_go old new skip s) = count c s.
Proof.
  intros Hold Hc Hnew. revert suf skip.
  induction s as [|x t IH]; intros suf skip Hsuf Hlen Hstart; [done|].
  cbn [replace_go]. destruct skip as [|k].
  - destruct (startswith old (x :: t)) eqn:Hmatch.
    + destruct old as [|y old']; [done|].
      apply startswith_cons in Hmatch as [<- Hrest].
      rewrite count_app, (count_absent c new Hnew), count_cons.
      rewrite decide_False by (intros ->; apply Hc; by left).
      replace (length (y :: old') - 1) with (length old') by (cbn; lia).
      apply (IH old'); [by apply suffix_cons_r|done|done].
    + rewrite !count_cons. rewrite (IH [] 0); [done|apply suffix_nil|done|done].
  - destruct suf as [|y suf']; [done|].
    apply startswith_cons in Hstart as [<- Hrest].
    rewrite count_cons, decide_False.
    + apply (IH suf'); [|by injection Hlen|done].
      by eapply suffix_cons_l.
    + intros ->. apply Hc. eapply elem_of_suffix; [|done]. by left.
Qed.

Lemma count_replace (c : char) (old new s : str) :
  old ≠ [] → c ∉ old → c ∉ new → count c (replace old new s) = count c s.
Proof.
  intros Hold Hc Hnew. unfold replace.
  by apply (count_replace_go c old new s []); [| | |apply suffix_nil| |].
Qed.

Lemma not_elem_of_literal (c : char) (s : str) :
  forallb (fun x => negb (x =? c)%N) s = true → c ∉ s.
Proof.
  induction s as [|x s IH]; cbn; [by intros _ ?%elem_of_nil|].
  intros [Hx Hs]%andb_true_iff. apply not_elem_of_cons. split; [|by apply IH].
  intros ->. by rewrite N.eqb_refl in Hx.
Qed.

Lemma count_netcdf_name (filename : str) :
  count UNDERSCORE (netcdf_name filename) = count UNDERSCORE filename.
Proof.
  unfold netcdf_name. apply count_replace; [done| |]; by apply not_elem_of_literal.
Qed.

(** The segments the orchestrator counts are the underscores plus one. *)
Lemma length_name_parts (filename : str) :
  length (name_parts filename) = S (count UNDERSCORE filename).
Proof.
  unfold name_parts. rewrite length_split. f_equal.
  apply count_replace; [done| |]; by apply not_elem_of_literal.
Qed.

Lemma count_take (c : char) (i : nat) (s : str) : count c (take i s) ≤ count c s.
Proof. rewrite <- (take_drop i s) at 2. rewrite count_app. lia. Qed.

(** The pipeline sees no more segments in a name than the orchestrator. *)
Lemma length_stem_parts (filename : str) :
  length (split UNDERSCORE (stem filename)) ≤ length (name_parts filename).
Proof.
  rewrite length_split, length_name_parts. apply le_n_S. unfold stem.
  destruct (rfind 46%N filename) as [i|]; [|done].
  case_bool_decide; [apply count_take|done].
Qed.

(** ** The orchestrator: names with fewer than five segments *)

Section SelectionFacts.

Context `{Library}.

Lemma include_file_parts (region_filter uf_filter wmo_filter : option (list str))
    (filename : str) :
  include_file region_filter uf_filter wmo_filter filename = true →
  5 ≤ length (name_parts filename).
Proof. unfold include_file. case_bool_decide; [done|]. lia. Qed.

Lemma selected_files_filtered (fs : filesystem) (region uf wmo_code : filter_arg)
    (file : str * bytes) :
  file ∈ selected_files fs region uf wmo_code false →
  file ∈ all_csv_files fs ∧ 5 ≤ length (name_parts (fst file)).
Proof.
  unfold selected_files, filter_files, all_csv_files.
  intros [Hinc Hin]%list_elem_of_filter. split; [done|].
  apply Is_true_true in Hinc. by eapply include_file_parts.
Qed.

(** With fewer than five segments in the name the pipeline takes region,
    UF, WMO code and station from the preamble. *)
Lemma station_of_short_name (csv_file_name : str) (metadata : dict str) (s : Station) :
  length (name_parts csv_file_name) < 5 →
  station_of csv_file_name metadata = Ok s →
  region s = dict_get_default metadata #"REGIAO" #"Unknown"
  ∧ uf s = dict_get_default metadata #"UF" #"Unknown"
  ∧ wmo_code s = dict_get_default metadata #"CODIGO (WMO)" #"Unknown"
  ∧ station_name s = dict_get_default metadata #"ESTACAO" #"Unknown".
Proof.
  intros Hshort. pose proof (length_stem_parts csv_file_name) as Hstem.
  unfold station_of. rewrite bool_decide_eq_false_2 by lia.
  by intros (lat & _ & (lon & _ & (alt & _ & [= <-])%bind_Ok)%bind_Ok)%bind_Ok.
Qed.

(** The dataset of a file with such a name carries the identity of the
    preamble. *)
Lemma dataset_of_short_name (csv_file_name : str) (content : bytes) (debug : bool)
    (ds : Dataset) :
  length (name_parts csv_file_name) < 5 →
  parse_inmet_csv csv_file_name content debug = Ok ds →
  ∃ encoding metadata,
    read_station_file debug content = Ok (encoding, metadata)
    ∧ coord_region ds = [dict_get_default metadata #"REGIAO" #"Unknown"]
    ∧ coord_uf ds = [dict_get_default metadata #"UF" #"Unknown"]
    ∧ coord_wmo_code ds = [dict_get_default metadata #"CODIGO (WMO)" #"Unknown"]
    ∧ dict_get (attrs ds) #"station"
      = Some (AStr (dict_get_default metadata #"ESTACAO" #"Unknown")).
Proof.
  intros Hshort (enc & md & s & df0 & df & t & vars & E1 & E2 & _ & _ & _ & _ & E7)
         %parse_inmet_csv_Ok.
  apply (station_of_short_name _ _ _ Hshort) in E2 as (Hr & Hu & Hw & Hs).
  exists enc, md. split; [done|].
  unfold make_dataset in E7. destruct (bool_decide _); [done|].
  injection E7 as <-. cbn. by rewrite Hr, Hu, Hw, Hs.
Qed.

(** A selected file is recorded by the outcome it has when its turn
    comes. *)
Lemma selected_file_recorded (fs : filesystem) (region uf wmo_code : filter_arg)
    (all_files debug skip_existing : bool) (file : str * bytes) :
  file ∈ selected_files fs region uf wmo_code all_files →
  let run := convert_csvs_to_netcdf fs region uf wmo_code all_files debug skip_existing in
  ∃ before after,
    selected_files fs region uf wmo_code all_files = before ++ file :: after
    ∧ match outcome_of skip_existing
              (final_folder skip_existing (netcdf_folder fs) before) file with
      | Converted =>
          netcdf_name (fst file) ∈ saved_paths (fst run)
          ∧ netcdf_name (fst file) ∈ snd run
      | SkippedExisting =>
          netcdf_name (fst file) ∈ saved_paths (fst run)
          ∧ netcdf_name (fst file) ∈ snd run
      | Failed => fst file ∈ failed_files (fst run)
      end.
Proof.
  intros (before & after & Hfiles)%list_elem_of_split. cbv zeta.
  exists before, after. split; [done|].
  destruct (convert_csvs_to_netcdf_outcomes fs region uf wmo_code all_files debug
              skip_existing) as (_ & _ & Hp & Hf & Hn).
  cbv zeta in Hp, Hf, Hn. rewrite Hfiles in Hp, Hf, Hn. rewrite Hp, Hf, Hn.
  clear Hp Hf Hn Hfiles.
  rewrite outcomes_app, final_folder_app. cbn [outcomes final_folder fold_left].
  unfold listed_outputs, with_outcome. rewrite !filter_app, !filter_cons. cbn [snd].
  set (turn := final_folder skip_existing (netcdf_folder fs) before).
  assert (∀ p, p ∈ folder_after skip_existing turn file →
               p ∈ fold_left (folder_after skip_existing) after
                     (folder_after skip_existing turn file)) as Hlater.
  { intros p Hp. eapply elem_of_prefix; [exact Hp|].
    apply (final_folder_prefix skip_existing after). }
  unfold folder_after in Hlater |- *.
  destruct (outcome_of skip_existing turn file) eqn:Hout.
  - rewrite decide_True by done. split.
    + rewrite map_app. apply elem_of_app. right. by left.
    + apply Hlater, elem_of_written. by left.
  - rewrite decide_True by done. split.
    + rewrite map_app. apply elem_of_app. right. by left.
    + apply Hlater. unfold outcome_of in Hout.
      destruct (bool_decide (netcdf_name file.1 ∈ turn)) eqn:Hthere.
      * by apply bool_decide_eq_true_1 in Hthere.
      * cbn in Hout. by destruct (converts file).
  - rewrite decide_True by done. rewrite !map_app. apply elem_of_app. right. by left.
Qed.

(** C10: a candidate whose name has fewer than five segments is, without
    all_files, not selected: its name is not among the failed files, its
    output is neither listed nor written, and it is counted in
    total_files_found all the same. With all_files it is selected and
    processed: when its turn comes it is skipped, converted or failed as
    the output folder and the pipeline have it, and recorded so in the
    result; and the dataset the pipeline builds from it takes its region,
    UF, WMO code and station from the preamble. *)
Theorem short_names_need_all_files (fs : filesystem) (region_ uf_ wmo_code_ : filter_arg)
    (debug skip_existing : bool) (file : str * bytes) :
  file ∈ all_csv_files fs →
  length (name_parts (fst file)) < 5 →
  (let run := convert_csvs_to_netcdf fs region_ uf_ wmo_code_ false debug skip_existing in
   (file ∉ selected_files fs region_ uf_ wmo_code_ false)
   ∧ (fst file ∉ failed_files (fst run))
   ∧ (netcdf_name (fst file) ∉ saved_paths (fst run))
   ∧ (netcdf_name (fst file) ∈ snd run → netcdf_name (fst file) ∈ netcdf_folder fs)
   ∧ total_files_found (fst run) = length (all_csv_files fs))
  ∧ (let run := convert_csvs_to_netcdf fs region_ uf_ wmo_code_ true debug skip_existing in
     file ∈ selected_files fs region_ uf_ wmo_code_ true
     ∧ (∃ before after,
          selected_files fs region_ uf_ wmo_code_ true = before ++ file :: after
          ∧ match outcome_of skip_existing
                    (final_folder skip_existing (netcdf_folder fs) before) file with
            | Converted =>
                netcdf_name (fst file) ∈ saved_paths (fst run)
                ∧ netcdf_name (fst file) ∈ snd run
            | SkippedExisting =>
                netcdf_name (fst file) ∈ saved_paths (fst run)
                ∧ netcdf_name (fst file) ∈ snd run
            | Failed => fst file ∈ failed_files (fst run)
            end)
     ∧ ∀ ds,
         parse_inmet_csv (fst file) (snd file) false = Ok ds →
         ∃ encoding metadata,
           read_station_file false (snd file) = Ok (encoding, metadata)
           ∧ coord_region ds = [dict_get_default metadata #"REGIAO" #"Unknown"]
           ∧ coord_uf ds = [dict_get_default metadata #"UF" #"Unknown"]
           ∧ coord_wmo_code ds = [dict_get_default metadata #"CODIGO (WMO)" #"Unknown"]
           ∧ dict_get (attrs ds) #"station"
             = Some (AStr (dict_get_default metadata #"ESTACAO" #"Unknown"))).
Proof.
  intros Hfile Hshort. split; [|split; [|split]].
  - cbv zeta.
    destruct (convert_csvs_to_netcdf_result fs region_ uf_ wmo_code_ false debug skip_existing)
      as (_ & _ & -> & -> & -> & ->).
    destruct (convert_files_sources skip_existing
                (selected_files fs region_ uf_ wmo_code_ false)
                (start (netcdf_folder fs))) as (Hfailed & Hsaved & Hnetcdf).
    assert (∀ g, g ∈ selected_files fs region_ uf_ wmo_code_ false →
                 netcdf_name (fst g) ≠ netcdf_name (fst file)) as Hother.
    { intros g [_ Hparts]%selected_files_filtered Heq.
      apply (f_equal (count UNDERSCORE)) in Heq.
      rewrite !count_netcdf_name in Heq. rewrite !length_name_parts in *. lia. }
    split; [|split; [|split; [|split]]].
    + intros [_ ?]%selected_files_filtered. lia.
    + intros [Hnil|(g & Hg & Heq)]%Hfailed; [by apply elem_of_nil in Hnil|].
      apply (Hother g Hg). by rewrite Heq.
    + intros [Hnil|(g & Hg & Heq)]%Hsaved; [by apply elem_of_nil in Hnil|].
      by apply (Hother g Hg).
    + intros [?|(g & Hg & Heq)]%Hnetcdf; [done|]. by destruct (Hother g Hg).
    + done.
  - done.
  - by apply selected_file_recorded.
  - intros ds. by apply dataset_of_short_name.
Qed.

End SelectionFacts.

Lemma short_names_need_all_files_witness :
  let file := (Files.short_name, Files.brasilia) in
  let run := convert_csvs_to_netcdf (H := Reference.library)
               Files.short_folder FNone FNone FNone false false true in
  let run_all := convert_csvs_to_netcdf (H := Reference.library)
                   Files.short_folder FNone FNone FNone true false true in
  file ∈ all_csv_files Files.short_folder
  ∧ length (name_parts (fst file)) < 5
  ∧ (file ∉ selected_files (H := Reference.library)
               Files.short_folder FNone FNone FNone false)
  ∧ (fst file ∉ failed_files (fst run))
  ∧ (netcdf_name (fst file) ∉ saved_paths (fst run))
  ∧ total_files_found (fst run) = 2
  ∧ file ∈ selected_files (H := Reference.library) Files.short_folder FNone FNone FNone true
  ∧ netcdf_name (fst file) ∈ saved_paths (fst run_all)
  ∧ netcdf_name (fst file) ∈ snd run_all
  ∧ converted_files (fst run_all) = 2
  ∧ ∃ ds, parse_inmet_csv (H := Reference.library) (fst file) (snd file) false = Ok ds
          ∧ coord_region ds = [#"CO"] ∧ coord_uf ds = [#"DF"]
          ∧ coord_wmo_code ds = [#"A001"]
          ∧ dict_get (attrs ds) #"station" = Some (AStr #"BRASILIA").
Proof.
  intros file run run_all.
  assert (file ∈ all_csv_files Files.short_folder) as Hfile by (vm_compute; left).
  assert (length (name_parts (fst file)) < 5) as Hshort by (vm_compute; lia).
  destruct (short_names_need_all_files (H := Reference.library)
              Files.short_folder FNone FNone FNone false true file Hfile Hshort)
    as ((Hout & Hfailed & Hsaved & _ & Htotal) & Hin & (before & after & Hsplit & Hrec)
        & Hds).
  split; [exact Hfile|]. split; [exact Hshort|]. split; [exact Hout|].
  split; [exact Hfailed|]. split; [exact Hsaved|]. split; [exact Htotal|].
  split; [exact Hin|].
  assert (before = []) as ->.
  { destruct before as [|g before]; [reflexivity|]. exfalso.
    vm_compute in Hsplit. injection Hsplit as _ Hrest.
    destruct before as [|g' before]; [discriminate Hrest|].
    injection Hrest as _ Hrest. by destruct before. }
  assert (outcome_of (H := Reference.library) true
            (final_folder (H := Reference.library) true
               (netcdf_folder Files.short_folder) []) file = Converted) as Hconv
    by (vm_compute; reflexivity).
  rewrite Hconv in Hrec. destruct Hrec as [Hlisted Hwritten].
  split; [exact Hlisted|]. split; [exact Hwritten|].
  split; [vm_compute; reflexivity|].
  assert (succeeds (parse_inmet_csv (H := Reference.library) (fst file) (snd file) false)
          = true) as Hok by (vm_compute; reflexivity).
  destruct (parse_inmet_csv (H := Reference.library) (fst file) (snd file) false)
    as [ds|e] eqn:E; [|discriminate Hok].
  destruct (Hds ds eq_refl) as (enc & md & Hmd & Hr & Hu & Hw & Hs).
  assert (md = Files.brasilia_metadata) as ->.
  { change (read_station_file false (snd file))
      with (Ok (A := option encoding * dict str)
               (Some cp1252, Files.brasilia_metadata)) in Hmd.
    by injection Hmd as _ <-. }
  exists ds. split; [reflexivity|]. rewrite Hr, Hu, Hw, Hs.
  repeat split; vm_compute; reflexivity.
Defined.

(** ** The scenarios of the specification on concrete folders *)

(** Two dates, three hours and one blank value: the temperature grid has
    six cells on two dates and three hours, the second of them missing. *)
Example scenario_two_dates_three_hours :
  ∃ ds dims arr,
    parse_inmet_csv (H := Reference.library) Files.brasilia_name Files.brasilia false
    = Ok ds
    ∧ dict_get (data_vars ds) #"TEMPERATURA_C" = Some (dims, arr)
    ∧ shape arr = [1; 1; 1; 2; 3; 1; 1; 1]
    ∧ map PrimFloat.is_nan (data arr) = [false; true; false; false; false; false].
Proof. do 3 eexists. split; [vm_compute; reflexivity|]. repeat split. Qed.

(** A name with fewer than five segments: the identity comes from the
    preamble. *)
Example scenario_short_name :
  ∃ ds,
    parse_inmet_csv (H := Reference.library) Files.short_name Files.brasilia false = Ok ds
    ∧ coord_region ds = [#"CO"] ∧ coord_uf ds = [#"DF"] ∧ coord_wmo_code ds = [#"A001"].
Proof. eexists. split; [vm_compute; reflexivity|]. repeat split. Qed.

(** A folder without candidates: the call returns without success. *)
Example scenario_no_candidates :
  fst (convert_csvs_to_netcdf (H := Reference.library)
         {| csv_folder := Some [(#"notes.txt", [])]; netcdf_folder := [] |}
         FNone FNone FNone false false true)
  = {| folder_path := CsvFolder; success := false; message := NoCsvFound;
       converted_files := 0; skipped_files := 0; total_files_found := 0;
       saved_paths := []; failed_files := [] |}.
Proof. reflexivity. Qed.

(** A filter on the UF keeps the files of that UF, in either case of the
    letters, and counts every candidate. *)
Example scenario_uf_filter :
  let fs := {| csv_folder := Some [(#"INMET_CO_DF_A001_BRASILIA_2024.CSV", Files.brasilia);
                                   (#"INMET_SE_SP_A701_SAO PAULO_2024.CSV", Files.brasilia);
                                   (#"INMET_SE_MG_A521_BELO HORIZONTE_2024.CSV", Files.brasilia)];
               netcdf_folder := [] |} in
  let run := fst (convert_csvs_to_netcdf (H := Reference.library)
                    fs FNone (FList [#"df"; #"SP"]) FNone false false true) in
  saved_paths run = [#"INMET_CO_DF_A001_BRASILIA_2024.nc"; #"INMET_SE_SP_A701_SAO PAULO_2024.nc"]
  ∧ converted_files run = 2 ∧ total_files_found run = 3.
Proof. vm_compute. repeat split. Qed.

(** * Further properties *)

(** ** The sanitizer: the keys of its result *)

Local Open Scope N_scope.

Lemma dict_keys_set {V} (d : dict V) (k : str) (v : V) :
  dict_keys (dict_set d k v) =
    if decide (k ∈ dict_keys d) then dict_keys d else dict_keys d ++ [k].
Proof.
  unfold dict_keys. induction d as [|[k' v'] d IH]; [done|]. cbn.
  destruct (decide (k' = k)) as [->|Hne]; cbn.
  - rewrite decide_True by (by left). done.
  - rewrite IH. destruct (decide (k ∈ map fst d)) as [Hin|Hin].
    + rewrite decide_True by (by right). done.
    + rewrite decide_False; [done|]. by intros [?|?]%elem_of_cons.
Qed.

Lemma filter_all {A} (P : A → Prop) `{∀ x, Decision (P x)} (l : list A) :
  (∀ x, x ∈ l → P x) → filter P l = l.
Proof.
  induction l as [|x l IH]; intros Hall; [done|].
  rewrite filter_cons, decide_True by (apply Hall; by left).
  rewrite IH; [done|]. intros y Hy. apply Hall. by right.
Qed.

(** The keys after a loop of assignments: those there at the start, then
    the new ones in the order of their first assignment. *)
Lemma dict_keys_assignments {V} (keys : list str) (values : list V) (acc : dict V) :
  length keys = length values →
  dict_keys (fold_left (fun d kv => dict_set d (fst kv) (snd kv)) (zip keys values) acc)
  = dict_keys acc ++ filter (fun k => k ∉ dict_keys acc) (unique keys).
Proof.
  revert values acc. induction keys as [|k keys IH]; intros [|v values] acc Hlen;
    try done.
  { cbn. by rewrite app_nil_r. }
  cbn [zip zip_with fold_left fst snd]. rewrite IH by (by injection Hlen).
  rewrite dict_keys_set. cbn [unique]. rewrite filter_cons.
  destruct (decide (k ∈ dict_keys acc)) as [Hin|Hin].
  - rewrite decide_False by (by intros ?). f_equal.
    rewrite list_filter_filter. apply list_filter_iff. intros x. split; [|tauto].
    intros Hx. split; [done|]. by intros ->.
  - rewrite decide_True by done. rewrite <- app_assoc. cbn [app]. do 2 f_equal.
    rewrite list_filter_filter. apply list_filter_iff. intros x.
    rewrite not_elem_of_app, list_elem_of_singleton. tauto.
Qed.

Lemma zip_fst_snd {A B} (l : list (A * B)) : zip (map fst l) (map snd l) = l.
Proof. induction l as [|[a b] l IH]; [done|]. cbn. by rewrite IH. Qed.

Lemma clean_variable_names_zip {V} (data_vars acc : dict V) :
  fold_left (fun cleaned_vars item => dict_set cleaned_vars (clean_name (fst item)) (snd item))
            data_vars acc
  = fold_left (fun d kv => dict_set d (fst kv) (snd kv))
              (zip (cleaned_keys data_vars) (map snd data_vars)) acc.
Proof.
  revert acc. induction data_vars as [|[k v] l IH]; intros acc; [done|].
  cbn. by rewrite IH.
Qed.

Lemma dict_keys_clean_variable_names {V} (data_vars : dict V) :
  dict_keys (clean_variable_names data_vars) = unique (cleaned_keys data_vars).
Proof.
  unfold clean_variable_names. rewrite clean_variable_names_zip.
  rewrite dict_keys_assignments by (unfold cleaned_keys; by rewrite !length_map).
  cbn. apply filter_all. by intros x _ ?%elem_of_nil.
Qed.

(** X1: the result lists each sanitized name once, in the order in which
    the names first come up while the labels are read; so it has no more
    entries than the input. *)
Theorem clean_variable_names_keys {V} (data_vars : dict V) :
  dict_keys (clean_variable_names data_vars) = unique (cleaned_keys data_vars)
  ∧ NoDup (dict_keys (clean_variable_names data_vars))
  ∧ (length (clean_variable_names data_vars) ≤ length data_vars)%nat.
Proof.
  rewrite dict_keys_clean_variable_names. split; [done|]. split.
  - apply NoDup_unique.
  - rewrite <- (length_map fst (clean_variable_names data_vars)).
    fold (dict_keys (clean_variable_names data_vars)).
    rewrite dict_keys_clean_variable_names.
    rewrite <- (length_map (fun item => clean_name (fst item)) data_vars).
    fold (cleaned_keys data_vars). generalize (cleaned_keys data_vars). intros l.
    induction l as [|x l IH]; [done|]. cbn [unique length].
    pose proof (length_filter (fun y => y ≠ x) (unique l)). lia.
Qed.

(** X2: every name of the result, whatever the labels are, is non-empty,
    holds none of the ten characters the sanitizer rewrites, has no two
    underscores in a row, neither begins nor ends with an underscore and
    does not begin with a digit. *)
Theorem clean_variable_names_sanitized {V} (data_vars : dict V) :
  Forall sanitized (dict_keys (clean_variable_names data_vars)).
Proof.
  rewrite dict_keys_clean_variable_names. apply Forall_forall. intros name.
  rewrite elem_of_unique. unfold cleaned_keys.
  intros (item & _ & <-)%elem_of_map. apply clean_name_sanitized.
Qed.

Lemma dict_set_fresh {V} (d : dict V) (k : str) (v : V) :
  k ∉ dict_keys d → dict_set d k v = d ++ [(k, v)].
Proof.
  unfold dict_keys. induction d as [|[k' v'] d IH]; [done|]. cbn.
  intros [Hne Hk]%not_elem_of_cons.
  rewrite decide_False by done. by rewrite IH.
Qed.

Lemma clean_variable_names_fresh {V} (data_vars acc : dict V) :
  NoDup (dict_keys acc ++ cleaned_keys data_vars) →
  fold_left (fun cleaned_vars item => dict_set cleaned_vars (clean_name (fst item)) (snd item))
            data_vars acc
  = acc ++ renamed data_vars.
Proof.
  revert acc. induction data_vars as [|[k v] l IH]; intros acc Hnd.
  { cbn. by rewrite app_nil_r. }
  cbn [fold_left fst snd]. cbn in Hnd.
  apply NoDup_app in Hnd as (Hacc & Hdisj & [Hk Hl]%NoDup_cons).
  assert (clean_name k ∉ dict_keys acc) as Hfresh.
  { intros Hin. apply (Hdisj _ Hin). by left. }
  rewrite dict_set_fresh by done. rewrite IH.
  - by rewrite <- app_assoc.
  - unfold dict_keys. rewrite map_app. cbn. rewrite <- app_assoc. cbn.
    apply NoDup_app. split; [done|]. split; [|by apply NoDup_cons].
    intros x Hx [->|Hin]%elem_of_cons; [done|]. apply (Hdisj x Hx). by right.
Qed.

(** X3: when no two labels have the same sanitized name, nothing is
    merged: the result is the input with each label replaced by its
    sanitized name, in the same order and with the same data. *)
Theorem clean_variable_names_distinct {V} (data_vars : dict V) :
  NoDup (cleaned_keys data_vars) → clean_variable_names data_vars = renamed data_vars.
Proof. intros Hnd. by apply (clean_variable_names_fresh data_vars []). Qed.

Lemma clean_variable_names_distinct_witness :
  NoDup (cleaned_keys [(#"TEMP (C)", 1%nat); (#"UMIDADE (%)", 2%nat)])
  ∧ clean_variable_names [(#"TEMP (C)", 1%nat); (#"UMIDADE (%)", 2%nat)]
    = [(#"TEMP_C", 1%nat); (#"UMIDADE_%", 2%nat)].
Proof.
  assert (NoDup (cleaned_keys [(#"TEMP (C)", 1%nat); (#"UMIDADE (%)", 2%nat)])) as Hnd.
  { apply (bool_decide_unpack _). vm_compute. reflexivity. }
  split; [exact Hnd|].
  exact (clean_variable_names_distinct _ Hnd).
Defined.

Lemma renamed_sanitized {V} (data_vars : dict V) :
  Forall sanitized (dict_keys data_vars) → renamed data_vars = data_vars.
Proof.
  unfold renamed, dict_keys. induction data_vars as [|[k v] l IH]; [done|].
  cbn [map fst snd]. intros [Hk Hl]%Forall_cons.
  by rewrite (sanitized_fixed k Hk), IH.
Qed.

(** X4: sanitizing a dictionary twice is sanitizing it once: the result of
    the sanitizer, names and data, is left as it is by the sanitizer. *)
Theorem clean_variable_names_idempotent {V} (data_vars : dict V) :
  clean_variable_names (clean_variable_names data_vars) = clean_variable_names data_vars.
Proof.
  assert (Forall sanitized (dict_keys (clean_variable_names data_vars))) as Hs.
  { rewrite dict_keys_clean_variable_names. apply Forall_forall. intros name.
    rewrite elem_of_unique. unfold cleaned_keys.
    intros (item & _ & <-)%elem_of_map. apply clean_name_sanitized. }
  assert (renamed (clean_variable_names data_vars) = clean_variable_names data_vars) as Hr
    by (by apply renamed_sanitized).
  rewrite <- Hr at 2. apply (clean_variable_names_fresh _ []). cbn [dict_keys map app].
  replace (cleaned_keys (clean_variable_names data_vars))
    with (dict_keys (clean_variable_names data_vars)).
  - rewrite dict_keys_clean_variable_names. apply NoDup_unique.
  - unfold cleaned_keys, dict_keys. rewrite <- Hr at 1. unfold renamed.
    by rewrite map_map.
Qed.

(** ** The sanitizer: labels without a name *)

Lemma replace_symbols_separator (c : char) :
  c ∈ SEPARATORS → replace_symbols [c] = [UNDERSCORE].
Proof.
  intros Hc. unfold SEPARATORS in Hc. cbn in Hc.
  repeat (apply elem_of_cons in Hc as [->|Hc]; [reflexivity|]).
  by apply elem_of_nil in Hc.
Qed.

Lemma rstrip_all (p : char → bool) (s : str) :
  Forall (fun c => p c = true) s → rstrip p s = [].
Proof. induction 1 as [|c s Hc _ IH]; [done|]. cbn. by rewrite IH, Hc. Qed.

(** X5: a label made only of parentheses, spaces, commas, hyphens,
    periods and underscores has no name left once it is sanitized, and is
    stored as [unknown_variable]; so is the empty label. *)
Theorem clean_name_of_separators (s : str) :
  Forall (fun c => c ∈ SEPARATORS) s → clean_name s = #"unknown_variable".
Proof.
  intros Hs.
  assert (Forall (fun c => is_underscore c = true) (replace_symbols s)) as Hu.
  { rewrite replace_symbols_flat_map. induction Hs as [|c s Hc _ IH]; [constructor|].
    cbn [flat_map]. rewrite (replace_symbols_separator c Hc). by constructor. }
  apply sub_underscores_Forall in Hu.
  unfold clean_name, strip. by rewrite (rstrip_all _ _ Hu).
Qed.

Lemma clean_name_of_separators_witness :
  Forall (fun c => c ∈ SEPARATORS) #"( - )" ∧ clean_name #"( - )" = #"unknown_variable".
Proof.
  assert (Forall (fun c => c ∈ SEPARATORS) #"( - )") as Hs.
  { apply Forall_forall. intros c Hc. apply (bool_decide_unpack _).
    cbn in Hc. repeat (apply elem_of_cons in Hc as [->|Hc]; [vm_compute; reflexivity|]).
    by apply elem_of_nil in Hc. }
  split; [exact Hs|]. exact (clean_name_of_separators _ Hs).
Defined.

(** ** The sanitizer: labels that begin with a digit *)

Lemma replace_symbols_digit (c : char) :
  isdigit c = true →
  ∃ c', replace_symbols [c] = [c'] ∧ isdigit c' = true ∧ is_underscore c' = false.
Proof.
  intros Hd. destruct (replace_symbols_char c) as [[_ ->]|[Hr _]].
  - exists c. split; [done|]. split; [done|].
    apply N.eqb_neq. by apply isdigit_not_underscore.
  - rewrite is_replaced_unfold in Hr.
    repeat match type of Hr with
           | (?x =? ?k) || _ = true =>
               destruct (N.eqb_spec x k) as [E|_];
               [rewrite E in Hd |- *; first [discriminate Hd | by eexists]
               |cbn [orb] in Hr]
           end.
    done.
Qed.

Lemma rstrip_cons_keep (p : char → bool) (c : char) (s : str) :
  p c = false → ∃ r, rstrip p (c :: s) = c :: r.
Proof.
  intros Hc. cbn. destruct (rstrip p s); [|by eexists]. rewrite Hc. by eexists.
Qed.

(** X6: a label whose first character is a digit ([str.isdigit], the
    superscripts two and three included) is stored under a name that begins
    with [var_] followed by that digit, the superscripts as plain digits. *)
Theorem clean_name_leading_digit (c : char) (t : str) :
  isdigit c = true →
  ∃ rest, clean_name (c :: t) = #"var_" ++ replace_symbols [c] ++ rest.
Proof.
  intros Hd. destruct (replace_symbols_digit c Hd) as (c' & Hc' & Hd' & Hu').
  unfold clean_name.
  change (c :: t) with ([c] ++ t). rewrite replace_symbols_app, Hc'. cbn [app].
  destruct (sub_underscores_head c' (replace_symbols t)) as [u ->].
  unfold strip. destruct (rstrip_cons_keep is_underscore c' u Hu') as [r ->].
  cbn [lstrip]. rewrite Hu', Hd'. by exists r.
Qed.

Lemma clean_name_leading_digit_witness :
  isdigit 50 = true ∧ ∃ rest, clean_name #"2m temp" = #"var_" ++ replace_symbols #"2" ++ rest.
Proof.
  assert (isdigit 50 = true) as Hd by reflexivity.
  split; [exact Hd|]. exact (clean_name_leading_digit 50 #"m temp" Hd).
Defined.

(** ** Reading a station file: the encoding that is used *)

Lemma cp1252_char_undefined (b : Byte.byte) :
  cp1252_char (Byte.to_N b) = None ↔ Byte.to_N b ∈ CP1252_UNDEFINED.
Proof.
  assert (bool_decide (cp1252_char (Byte.to_N b) = None)
          = bool_decide (Byte.to_N b ∈ CP1252_UNDEFINED)) as E
    by (destruct b; vm_compute; reflexivity).
  split; intros Hb.
  - eapply bool_decide_eq_true_1. rewrite <- E. by apply bool_decide_eq_true_2.
  - eapply bool_decide_eq_true_1. rewrite E. by apply bool_decide_eq_true_2.
Qed.

Lemma decode_cp1252_None (content : bytes) :
  decode cp1252 content = None ↔ Exists (fun b => Byte.to_N b ∈ CP1252_UNDEFINED) content.
Proof.
  unfold decode. induction content as [|b content IH]; cbn [map decode_cp1252].
  - split; [done|]. by intros ?%Exists_nil.
  - rewrite Exists_cons, <- IH, <- cp1252_char_undefined.
    destruct (cp1252_char (Byte.to_N b)), (decode_cp1252 (map Byte.to_N content)).
    all: split; [try done; auto|by intros [?|?]].
Qed.

Lemma read_silently_encoding (content : bytes) :
  decode (silent_encoding content) content = Some (text_of (silent_encoding content) content)
  ∧ read_silently content
    = (Some (silent_encoding content),
       readlines (text_of (silent_encoding content) content)).
Proof.
  unfold read_silently, silent_encoding, text_of. cbn [SILENT_ENCODINGS try_encodings].
  case_bool_decide as Hu.
  - apply decode_cp1252_None in Hu. by rewrite Hu.
  - destruct (decode cp1252 content) as [text|] eqn:E; [done|].
    by apply decode_cp1252_None in E.
Qed.

(** ** Reading a station file: the preamble *)

Lemma metadata_loop_Ok (lines : list str) (a n : nat) (metadata : dict str) :
  (a + n ≤ length lines)%nat →
  metadata_loop lines (seq a n) metadata
  = Ok (fold_left metadata_line (take n (drop a lines)) metadata).
Proof.
  revert a metadata. induction n as [|n IH]; intros a metadata Hlen; [done|].
  cbn [seq metadata_loop]. unfold getitem.
  destruct (lookup_lt_is_Some_2 lines a) as [line Hline]; [lia|].
  rewrite Hline. cbn. rewrite IH by lia.
  by rewrite (drop_S _ _ _ Hline).
Qed.

Lemma metadata_loop_IndexError (lines : list str) (a n : nat) (metadata : dict str) :
  (a ≤ length lines < a + n)%nat →
  metadata_loop lines (seq a n) metadata = Raise IndexError.
Proof.
  revert a metadata. induction n as [|n IH]; intros a metadata Hlen; [lia|].
  cbn [seq metadata_loop]. unfold getitem.
  destruct (lines !! a) as [line|] eqn:Hline; cbn; [|done].
  apply IH. apply lookup_lt_Some in Hline. lia.
Qed.

Lemma extract_metadata_preamble (lines : list str) :
  extract_metadata lines =
    if bool_decide (8 ≤ length lines)%nat then Ok (preamble lines) else Raise IndexError.
Proof.
  unfold extract_metadata, preamble. case_bool_decide as Hlen.
  - by rewrite metadata_loop_Ok.
  - apply metadata_loop_IndexError. lia.
Qed.

(** X7: debug_inmet_file always reads the file as Latin-1: its second
    candidate is never tried and the failure it declares for an unreadable
    file never occurs. It raises IndexError when the file has fewer than nine
    lines, and nothing else; otherwise it returns the preamble of the first
    eight lines and the fields of the ninth. *)
Theorem debug_inmet_file_reads_latin1 (content : bytes) :
  let lines := readlines (map Byte.to_N content) in
  debug_inmet_file content =
    match lines !! 8%nat with
    | Some header_line =>
        Ok (latin1, preamble lines, split 59 (strip isspace header_line))
    | None => Raise IndexError
    end.
Proof.
  cbv zeta. unfold debug_inmet_file. cbn [DEBUG_ENCODINGS try_encodings decode decode_latin1].
  rewrite extract_metadata_preamble. unfold getitem.
  destruct (readlines (map Byte.to_N content) !! 8%nat) as [header|] eqn:E.
  - apply lookup_lt_Some in E. rewrite bool_decide_eq_true_2 by lia. done.
  - apply lookup_ge_None in E. case_bool_decide; done.
Qed.

(** X8: without debug the file is read as cp1252 unless it holds one of the
    five bytes that code page leaves undefined, and as Latin-1 then: an
    encoding is always found and it is never UTF-8. The reading raises
    IndexError when the text has fewer than eight lines, and nothing else;
    otherwise it gives the preamble of the first eight lines. *)
Theorem silent_reading_never_utf8 (content : bytes) :
  let enc := silent_encoding content in
  let lines := readlines (text_of enc content) in
  decode enc content = Some (text_of enc content)
  ∧ enc ≠ utf_8
  ∧ read_station_file false content =
      if bool_decide (8 ≤ length lines)%nat
      then Ok (Some enc, preamble lines) else Raise IndexError.
Proof.
  cbv zeta. destruct (read_silently_encoding content) as [Hdec Hread].
  split; [done|]. split.
  - unfold silent_encoding. by case_bool_decide.
  - unfold read_station_file. rewrite Hread, extract_metadata_preamble.
    by case_bool_decide.
Qed.

Lemma dict_get_metadata_lines (lines : list str) (acc : dict str) (key : str) :
  dict_get (fold_left metadata_line lines acc) key
  = match last (omap (preamble_value key) lines) with
    | Some value => Some value
    | None => dict_get acc key
    end.
Proof.
  revert acc. induction lines as [|line lines IH]; intros acc; [done|].
  cbn [fold_left omap list_omap]. rewrite IH. unfold metadata_line, preamble_value.
  destruct (split 59 (strip isspace line)) as [|k [|value rest]]; try done.
  rewrite dict_get_set. destruct (decide (replace #":" [] k = key)) as [E|E]; [|done].
  rewrite last_cons. by destruct (last _).
Qed.

(** X9: the value the preamble holds under a key is the second field of
    the last of the first eight lines that has two fields or more and whose
    first field, colons removed, is the key; the key is absent when there
    is no such line. *)
Theorem metadata_last_line_wins (lines : list str) (metadata : dict str) (key : str) :
  extract_metadata lines = Ok metadata →
  dict_get metadata key = last (omap (preamble_value key) (take 8 lines)).
Proof.
  rewrite extract_metadata_preamble. case_bool_decide; [|done]. intros [= <-].
  unfold preamble. rewrite dict_get_metadata_lines. by destruct (last _).
Qed.

Lemma metadata_last_line_wins_witness :
  let lines := map lit ["UF:;DF"; "ESTACAO:;BRASILIA"; "UF;SP;x"; "no field"; "";
                        "LATITUDE:;-15,5"; "LONGITUDE:;-47,25"; "ALTITUDE:;1160,75";
                        "Data;Hora UTC"]%string in
  ∃ metadata, extract_metadata lines = Ok metadata
              ∧ dict_get metadata #"UF" = Some #"SP".
Proof.
  intros lines. destruct (extract_metadata lines) as [metadata|e] eqn:E.
  - exists metadata. split; [reflexivity|].
    exact (metadata_last_line_wins lines metadata #"UF" E).
  - assert (succeeds (extract_metadata lines) = true) as Hok by (vm_compute; reflexivity).
    rewrite E in Hok. discriminate Hok.
Defined.

Lemma split_no_separator (sep : char) (s : str) :
  Forall (fun w => sep ∉ w) (split sep s).
Proof.
  induction s as [|c s IH]; cbn [split].
  - constructor; [by intros ?%elem_of_nil|constructor].
  - destruct (N.eqb_spec c sep) as [->|Hne].
    + constructor; [by intros ?%elem_of_nil|done].
    + destruct (split sep s) as [|w ws].
      * constructor; [|constructor]. by intros [?|?%elem_of_nil]%elem_of_cons.
      * apply Forall_cons in IH as [Hw Hws]. constructor; [|done].
        by intros [?|?]%elem_of_cons.
Qed.

Lemma not_elem_of_remove (c x : char) (s : str) :
  x = c ∨ x ∉ s → x ∉ replace [c] [] s.
Proof.
  intros Hx. rewrite replace_single. induction s as [|y s IH]; cbn [flat_map].
  { by intros ?%elem_of_nil. }
  destruct (N.eqb_spec y c) as [->|Hne]; cbn [app].
  - apply IH. destruct Hx as [?|[_ ?]%not_elem_of_cons]; auto.
  - intros [->|Hin]%elem_of_cons.
    + destruct Hx as [?|[? _]%not_elem_of_cons]; done.
    + revert Hin. apply IH. destruct Hx as [?|[_ ?]%not_elem_of_cons]; auto.
Qed.

Lemma length_dict_set {V} (d : dict V) (k : str) (v : V) :
  (length (dict_set d k v) ≤ S (length d))%nat.
Proof.
  induction d as [|[k' v'] d IH]; cbn; [lia|].
  destruct (decide (k' = k)); cbn; lia.
Qed.

Lemma NoDup_dict_set {V} (d : dict V) (k : str) (v : V) :
  NoDup (dict_keys d) → NoDup (dict_keys (dict_set d k v)).
Proof.
  intros Hnd. rewrite dict_keys_set. destruct (decide (k ∈ dict_keys d)); [done|].
  apply NoDup_app. split; [done|]. split; [|apply NoDup_singleton].
  by intros x Hx ->%list_elem_of_singleton.
Qed.

Lemma Forall_dict_set {V} (P : str * V → Prop) (d : dict V) (k : str) (v : V) :
  Forall P d → P (k, v) → Forall P (dict_set d k v).
Proof.
  intros Hd Hkv. induction Hd as [|[k' v'] d Hx Hd IH]; cbn.
  - by repeat constructor.
  - destruct (decide (k' = k)) as [->|_]; by constructor.
Qed.

Lemma metadata_line_shape (acc : dict str) (line : str) :
  (length (metadata_line acc line) ≤ S (length acc))%nat
  ∧ (NoDup (dict_keys acc) → NoDup (dict_keys (metadata_line acc line)))
  ∧ (Forall preamble_entry acc → Forall preamble_entry (metadata_line acc line)).
Proof.
  unfold metadata_line.
  pose proof (split_no_separator 59 (strip isspace line)) as Hsplit.
  destruct (split 59 (strip isspace line)) as [|k [|value rest]];
    try (split; [lia|done]).
  apply Forall_cons in Hsplit as [Hk [Hvalue _]%Forall_cons].
  split; [apply length_dict_set|]. split; [apply NoDup_dict_set|].
  intros Hacc. apply Forall_dict_set; [done|]. unfold preamble_entry. cbn [fst snd].
  split; [|split; [|done]].
  - apply (not_elem_of_remove 58). by left.
  - apply (not_elem_of_remove 58). by right.
Qed.

(** X10: the preamble has at most eight entries, its keys are distinct and
    hold neither a colon nor a semicolon, and its values hold no semicolon:
    of a line with more than two fields only the second is kept. *)
Theorem metadata_shape (lines : list str) (metadata : dict str) :
  extract_metadata lines = Ok metadata →
  (length metadata ≤ 8)%nat
  ∧ NoDup (dict_keys metadata)
  ∧ Forall preamble_entry metadata.
Proof.
  rewrite extract_metadata_preamble. case_bool_decide; [|done]. intros [= <-].
  unfold preamble.
  assert (∀ ls acc,
            NoDup (dict_keys acc) → Forall preamble_entry acc →
            (length (fold_left metadata_line ls acc) ≤ length acc + length ls)%nat
            ∧ NoDup (dict_keys (fold_left metadata_line ls acc))
            ∧ Forall preamble_entry (fold_left metadata_line ls acc)) as Hfold.
  { induction ls as [|line ls IH]; intros acc Hnd HP; cbn [fold_left length].
    { split; [lia|done]. }
    destruct (metadata_line_shape acc line) as (Hlen & Hnd' & HP').
    destruct (IH (metadata_line acc line) (Hnd' Hnd) (HP' HP)) as (Hlen'' & ? & ?).
    split; [lia|done]. }
  destruct (Hfold (take 8 lines) []) as (Hlen & Hnd & HP); [constructor|constructor|].
  rewrite length_take in Hlen. cbn [length] in Hlen. split; [lia|done].
Qed.

Lemma metadata_shape_witness :
  let lines := map lit ["UF:;DF"; "ESTACAO:;BRASILIA"; "UF;SP;x"; "no field"; "";
                        "LATITUDE:;-15,5"; "LONGITUDE:;-47,25"; "ALTITUDE:;1160,75";
                        "Data;Hora UTC"]%string in
  ∃ metadata, extract_metadata lines = Ok metadata ∧ (length metadata ≤ 8)%nat.
Proof.
  intros lines. destruct (extract_metadata lines) as [metadata|e] eqn:E.
  - exists metadata. split; [reflexivity|].
    exact (proj1 (metadata_shape lines metadata E)).
  - assert (succeeds (extract_metadata lines) = true) as Hok by (vm_compute; reflexivity).
    rewrite E in Hok. discriminate Hok.
Defined.

(** ** Reading a station file: the number of lines *)

Lemma length_readlines_bounded (n : nat) (s bs : str) :
  (length s ≤ n)%nat → Forall2 same_breaks s bs →
  length (readlines s) = length (readlines bs).
Proof.
  revert s bs. induction n as [|n IH]; intros s bs Hn HR.
  { destruct HR; [done|]. cbn in Hn. lia. }
  destruct HR as [|c b t tb [Hlf Hcr] HR']; [done|].
  cbn [readlines]. rewrite <- Hlf, <- Hcr. cbn [length] in Hn.
  destruct (c =? LF).
  { cbn [length]. f_equal. apply IH; [lia|done]. }
  destruct (c =? CR).
  { cbn [length]. f_equal. destruct HR' as [|c' b' t' tb' [Hlf' Hcr'] HR'']; [done|].
    rewrite <- Hlf'. cbn [length] in Hn. destruct (c' =? LF) eqn:E.
    - apply IH; [lia|done].
    - apply IH; [cbn [length]; lia|].
      constructor; [split; [by rewrite E|done]|done]. }
  destruct HR' as [|c' b' t' tb' Hc' HR'']; [done|].
  assert (length (readlines (c' :: t')) = length (readlines (b' :: tb'))) as E.
  { apply IH; [lia|]. by constructor. }
  destruct (readlines (c' :: t')), (readlines (b' :: tb')); cbn in *; congruence.
Qed.

Lemma length_readlines (s bs : str) :
  Forall2 same_breaks s bs → length (readlines s) = length (readlines bs).
Proof. by apply (length_readlines_bounded (length s)). Qed.

Lemma cp1252_char_breaks (b c : char) : cp1252_char b = Some c → same_breaks c b.
Proof.
  unfold cp1252_char. destruct ((128 <=? b) && (b <? 160)) eqn:Hb.
  - apply andb_true_iff in Hb as [Hlo%N.leb_le _].
    destruct (cp1252_high !! N.to_nat (b - 128)) as [[x|]|] eqn:E; try done.
    intros [= ->]. apply list_elem_of_lookup_2 in E.
    assert (Forall (fun o => o ≠ Some LF ∧ o ≠ Some CR) cp1252_high) as Hhigh.
    { apply (bool_decide_unpack _). vm_compute. reflexivity. }
    destruct (proj1 (Forall_forall _ _) Hhigh _ E) as [Hlf Hcr].
    unfold same_breaks, LF, CR in *.
    rewrite (proj2 (N.eqb_neq c 10)) by congruence.
    rewrite (proj2 (N.eqb_neq c 13)) by congruence.
    rewrite (proj2 (N.eqb_neq b 10)) by lia.
    rewrite (proj2 (N.eqb_neq b 13)) by lia. done.
  - by intros [= ->].
Qed.

Lemma decode_cp1252_breaks (bs s : str) :
  decode_cp1252 bs = Some s → Forall2 same_breaks s bs.
Proof.
  revert s. induction bs as [|b bs IH]; intros s; cbn [decode_cp1252].
  - intros [= <-]. constructor.
  - destruct (cp1252_char b) as [c|] eqn:Hc; [|done].
    destruct (decode_cp1252 bs) as [t|]; [|done]. intros [= <-].
    constructor; [by apply cp1252_char_breaks|by apply IH].
Qed.

(** Every candidate that reads the file breaks it into as many lines as
    Latin-1 does. *)
Lemma length_silent_lines (content : bytes) :
  length (snd (read_silently content)) = length (readlines (map Byte.to_N content)).
Proof.
  destruct (read_silently_encoding content) as [Hdec ->]. cbn [snd].
  unfold silent_encoding in *. case_bool_decide.
  - done.
  - apply length_readlines, decode_cp1252_breaks.
    unfold text_of in *. cbn [decode] in *. by rewrite Hdec.
Qed.

Lemma decode_cp1252_plain (content : bytes) :
  Forall plain_byte content → decode cp1252 content = Some (map Byte.to_N content).
Proof.
  unfold decode. induction 1 as [|b content Hb _ IH]; [done|].
  cbn [map decode_cp1252]. rewrite IH. unfold cp1252_char, plain_byte in *.
  destruct (N.leb_spec 128 (Byte.to_N b)), (N.ltb_spec (Byte.to_N b) 160); cbn; try done.
  lia.
Qed.

(** X11: outside the bytes 0x80 to 0x9F code page 1252 and Latin-1 read
    alike, so for a file without such bytes a reading with debug that
    succeeds and the reading without debug give the same preamble; the
    encoding they hand on to the table reader differs all the same: Latin-1
    with debug, cp1252 without. *)
Theorem debug_changes_the_encoding (content : bytes)
    (encoding : option encoding) (metadata : dict str) :
  Forall plain_byte content →
  read_station_file true content = Ok (encoding, metadata) →
  encoding = Some latin1
  ∧ read_station_file false content = Ok (Some cp1252, metadata).
Proof.
  intros Hplain. unfold read_station_file, debug_inmet_file, read_silently.
  cbn [DEBUG_ENCODINGS SILENT_ENCODINGS try_encodings].
  rewrite (decode_cp1252_plain content Hplain). cbn [decode decode_latin1].
  destruct (extract_metadata (readlines (map Byte.to_N content))) as [md|e]; [|done].
  cbn. destruct (getitem _ 8%nat); [|done]. cbn. by intros [= <- <-].
Qed.

Lemma debug_changes_the_encoding_witness :
  Forall plain_byte Files.brasilia
  ∧ ∃ metadata, read_station_file false Files.brasilia = Ok (Some cp1252, metadata).
Proof.
  assert (Forall plain_byte Files.brasilia) as Hplain.
  { apply Forall_forall. intros b Hb [Hlo Hhi]. revert Hlo.
    assert (Forall (fun b => Byte.to_N b < 128) Files.brasilia) as Hascii.
    { apply (bool_decide_unpack _). vm_compute. reflexivity. }
    pose proof (proj1 (Forall_forall _ _) Hascii b Hb) as Hlt. cbn beta in Hlt. lia. }
  split; [exact Hplain|].
  destruct (read_station_file true Files.brasilia) as [[encoding metadata]|e] eqn:E.
  - exists metadata.
    exact (proj2 (debug_changes_the_encoding Files.brasilia encoding metadata Hplain E)).
  - assert (succeeds (read_station_file true Files.brasilia) = true) as Hok
      by (vm_compute; reflexivity).
    rewrite E in Hok. discriminate Hok.
Defined.

Section ShortFiles.

Context `{Library}.

(** X12: a file of fewer than eight lines cannot be converted: in either
    mode, whatever its name is and whatever the library calls would give,
    the run raises IndexError while it reads the preamble. *)
Theorem short_file_raises_IndexError
    (csv_file_name : str) (content : bytes) (debug : bool) :
  (length (readlines (map Byte.to_N content)) < 8)%nat →
  parse_inmet_csv csv_file_name content debug = Raise IndexError.
Proof.
  intros Hshort. unfold parse_inmet_csv.
  assert (read_station_file debug content = Raise IndexError) as ->; [|done].
  unfold read_station_file. destruct debug.
  - unfold debug_inmet_file. cbn [DEBUG_ENCODINGS try_encodings decode decode_latin1].
    rewrite extract_metadata_preamble, bool_decide_eq_false_2 by lia. done.
  - pose proof (length_silent_lines content) as Hlen.
    destruct (read_silently content) as [enc lines]. cbn [snd] in Hlen.
    rewrite extract_metadata_preamble, bool_decide_eq_false_2 by lia. done.
Qed.

End ShortFiles.

Lemma short_file_raises_IndexError_witness :
  (length (readlines (map Byte.to_N Files.truncated)) < 8)%nat
  ∧ parse_inmet_csv (H := Reference.library) Files.brasilia_name Files.truncated true
    = Raise IndexError.
Proof.
  assert (length (readlines (map Byte.to_N Files.truncated)) < 8)%nat as Hshort
    by (vm_compute; lia).
  split; [exact Hshort|].
  exact (short_file_raises_IndexError (H := Reference.library)
           Files.brasilia_name Files.truncated true Hshort).
Defined.

(** ** File names: the extension *)

Local Open Scope nat_scope.

Lemma replace_go_skip_all (old new s : str) (skip : nat) :
  length s ≤ skip → replace_go old new skip s = [].
Proof.
  revert skip. induction s as [|c s IH]; intros skip Hlen; [done|].
  cbn [length] in Hlen. destruct skip as [|k]; [lia|]. cbn [replace_go].
  apply IH. lia.
Qed.

Lemma startswith_refl (s : str) : startswith s s = true.
Proof. induction s as [|c s IH]; [done|]. cbn. by rewrite N.eqb_refl. Qed.

Lemma contains_suffix (p a u : str) :
  startswith p u = true → contains p (a ++ u) = true.
Proof.
  intros Hu. induction a as [|x a IH].
  - destruct u; cbn; by rewrite Hu.
  - cbn [app contains]. rewrite IH. apply orb_true_r.
Qed.

(** A replacement whose only match is the end of the string. *)
Lemma replace_at_end (old new base : str) :
  old ≠ [] →
  (∀ u, u ≠ [] → u `suffix_of` base → startswith old (u ++ old) = false) →
  replace old new (base ++ old) = base ++ new.
Proof.
  intros Hold. unfold replace. induction base as [|x base IH]; intros Hno.
  - destruct old as [|c old]; [done|]. cbn [app replace_go].
    rewrite startswith_refl, replace_go_skip_all by (cbn; lia).
    by rewrite app_nil_r.
  - pose proof (Hno (x :: base)) as Hhere. cbn [app] in Hhere.
    cbn [app replace_go]. rewrite Hhere by done.
    rewrite IH; [done|]. intros u Hu Hsuf. apply Hno; [done|].
    by apply suffix_cons_r.
Qed.

Lemma no_match_across_extension (base u : str) :
  contains #".CSV" base = false → u ≠ [] → u `suffix_of` base →
  startswith #".CSV" (u ++ #".CSV") = false.
Proof.
  intros Hbase Hu [k ->].
  change #".CSV" with [46; 67; 83; 86]%N in *.
  destruct u as [|a [|b [|c [|d u]]]]; [done| | | |].
  - cbn [app startswith]. destruct (46 =? a)%N; reflexivity.
  - cbn [app startswith]. destruct (46 =? a)%N, (67 =? b)%N; reflexivity.
  - cbn [app startswith]. destruct (46 =? a)%N, (67 =? b)%N, (83 =? c)%N; reflexivity.
  - destruct (startswith [46; 67; 83; 86]%N (a :: b :: c :: d :: u)) eqn:E.
    + by rewrite (contains_suffix _ k _ E) in Hbase.
    + cbn [app startswith] in E |- *. exact E.
Qed.

Lemma netcdf_name_plain (filename base : str) :
  plain_csv_name filename base → netcdf_name filename = base ++ #".nc".
Proof.
  intros [-> Hbase]. unfold netcdf_name. apply replace_at_end; [done|].
  intros u. by apply no_match_across_extension.
Qed.

Lemma name_parts_plain (filename base : str) :
  plain_csv_name filename base → name_parts filename = split UNDERSCORE base.
Proof.
  intros [-> Hbase]. unfold name_parts. f_equal.
  rewrite <- (app_nil_r base) at 2. apply replace_at_end; [done|].
  intros u. by apply no_match_across_extension.
Qed.

Lemma rfind_absent (c : char) (s : str) : c ∉ s → rfind c s = None.
Proof.
  induction s as [|x s IH]; [done|]. intros [Hne Hs]%not_elem_of_cons.
  cbn. rewrite IH by done. by rewrite (proj2 (N.eqb_neq x c)) by done.
Qed.

Lemma rfind_last (c : char) (a b : str) :
  c ∉ b → rfind c (a ++ c :: b) = Some (length a).
Proof.
  intros Hb. induction a as [|x a IH]; cbn.
  - by rewrite rfind_absent, N.eqb_refl.
  - by rewrite IH.
Qed.

Lemma stem_plain (filename base : str) :
  plain_csv_name filename base → base ≠ [] → stem filename = base.
Proof.
  intros [-> _] Hbase. unfold stem.
  change #".CSV" with ([46] ++ [67; 83; 86])%N. cbn [app].
  rewrite rfind_last by (by apply not_elem_of_literal).
  rewrite length_app. cbn [length].
  rewrite bool_decide_eq_true_2 by (destruct base; [done|cbn; lia]).
  by rewrite take_app_length.
Qed.

Section NameFacts.

Context `{Library}.

(** X13: for a file name that ends in [.CSV], holds [.CSV] nowhere else and
    has something before it, the orchestrator and the pipeline cut the name
    into the same segments, so the region, UF and WMO code the filters test
    are those the dataset carries (when the name has five segments or
    more), and the output is named after what comes before the
    extension. *)
Theorem plain_name_is_read_alike (filename base : str) (metadata : dict str) (s : Station) :
  plain_csv_name filename base → base ≠ [] →
  name_parts filename = split UNDERSCORE (stem filename)
  ∧ netcdf_name filename = base ++ #".nc"
  ∧ (5 ≤ length (name_parts filename) →
     station_of filename metadata = Ok s →
     region s = nth 1 (name_parts filename) []
     ∧ uf s = nth 2 (name_parts filename) []
     ∧ wmo_code s = nth 3 (name_parts filename) []
     ∧ station_name s = nth 4 (name_parts filename) []).
Proof.
  intros Hplain Hbase.
  rewrite (name_parts_plain _ _ Hplain), (netcdf_name_plain _ _ Hplain).
  split; [by rewrite (stem_plain _ _ Hplain Hbase)|]. split; [done|].
  intros Hparts. unfold station_of. rewrite (stem_plain _ _ Hplain Hbase).
  rewrite bool_decide_eq_true_2 by done.
  by intros (lat & _ & (lon & _ & (alt & _ & [= <-])%bind_Ok)%bind_Ok)%bind_Ok.
Qed.

End NameFacts.

Lemma plain_name_is_read_alike_witness :
  plain_csv_name Files.brasilia_name #"INMET_CO_DF_A001_BRASILIA_01-01-2024_A_31-12-2024"
  ∧ #"INMET_CO_DF_A001_BRASILIA_01-01-2024_A_31-12-2024" ≠ []
  ∧ netcdf_name Files.brasilia_name
    = #"INMET_CO_DF_A001_BRASILIA_01-01-2024_A_31-12-2024" ++ #".nc".
Proof.
  assert (plain_csv_name Files.brasilia_name
            #"INMET_CO_DF_A001_BRASILIA_01-01-2024_A_31-12-2024") as Hplain
    by (split; vm_compute; reflexivity).
  assert (#"INMET_CO_DF_A001_BRASILIA_01-01-2024_A_31-12-2024" ≠ []) as Hbase
    by discriminate.
  split; [exact Hplain|]. split; [exact Hbase|].
  exact (proj1 (proj2 (plain_name_is_read_alike (H := Reference.library)
                         _ _ [] (Build_Station [] [] [] [] nan nan nan) Hplain Hbase))).
Defined.

Lemma NoDup_map_on {A B} (h : A → B) (l : list A) :
  (∀ x y, x ∈ l → y ∈ l → h x = h y → x = y) → NoDup l → NoDup (map h l).
Proof.
  induction l as [|x l IH]; intros Hinj Hnd; [constructor|].
  apply NoDup_cons in Hnd as [Hx Hnd]. cbn [map]. apply NoDup_cons. split.
  - intros (y & Hy & Heq)%elem_of_map. destruct Hx.
    rewrite (Hinj x y); [done|by left|by right|done].
  - apply IH; [|done]. intros y z Hy Hz. apply Hinj; by right.
Qed.

(** X14: files with distinct names that end in [.CSV] and hold [.CSV]
    nowhere else have distinct outputs. (Names that hold [.CSV] or [.nc]
    elsewhere can share one.) *)
Theorem plain_names_give_distinct_outputs (files : list (str * bytes)) :
  NoDup (map fst files) →
  Forall (fun f => ∃ base, plain_csv_name (fst f) base) files →
  NoDup (map (fun f => netcdf_name (fst f)) files).
Proof.
  intros Hnd Hplain.
  rewrite <- (map_map fst netcdf_name). apply NoDup_map_on; [|done].
  intros x y (f & Hf & <-)%elem_of_map (g & Hg & <-)%elem_of_map.
  destruct (proj1 (Forall_forall _ _) Hplain f Hf) as [bf Hbf].
  destruct (proj1 (Forall_forall _ _) Hplain g Hg) as [bg Hbg].
  rewrite (netcdf_name_plain _ _ Hbf), (netcdf_name_plain _ _ Hbg).
  intros ->%app_inv_tail. destruct Hbf as [-> _], Hbg as [-> _]. done.
Qed.

Lemma plain_names_give_distinct_outputs_witness :
  let files := [(Files.gama_name, Files.truncated); (Files.brasilia_name, Files.brasilia)] in
  NoDup (map fst files)
  ∧ Forall (fun f => ∃ base, plain_csv_name (fst f) base) files
  ∧ NoDup (map (fun f => netcdf_name (fst f)) files).
Proof.
  intros files.
  assert (NoDup (map fst files)) as Hnd.
  { apply (bool_decide_unpack _). vm_compute. reflexivity. }
  assert (Forall (fun f => ∃ base, plain_csv_name (fst f) base) files) as Hplain.
  { repeat apply List.Forall_cons; [| |apply List.Forall_nil].
    - exists #"INMET_CO_DF_A002_GAMA_01-01-2024_A_31-12-2024". split; vm_compute; reflexivity.
    - exists #"INMET_CO_DF_A001_BRASILIA_01-01-2024_A_31-12-2024".
      split; vm_compute; reflexivity. }
  split; [exact Hnd|]. split; [exact Hplain|].
  exact (plain_names_give_distinct_outputs files Hnd Hplain).
Defined.

(** ** The pipeline: tables without rows, rows without timestamps *)

Section PipelineMore.

Context `{Library}.

Lemma table_of_Some (csv_file_name : str) (content : bytes) (debug : bool) (df : DataFrame) :
  table_of csv_file_name content debug = Some df →
  ∃ encoding metadata s,
    read_station_file debug content = Ok (encoding, metadata)
    ∧ station_of csv_file_name metadata = Ok s
    ∧ load_table encoding content = Ok df.
Proof.
  unfold table_of.
  destruct (read_station_file debug content) as [[encoding metadata]|]; [|done].
  destruct (station_of csv_file_name metadata) as [s|] eqn:E2; [|done].
  destruct (load_table encoding content) as [df'|] eqn:E3; [|done].
  intros [= <-]. by exists encoding, metadata, s.
Qed.

(** From the table on, the run is the gridding of the table. *)
Lemma parse_inmet_csv_table (csv_file_name : str) (content : bytes) (debug : bool)
    (df : DataFrame) :
  table_of csv_file_name content debug = Some df →
  ∃ metadata s,
    parse_inmet_csv csv_file_name content debug = grid_dataset debug metadata s df.
Proof.
  intros (encoding & metadata & s & E1 & E2 & E3)%table_of_Some.
  exists metadata, s. unfold parse_inmet_csv. by rewrite E1; cbn; rewrite E2; cbn; rewrite E3.
Qed.

Lemma dropna_columns_no_rows (df : DataFrame) :
  nrows df = 0 → columns (dropna_columns df) = [].
Proof.
  intros Hrows. unfold dropna_columns. cbn [columns]. rewrite Hrows.
  apply filter_none. intros c _ Hc. by apply Hc.
Qed.

(** X15: a table without rows loses all its columns when the empty
    columns are dropped, the two time columns included: a station file
    whose table holds the header and nothing else fails with
    MissingEssentialColumns, whatever the header is. *)
Theorem table_without_rows_fails
    (csv_file_name : str) (content : bytes) (debug : bool) (df : DataFrame) :
  table_of csv_file_name content debug = Some df →
  nrows df = 0 →
  parse_inmet_csv csv_file_name content debug = Raise MissingEssentialColumns.
Proof.
  intros (metadata & s & ->)%parse_inmet_csv_table Hrows.
  apply grid_dataset_columns. left.
  unfold labels_after_renaming, column_names, rename_columns. cbn [columns].
  rewrite (dropna_columns_no_rows df Hrows). by intros ?%elem_of_nil.
Qed.

End PipelineMore.

Lemma table_without_rows_fails_witness :
  ∃ df, table_of (H := Reference.library) Files.brasilia_name Cases.header_only false
        = Some df
        ∧ nrows df = 0
        ∧ parse_inmet_csv (H := Reference.library)
            Files.brasilia_name Cases.header_only false
          = Raise MissingEssentialColumns.
Proof.
  destruct (table_of (H := Reference.library) Files.brasilia_name Cases.header_only false)
    as [df|] eqn:E.
  - assert (option_map nrows
              (table_of (H := Reference.library)
                 Files.brasilia_name Cases.header_only false) = Some 0)
      as Hrows by (vm_compute; reflexivity).
    rewrite E in Hrows. injection Hrows as Hrows.
    exists df. split; [reflexivity|]. split; [exact Hrows|].
    exact (table_without_rows_fails (H := Reference.library) _ _ _ df E Hrows).
  - assert (is_Some (table_of (H := Reference.library)
                       Files.brasilia_name Cases.header_only false))
      as Hsome by (apply (bool_decide_unpack _); vm_compute; reflexivity).
    rewrite E in Hsome. by destruct Hsome.
Defined.

Section Timestamps.

Context `{Library}.

Lemma time_index_without_timestamps (df : DataFrame) :
  length (select df #"hour_utc") = 1 → length (select df #"date") = 1 →
  (∀ r, r < nrows df → timestamp df r = None) →
  time_index true df = Raise IndexError
  ∧ ∃ t, time_index false df = Ok t ∧ rows t = [] ∧ dates t = [] ∧ hours t = [].
Proof.
  unfold time_index, timestamp, column.
  destruct (select df #"hour_utc") as [|hour_utc [|? ?]]; try done.
  destruct (select df #"date") as [|date_col [|? ?]]; try done.
  intros _ _ Hnone. cbn [mbind result_bind]. cbv zeta.
  assert (filter (fun r => is_Some (to_datetime (astype_str (cell date_col r) ++ #" "
                                                 ++ hour_clean (cell hour_utc r))))
                 (seq 0 (nrows df)) = []) as ->.
  { apply filter_none. intros r Hr%elem_of_seq. rewrite Hnone by lia. by intros [? ?]. }
  split; [done|]. eexists. by split.
Qed.

(** X16: when the timestamp of no row can be read, a run with debug raises
    IndexError where it prints the period, and a run without debug goes on
    with no date and no hour: a dataset it returns has empty axes and no
    value in any of its variables. *)
Theorem rows_without_timestamps
    (metadata : dict str) (s : Station) (df0 df : DataFrame) :
  prepare_table df0 = Ok df →
  length (select df #"hour_utc") = 1 → length (select df #"date") = 1 →
  (∀ r, r < nrows df → timestamp df r = None) →
  grid_dataset true metadata s df0 = Raise IndexError
  ∧ ∀ ds, grid_dataset false metadata s df0 = Ok ds →
          coord_date ds = [] ∧ coord_hour_utc ds = []
          ∧ Forall (fun item => data (snd (snd item)) = []) (data_vars ds).
Proof.
  intros Hdf Hhour Hdate Hnone.
  destruct (time_index_without_timestamps df Hhour Hdate Hnone)
    as (Hdebug & t & Hsilent & _ & Hdates & Hhours).
  unfold grid_dataset. rewrite Hdf. cbn [mbind result_bind].
  rewrite Hdebug, Hsilent. split; [done|]. cbn [mbind result_bind].
  intros ds.
  destruct (build_data_vars_Ok df t (met_variables df) []) as (vars & -> & Hitems).
  cbn [mbind result_bind]. unfold make_dataset. case_bool_decide; [done|].
  intros [= <-]. cbn.
  split; [done|]. split; [done|]. apply Forall_forall.
  intros [name [dims arr]] (var & Hvar & _)%elem_of_clean_variable_names.
  destruct (Hitems _ Hvar) as [Hnil|(var' & _ & [= _ _ ->])].
  { by apply elem_of_nil in Hnil. }
  cbn [snd var_array data].
  destruct (var_matrix_shape t (column df var')) as [_ Hlen].
  rewrite Hdates in Hlen. by apply nil_length_inv.
Qed.

End Timestamps.

Lemma rows_without_timestamps_witness :
  ∃ df0 df ds,
    table_of (H := Reference.library) Files.brasilia_name Cases.unreadable_dates false
    = Some df0
    ∧ prepare_table df0 = Ok df
    ∧ grid_dataset (H := Reference.library) true [] (Build_Station [] [] [] [] nan nan nan) df0
      = Raise IndexError
    ∧ grid_dataset (H := Reference.library) false [] (Build_Station [] [] [] [] nan nan nan) df0
      = Ok ds
    ∧ coord_date ds = [].
Proof.
  set (s := Build_Station [] [] [] [] nan nan nan).
  destruct (table_of (H := Reference.library) Files.brasilia_name Cases.unreadable_dates false)
    as [df0|] eqn:E0.
  2:{ assert (is_Some (table_of (H := Reference.library)
                         Files.brasilia_name Cases.unreadable_dates false))
        as Hsome by (apply (bool_decide_unpack _); vm_compute; reflexivity).
      rewrite E0 in Hsome. by destruct Hsome. }
  assert (option_map (fun df0 => succeeds (prepare_table df0))
            (table_of (H := Reference.library)
               Files.brasilia_name Cases.unreadable_dates false) = Some true)
    as Hprep by (vm_compute; reflexivity).
  rewrite E0 in Hprep. injection Hprep as Hprep.
  destruct (prepare_table df0) as [df|] eqn:E1; [|discriminate Hprep].
  assert (option_map
            (fun df0 =>
               match prepare_table df0 with
               | Ok df =>
                   (length (select df #"hour_utc"), length (select df #"date"),
                    forallb (fun r => bool_decide
                                        (timestamp (H := Reference.library) df r = None))
                            (seq 0 (nrows df)),
                    succeeds (grid_dataset (H := Reference.library) false [] s df0))
               | Raise _ => (0, 0, false, false)
               end)
            (table_of (H := Reference.library)
               Files.brasilia_name Cases.unreadable_dates false)
          = Some (1, 1, true, true)) as Hrun by (vm_compute; reflexivity).
  rewrite E0 in Hrun. cbn [option_map] in Hrun. rewrite E1 in Hrun.
  injection Hrun as Hhour Hdate Hnone Hok.
  assert (∀ r, r < nrows df → timestamp (H := Reference.library) df r = None) as Hnone'.
  { intros r Hr. rewrite forallb_forall in Hnone.
    assert (In r (seq 0 (nrows df))) as Hin by (apply in_seq; lia).
    exact (bool_decide_eq_true_1 _ (Hnone r Hin)). }
  destruct (rows_without_timestamps (H := Reference.library) [] s df0 df
              E1 Hhour Hdate Hnone') as [Hdebug Hsilent].
  destruct (grid_dataset (H := Reference.library) false [] s df0) as [ds|] eqn:E2;
    [|discriminate Hok].
  exists df0, df, ds. split; [reflexivity|]. split; [exact E1|].
  split; [exact Hdebug|]. split; [exact E2|]. exact (proj1 (Hsilent ds eq_refl)).
Defined.

(** ** The pipeline: the order of the axes *)

Lemma date_le_spec (a b : date) :
  date_le a b ↔
  (a.1.1 < b.1.1 ∨ a.1.1 = b.1.1 ∧ (a.1.2 < b.1.2 ∨ a.1.2 = b.1.2 ∧ a.2 ≤ b.2))%Z.
Proof.
  destruct a as [[y1 m1] d1], b as [[y2 m2] d2]. unfold date_le, date_leb. cbn [fst snd].
  rewrite orb_true_iff, andb_true_iff, orb_true_iff, andb_true_iff.
  by rewrite !Z.ltb_lt, !Z.eqb_eq, Z.leb_le.
Qed.

Lemma date_le_transitive : Transitive date_le.
Proof. intros a b c. rewrite !date_le_spec. lia. Qed.

Lemma date_le_total : Total date_le.
Proof. intros a b. rewrite !date_le_spec. lia. Qed.

Lemma StronglySorted_strict {A} (R : relation A) (l : list A) :
  StronglySorted R l → NoDup l → StronglySorted (fun a b => R a b ∧ a ≠ b) l.
Proof.
  induction 1 as [|a l Hl IH Ha]; intros Hnd; [constructor|].
  apply NoDup_cons in Hnd as [Hin Hnd]. constructor; [by apply IH|].
  apply Forall_forall. intros b Hb. split.
  - by apply (proj1 (Forall_forall _ _) Ha).
  - by intros ->.
Qed.

Lemma StronglySorted_weaken {A} (R R' : relation A) (l : list A) :
  (∀ a b, R a b → R' a b) → StronglySorted R l → StronglySorted R' l.
Proof.
  intros Himpl. induction 1 as [|a l Hl IH Ha]; constructor; [done|].
  eapply Forall_impl; [exact Ha|]. apply Himpl.
Qed.

Section Axes.

Context `{Library}.

(** X17: the dates of a dataset are in strictly increasing order, and so
    are its hours, whatever the order of the rows in the file. *)
Theorem axes_are_increasing
    (csv_file_name : str) (content : bytes) (debug : bool) (ds : Dataset) :
  parse_inmet_csv csv_file_name content debug = Ok ds →
  StronglySorted date_lt (coord_date ds) ∧ StronglySorted Z.lt (coord_hour_utc ds).
Proof.
  intros (enc & md & s & df0 & df & t & vars & _ & _ & _ & _ & Ht & _ & Hds)
         %parse_inmet_csv_Ok.
  unfold make_dataset in Hds. case_bool_decide; [done|]. injection Hds as <-. cbn.
  destruct (time_index_axes _ _ _ Ht) as (Hnd & _ & Hnh & _).
  destruct (time_index_Ok _ _ _ Ht) as (Hdates & Hhours & _). split.
  - apply StronglySorted_strict; [|done]. rewrite Hdates.
    apply (@StronglySorted_merge_sort _ date_le _ date_le_transitive date_le_total).
  - apply (StronglySorted_weaken (fun a b => (a ≤ b)%Z ∧ a ≠ b)); [lia|].
    apply StronglySorted_strict; [|done]. rewrite Hhours.
    apply StronglySorted_merge_sort; apply _.
Qed.

End Axes.

Lemma axes_are_increasing_witness :
  ∃ ds,
    parse_inmet_csv (H := Reference.library) Files.brasilia_name Files.brasilia false
    = Ok ds
    ∧ StronglySorted date_lt (coord_date ds).
Proof.
  destruct (parse_inmet_csv (H := Reference.library)
              Files.brasilia_name Files.brasilia false) as [ds|e] eqn:E.
  - exists ds. split; [reflexivity|].
    exact (proj1 (axes_are_increasing (H := Reference.library) _ _ _ ds E)).
  - assert (succeeds (parse_inmet_csv (H := Reference.library)
                        Files.brasilia_name Files.brasilia false) = true)
      as Hok by (vm_compute; reflexivity).
    rewrite E in Hok. discriminate Hok.
Defined.

(** ** The pipeline: the names of the variables *)

Lemma unique_filter {A} `{EqDecision A} (P : A → Prop) `{∀ x, Decision (P x)} (l : list A) :
  unique (filter P l) = filter P (unique l).
Proof.
  induction l as [|y l IH]; [done|]. cbn [unique]. rewrite !filter_cons.
  destruct (decide (P y)) as [Hy|Hy].
  - cbn [unique]. rewrite IH, !list_filter_filter. f_equal.
    apply list_filter_iff. tauto.
  - rewrite IH, list_filter_filter. apply list_filter_iff. intros x. split; [|tauto].
    intros Hx. split; [done|]. by intros ->.
Qed.

Lemma filter_map {A B} (f : A → B) (P : B → Prop) `{∀ y, Decision (P y)} (l : list A) :
  filter P (map f l) = map f (filter (fun x => P (f x)) l).
Proof.
  induction l as [|x l IH]; [done|]. cbn [map]. rewrite !filter_cons.
  destruct (decide (P (f x))); cbn [map]; by rewrite IH.
Qed.

(** Removing the repeated labels before mapping them changes nothing in
    the distinct images. *)
Lemma unique_map_unique {A B} `{EqDecision A} `{EqDecision B} (f : A → B) (l : list A) :
  unique (map f (unique l)) = unique (map f l).
Proof.
  induction l as [|x l IH]; [done|]. cbn [unique map]. f_equal.
  rewrite <- IH, <- !(unique_filter (fun y => y ≠ f x)), !filter_map, list_filter_filter.
  do 2 f_equal. apply list_filter_iff. intros y. split; [tauto|].
  intros Hy. split; [done|]. by intros ->.
Qed.

Section Variables.

Context `{Library}.

Lemma build_data_vars_assignments (df : DataFrame) (t : TimeIndex) (vars : list str)
    (acc : dict (list str * ndarray)) :
  build_data_vars df t vars acc =
    Ok (fold_left (fun d kv => dict_set d (fst kv) (snd kv))
          (zip vars (map (fun var => (DIMS, var_array t (column df var))) vars)) acc).
Proof.
  revert acc. induction vars as [|var vars IH]; intros acc; [done|].
  cbn [build_data_vars]. rewrite reshape_var_matrix. cbn [mbind result_bind].
  by rewrite IH.
Qed.

(** The names of the variables after the loop and the sanitizer: those of
    the columns that are no time column, sanitized, each once. *)
Lemma cleaned_data_vars_keys (df : DataFrame) (t : TimeIndex) :
  ∃ vars, build_data_vars df t (met_variables df) [] = Ok vars
          ∧ dict_keys (clean_variable_names vars)
            = unique (map clean_name (met_variables df)).
Proof.
  eexists. split; [apply build_data_vars_assignments|].
  rewrite dict_keys_clean_variable_names. unfold cleaned_keys.
  rewrite <- (map_map fst clean_name).
  pose proof (dict_keys_assignments (met_variables df)
                (map (fun var => (DIMS, var_array t (column df var))) (met_variables df))
                [] (eq_sym (length_map _ _))) as Hkeys.
  unfold dict_keys in Hkeys. rewrite Hkeys. cbn [map app].
  rewrite filter_all by (by intros x _ ?%elem_of_nil).
  apply unique_map_unique.
Qed.

Lemma index_of_stages (csv_file_name : str) (content : bytes) (debug : bool)
    (df : DataFrame) (t : TimeIndex) :
  index_of csv_file_name content debug = Some (df, t) →
  ∃ df0, table_of csv_file_name content debug = Some df0
         ∧ prepare_table df0 = Ok df ∧ time_index debug df = Ok t.
Proof.
  unfold index_of. destruct (table_of _ _ _) as [df0|]; [|done].
  destruct (prepare_table df0) as [df'|] eqn:E1; [|done].
  destruct (time_index debug df') as [t'|] eqn:E2; [|done].
  intros [= <- <-]. by exists df0.
Qed.

Lemma clashes_keys (df : DataFrame) :
  Exists (fun name => name ∈ DatasetCoords) (unique (map clean_name (met_variables df)))
  ↔ clashes df.
Proof.
  unfold clashes, DatasetCoords. rewrite !Exists_exists. split.
  - intros (name & (var & Hvar & <-)%elem_of_unique%elem_of_map & Hin). eauto.
  - intros (var & Hvar & Hin). exists (clean_name var). split; [|done].
    apply elem_of_unique, elem_of_map. eauto.
Qed.

(** X18: the variables of a dataset are named by the sanitized labels of
    the columns of the table that are none of the six time columns, each
    name once, in the order in which the columns first give it; none is
    named as one of the eight coordinates. *)
Theorem dataset_variables
    (csv_file_name : str) (content : bytes) (debug : bool) (ds : Dataset) :
  parse_inmet_csv csv_file_name content debug = Ok ds →
  ∃ df t,
    index_of csv_file_name content debug = Some (df, t)
    ∧ dict_keys (data_vars ds) = unique (map clean_name (met_variables df))
    ∧ Forall (fun name => name ∉ DIMS) (dict_keys (data_vars ds)).
Proof.
  intros (enc & md & s & df0 & df & t & vars & E1 & E2 & E3 & E4 & E5 & E6 & E7)
         %parse_inmet_csv_Ok.
  exists df, t. split.
  { unfold index_of, table_of, load_table. by rewrite E1, E2, E3, E4, E5. }
  destruct (cleaned_data_vars_keys df t) as (vars' & Hvars & Hkeys).
  rewrite E6 in Hvars. injection Hvars as <-.
  unfold make_dataset in E7. case_bool_decide as Hclash; [done|].
  injection E7 as <-. cbn [data_vars]. split; [done|].
  by apply Forall_Exists_neg.
Qed.

(** X19: once the time axes of a file are built the run can fail in one
    way only: it raises the ValueError of a name that is both a variable
    and a coordinate when the sanitized label of one of the columns is the
    name of one of the eight coordinates, and it returns a dataset
    otherwise. *)
Theorem coordinate_names_are_refused
    (csv_file_name : str) (content : bytes) (debug : bool)
    (df : DataFrame) (t : TimeIndex) :
  index_of csv_file_name content debug = Some (df, t) →
  (clashes df →
   parse_inmet_csv csv_file_name content debug = Raise (ValueError InDataVarsAndCoords))
  ∧ (¬ clashes df → ∃ ds, parse_inmet_csv csv_file_name content debug = Ok ds).
Proof.
  intros (df0 & (md & s & ->)%parse_inmet_csv_table & Hdf & Ht)%index_of_stages.
  unfold grid_dataset. rewrite Hdf. cbn [mbind result_bind]. rewrite Ht.
  cbn [mbind result_bind].
  destruct (cleaned_data_vars_keys df t) as (vars & -> & Hkeys).
  cbn [mbind result_bind]. unfold make_dataset. rewrite Hkeys.
  case_bool_decide as Hclash; rewrite clashes_keys in Hclash; split; try done.
  intros _. by eexists.
Qed.

End Variables.

Lemma dataset_variables_witness :
  ∃ ds,
    parse_inmet_csv (H := Reference.library) Files.brasilia_name Files.brasilia false
    = Ok ds
    ∧ Forall (fun name => name ∉ DIMS) (dict_keys (data_vars ds)).
Proof.
  destruct (parse_inmet_csv (H := Reference.library)
              Files.brasilia_name Files.brasilia false) as [ds|e] eqn:E.
  - exists ds. split; [reflexivity|].
    destruct (dataset_variables (H := Reference.library) _ _ _ ds E)
      as (df & t & _ & _ & Hnames).
    exact Hnames.
  - assert (succeeds (parse_inmet_csv (H := Reference.library)
                        Files.brasilia_name Files.brasilia false) = true)
      as Hok by (vm_compute; reflexivity).
    rewrite E in Hok. discriminate Hok.
Defined.

Lemma coordinate_names_are_refused_witness :
  ∃ df t,
    index_of (H := Reference.library) Files.brasilia_name Cases.latitude_column false
    = Some (df, t)
    ∧ clashes df
    ∧ parse_inmet_csv (H := Reference.library)
        Files.brasilia_name Cases.latitude_column false
      = Raise (ValueError InDataVarsAndCoords).
Proof.
  destruct (index_of (H := Reference.library)
              Files.brasilia_name Cases.latitude_column false) as [[df t]|] eqn:E.
  - assert (option_map (fun p => bool_decide (clashes (fst p)))
              (index_of (H := Reference.library)
                 Files.brasilia_name Cases.latitude_column false) = Some true)
      as Hclash by (vm_compute; reflexivity).
    rewrite E in Hclash. injection Hclash as Hclash.
    apply bool_decide_eq_true_1 in Hclash.
    exists df, t. split; [reflexivity|]. split; [exact Hclash|].
    exact (proj1 (coordinate_names_are_refused (H := Reference.library)
                    _ _ _ df t E) Hclash).
  - assert (is_Some (index_of (H := Reference.library)
                       Files.brasilia_name Cases.latitude_column false))
      as Hsome by (apply (bool_decide_unpack _); vm_compute; reflexivity).
    rewrite E in Hsome. by destruct Hsome.
Defined.

(** ** The grids: the rows that are read *)

Lemma flat_map_ext_elem {A B} (f g : A → list B) (l : list A) :
  (∀ x, x ∈ l → f x = g x) → flat_map f l = flat_map g l.
Proof.
  induction l as [|x l IH]; intros Hext; [done|]. cbn.
  rewrite (Hext x) by (by left). rewrite IH; [done|].
  intros y Hy. apply Hext. by right.
Qed.

Lemma map_ext_elem {A B} (f g : A → B) (l : list A) :
  (∀ x, x ∈ l → f x = g x) → map f l = map g l.
Proof.
  intros Hext. apply map_ext_in. intros x Hx. by apply Hext, list_elem_of_In.
Qed.

Lemma elem_of_enumerate {A} (l : list A) (i : nat) (x : A) :
  (i, x) ∈ enumerate l → x ∈ l.
Proof. unfold enumerate. apply elem_of_zip_r. Qed.

Section FirstRows.

Context `{Library}.

(** X20: the grid of a variable depends on its column only through the
    first row of each cell: the values on the rows whose timestamp was not
    read, and on a row that repeats the date and hour of an earlier row,
    are never looked at. *)
Theorem grid_reads_first_rows_only (t : TimeIndex) (col col' : list value) :
  (∀ r, first_rows t r → cell col r = cell col' r) →
  var_matrix t col = var_matrix t col'.
Proof.
  intros Hsame. rewrite !var_matrix_upd. do 2 f_equal. unfold updates.
  apply flat_map_ext_elem. intros [i d] Hd%elem_of_enumerate.
  apply map_ext_elem. intros [j h] Hh%elem_of_enumerate. cbn [fst snd]. f_equal.
  unfold cell_update. destruct (mask t d h) as [|r rest] eqn:E; [done|].
  rewrite (Hsame r); [done|]. exists d, h. by rewrite E.
Qed.

End FirstRows.

Lemma grid_reads_first_rows_only_witness :
  let col := [VFloat PrimFloat.one; VFloat PrimFloat.zero] in
  let col' := [VFloat PrimFloat.one; VStr #"x"] in
  (∀ r, first_rows Cases.one_cell r → cell col r = cell col' r)
  ∧ var_matrix (H := Reference.library) Cases.one_cell col
    = var_matrix (H := Reference.library) Cases.one_cell col'.
Proof.
  intros col col'.
  assert (∀ r, first_rows Cases.one_cell r → cell col r = cell col' r) as Hsame.
  { intros r (d & h & Hd & Hh & Hr). cbn in Hd, Hh.
    apply list_elem_of_singleton in Hd as ->. apply list_elem_of_singleton in Hh as ->.
    vm_compute in Hr. injection Hr as <-. reflexivity. }
  split; [exact Hsame|].
  exact (grid_reads_first_rows_only (H := Reference.library) Cases.one_cell col col' Hsame).
Defined.

(** ** The orchestrator: what a call reports *)

Section BatchMore.

Context `{Library}.

Lemma convert_csvs_to_netcdf_success (fs : filesystem) (region uf wmo_code : filter_arg)
    (all_files debug skip_existing : bool) :
  let r := fst (convert_csvs_to_netcdf fs region uf wmo_code all_files debug skip_existing) in
  success r = bool_decide (0 < converted_files r + skipped_files r).
Proof.
  unfold convert_csvs_to_netcdf.
  destruct (csv_folder fs) as [entries|]; [|done].
  destruct (filter (λ f, is_inmet_csv f.1) entries) as [|f0 found]; [done|].
  by destruct (filter_files all_files _ _ _ (f0 :: found)) as [|f1 chosen].
Qed.

Lemma convert_files_saved (skip_existing : bool) (files : list (str * bytes))
    (st : progress) :
  length (st_saved_paths st) = st_converted_files st + length (st_skipped_files st) →
  let st' := fold_left (convert_file skip_existing) files st in
  length (st_saved_paths st') = st_converted_files st' + length (st_skipped_files st').
Proof.
  revert st. induction files as [|f files IH]; intros st Hst; [done|].
  cbn [fold_left]. apply IH. rewrite convert_file_cases.
  destruct (skips _ _ _); [|destruct (converts f)]; cbn; rewrite ?length_app; cbn; lia.
Qed.

(** X21: in the result of every call each selected file is counted once,
    as converted, skipped or failed; the saved paths are as many as the
    converted and the skipped files together; the call succeeds exactly
    when it lists a saved path; and no more files are selected than are
    found. *)
Theorem every_selected_file_is_counted (fs : filesystem)
    (region uf wmo_code : filter_arg) (all_files debug skip_existing : bool) :
  let r := fst (convert_csvs_to_netcdf fs region uf wmo_code all_files debug skip_existing) in
  let selected := selected_files fs region uf wmo_code all_files in
  converted_files r + skipped_files r + length (failed_files r) = length selected
  ∧ length (saved_paths r) = converted_files r + skipped_files r
  ∧ (success r = true ↔ saved_paths r ≠ [])
  ∧ length selected ≤ total_files_found r.
Proof.
  cbv zeta.
  pose proof (convert_csvs_to_netcdf_success fs region uf wmo_code all_files debug
                skip_existing) as Hsuccess. cbv zeta in Hsuccess.
  destruct (convert_csvs_to_netcdf_result fs region uf wmo_code all_files debug skip_existing)
    as (Hc & Hs & Hp & Hf & Ht & _).
  rewrite Hsuccess, Hc, Hs, Hp, Hf, Ht. clear Hsuccess Hc Hs Hp Hf Ht.
  set (files := selected_files fs region uf wmo_code all_files).
  pose proof (convert_files_accounted skip_existing files (start (netcdf_folder fs))) as Hacc.
  pose proof (convert_files_saved skip_existing files (start (netcdf_folder fs)) eq_refl)
    as Hsaved.
  unfold accounted in Hacc. cbn in Hacc, Hsaved. unfold convert_files.
  split; [lia|]. split; [lia|]. split.
  - rewrite bool_decide_eq_true.
    destruct (st_saved_paths _) as [|p ps]; cbn in Hsaved; split; try done; lia.
  - unfold files, selected_files, filter_files, all_csv_files.
    destruct all_files; [done|]. apply length_filter.
Qed.

(** ** The orchestrator: the output folder *)

(** One step of the loop: the folder only grows, by an output that is then
    listed or by one that a failed write leaves, and what is listed stays
    listed. *)
Lemma convert_file_folder (skip_existing : bool) (st : progress) (file : str * bytes) :
  let st' := convert_file skip_existing st file in
  st_netcdf st `prefix_of` st_netcdf st'
  ∧ st_saved_paths st `prefix_of` st_saved_paths st'
  ∧ (∀ p, p ∈ st_netcdf st' →
          p ∈ st_netcdf st ∨ p ∈ st_saved_paths st'
          ∨ (leaves_file file = true ∧ p = netcdf_name (fst file)))
  ∧ ((∀ p, p ∈ st_saved_paths st → p ∈ st_netcdf st) →
     ∀ p, p ∈ st_saved_paths st' → p ∈ st_netcdf st')
  ∧ (leaves_file file = true → netcdf_name (fst file) ∈ st_netcdf st').
Proof.
  cbv zeta. rewrite convert_file_cases. unfold skips.
  destruct (bool_decide (netcdf_name file.1 ∈ st_netcdf st) && skip_existing) eqn:Hskip;
    [|destruct (converts file) eqn:Hconv]; cbn.
  - apply andb_true_iff in Hskip as [Hin%bool_decide_eq_true _].
    split; [done|]. split; [by apply prefix_app_r|]. split; [by left|]. split; [|done].
    intros Hst p [?|Hp%list_elem_of_singleton]%elem_of_app; [auto|by subst].
  - split; [apply written_prefix|]. split; [by apply prefix_app_r|]. split; [|split].
    + intros p [->|?]%elem_of_written; [|by left].
      right. left. apply elem_of_app. right. by left.
    + intros Hst p [?|Hp%list_elem_of_singleton]%elem_of_app.
      * apply elem_of_written. right. by apply Hst.
      * apply elem_of_written. by left.
    + intros _. apply elem_of_written. by left.
  - destruct (leaves_file file).
    + split; [apply written_prefix|]. split; [done|]. split; [|split].
      * intros p [->|?]%elem_of_written; [by right; right|by left].
      * intros Hst p Hp. apply elem_of_written. right. by apply Hst.
      * intros _. apply elem_of_written. by left.
    + split; [done|]. split; [done|]. split; [by left|]. done.
Qed.

Lemma convert_files_folder (skip_existing : bool) (files : list (str * bytes))
    (st : progress) :
  (∀ p, p ∈ st_saved_paths st → p ∈ st_netcdf st) →
  let st' := fold_left (convert_file skip_existing) files st in
  st_netcdf st `prefix_of` st_netcdf st'
  ∧ st_saved_paths st `prefix_of` st_saved_paths st'
  ∧ (∀ p, p ∈ st_netcdf st' →
          p ∈ st_netcdf st ∨ p ∈ st_saved_paths st'
          ∨ ∃ f, f ∈ files ∧ leaves_file f = true ∧ p = netcdf_name (fst f))
  ∧ (∀ p, p ∈ st_saved_paths st' → p ∈ st_netcdf st')
  ∧ (∀ f, f ∈ files → leaves_file f = true → netcdf_name (fst f) ∈ st_netcdf st').
Proof.
  revert st. induction files as [|f files IH]; intros st Hst.
  { cbn. repeat split; try done; [by left|by intros f ?%elem_of_nil]. }
  cbn [fold_left]. cbv zeta.
  destruct (convert_file_folder skip_existing st f) as (Hn1 & Hs1 & Hnew1 & Hst1 & Hleft1).
  destruct (IH (convert_file skip_existing st f) (Hst1 Hst))
    as (Hn & Hs & Hnew & Hall & Hleft).
  split; [by etrans|]. split; [by etrans|]. split; [|split; [done|]].
  - intros p [[?|[Hp|[Hl ->]]]%Hnew1|[?|(g & Hg & Hl & ->)]]%Hnew.
    + by left.
    + right. left. by eapply elem_of_prefix.
    + right. right. exists f. split; [by left|done].
    + right. by left.
    + right. right. exists g. split; [by right|done].
  - intros g [->|Hg]%elem_of_cons Hl; [|by apply Hleft].
    eapply elem_of_prefix; [by apply Hleft1|done].
Qed.

(** X22: a call only adds files to the output folder: the files that were
    there stay, in their places, and the files there after the call are
    those that were there before, those the result lists as saved paths,
    and the outputs that the write of a selected file left as it raised;
    in particular every saved path names a file that exists, so that the
    summary can take its size. *)
Theorem saved_paths_are_in_the_folder (fs : filesystem)
    (region uf wmo_code : filter_arg) (all_files debug skip_existing : bool) :
  let run := convert_csvs_to_netcdf fs region uf wmo_code all_files debug skip_existing in
  netcdf_folder fs `prefix_of` snd run
  ∧ ∀ p, p ∈ snd run ↔
         p ∈ netcdf_folder fs ∨ p ∈ saved_paths (fst run)
         ∨ ∃ f, f ∈ selected_files fs region uf wmo_code all_files
                ∧ leaves_file f = true ∧ p = netcdf_name (fst f).
Proof.
  cbv zeta.
  destruct (convert_csvs_to_netcdf_result fs region uf wmo_code all_files debug skip_existing)
    as (_ & _ & -> & _ & _ & ->).
  destruct (convert_files_folder skip_existing
              (selected_files fs region uf wmo_code all_files) (start (netcdf_folder fs)))
    as (Hn & _ & Hnew & Hall & Hleft); [by intros p ?%elem_of_nil|].
  split; [done|]. intros p. split; [apply Hnew|].
  intros [Hp|[Hp|(f & Hf & Hl & ->)]].
  - by eapply elem_of_prefix.
  - by apply Hall.
  - by apply Hleft.
Qed.

Lemma all_failed {A} (outs : list (A * outcome)) :
  length (filter (fun x => snd x = Converted) outs) = 0 →
  length (filter (fun x => snd x = SkippedExisting) outs) = 0 →
  filter (fun x => snd x = Failed) outs = outs
  ∧ filter (fun x => snd x ≠ Failed) outs = [].
Proof.
  induction outs as [|[a o] outs IH]; [done|]. rewrite !filter_cons. cbn [snd].
  destruct o.
  - rewrite (decide_True (P := Converted = Converted)) by done. cbn [length]. lia.
  - rewrite (decide_False (P := SkippedExisting = Converted)) by done.
    rewrite (decide_True (P := SkippedExisting = SkippedExisting)) by done.
    cbn [length]. lia.
  - rewrite (decide_False (P := Failed = Converted)) by done.
    rewrite (decide_False (P := Failed = SkippedExisting)) by done.
    rewrite (decide_True (P := Failed = Failed)) by done.
    rewrite (decide_False (P := Failed ≠ Failed)) by (intros Hne; by apply Hne).
    intros Hc Hs. destruct (IH Hc Hs) as [-> ->]. done.
Qed.

Lemma map_fst_outcomes (skip_existing : bool) (netcdf : list str)
    (files : list (str * bytes)) :
  map fst (outcomes skip_existing netcdf files) = files.
Proof.
  revert netcdf. induction files as [|f files IH]; intros netcdf; [done|].
  cbn. by rewrite IH.
Qed.

(** X23: a call that does not succeed converts and skips nothing and lists
    no saved path: it fails on every selected file, and lists their names
    in the order of the selection. The files of the output folder are
    then those that were there before the call and the outputs that the
    write of a selected file left as it raised. *)
Theorem unsuccessful_call_fails_every_file (fs : filesystem)
    (region uf wmo_code : filter_arg) (all_files debug skip_existing : bool) :
  let run := convert_csvs_to_netcdf fs region uf wmo_code all_files debug skip_existing in
  let selected := selected_files fs region uf wmo_code all_files in
  success (fst run) = false →
  saved_paths (fst run) = []
  ∧ converted_files (fst run) = 0 ∧ skipped_files (fst run) = 0
  ∧ failed_files (fst run) = map fst selected
  ∧ ∀ p, p ∈ snd run ↔
         p ∈ netcdf_folder fs
         ∨ ∃ f, f ∈ selected ∧ leaves_file f = true ∧ p = netcdf_name (fst f).
Proof.
  cbv zeta. intros Hfail.
  pose proof (convert_csvs_to_netcdf_success fs region uf wmo_code all_files debug
                skip_existing) as Hsuccess. cbv zeta in Hsuccess.
  rewrite Hfail in Hsuccess. symmetry in Hsuccess. apply bool_decide_eq_false in Hsuccess.
  destruct (convert_csvs_to_netcdf_outcomes fs region uf wmo_code all_files debug
              skip_existing) as (Hc & Hs & Hp & Hf & _).
  cbv zeta in Hc, Hs, Hp, Hf.
  destruct (convert_csvs_to_netcdf_result fs region uf wmo_code all_files debug skip_existing)
    as (_ & _ & Hsaved & _ & _ & Hfolder).
  cbv zeta in Hsaved, Hfolder.
  set (files := selected_files fs region uf wmo_code all_files) in *.
  unfold with_outcome, listed_outputs in *. rewrite !length_map in Hc, Hs.
  destruct (all_failed (outcomes skip_existing (netcdf_folder fs) files)) as [Hall Hnone];
    [lia|lia|].
  rewrite Hall in Hf. rewrite Hnone in Hp. rewrite map_fst_outcomes in Hf.
  split; [done|]. split; [lia|]. split; [lia|]. split; [done|].
  destruct (convert_files_folder skip_existing files (start (netcdf_folder fs)))
    as (Hn & _ & Hnew & _ & Hleft); [by intros p ?%elem_of_nil|].
  fold (convert_files skip_existing files (netcdf_folder fs)) in Hn, Hnew, Hleft.
  rewrite <- Hsaved, Hp in Hnew. rewrite Hfolder.
  intros p. split.
  - intros [?|[?%elem_of_nil|?]]%Hnew; [by left|done|by right].
  - intros [?|(f & ? & ? & ->)]; [by eapply elem_of_prefix|by apply Hleft].
Qed.

(** ** The orchestrator: runs that skip nothing *)

Lemma convert_files_overwriting (files : list (str * bytes)) (st : progress) :
  let st' := fold_left (convert_file false) files st in
  st_skipped_files st' = st_skipped_files st
  ∧ st_converted_files st'
    = st_converted_files st + length (filter (fun f => converts f = true) files)
  ∧ st_saved_paths st' = st_saved_paths st ++ converted_outputs files
  ∧ st_failed_files st' = st_failed_files st ++ failing_names files.
Proof.
  unfold converted_outputs, failing_names.
  revert st. induction files as [|f files IH]; intros st.
  { cbn. rewrite !app_nil_r. repeat split; lia. }
  cbn [fold_left]. cbv zeta.
  destruct (IH (convert_file false st f)) as (-> & -> & -> & ->).
  rewrite convert_file_cases. unfold skips. rewrite andb_false_r. rewrite !filter_cons.
  destruct (converts f) eqn:Hok; cbn [converted_state failed_state st_skipped_files
    st_converted_files st_saved_paths st_failed_files].
  - rewrite decide_True, decide_False by done. cbn [map length].
    rewrite <- app_assoc. cbn [app]. repeat split; lia.
  - rewrite decide_False, decide_True by done. cbn [map length].
    rewrite <- app_assoc. cbn [app]. repeat split; lia.
Qed.

(** X24: with skip_existing unset nothing is skipped, whatever the output
    folder holds: every selected file goes through the pipeline; the
    converted files are those the pipeline reads and writes, the saved
    paths their outputs and the failed files the others, each in the
    order of the selection. *)
Theorem overwriting_skips_nothing (fs : filesystem)
    (region uf wmo_code : filter_arg) (all_files debug : bool) :
  let r := fst (convert_csvs_to_netcdf fs region uf wmo_code all_files debug false) in
  let selected := selected_files fs region uf wmo_code all_files in
  skipped_files r = 0
  ∧ converted_files r = length (filter (fun f => converts f = true) selected)
  ∧ saved_paths r = converted_outputs selected
  ∧ failed_files r = failing_names selected.
Proof.
  cbv zeta.
  destruct (convert_csvs_to_netcdf_result fs region uf wmo_code all_files debug false)
    as (-> & -> & -> & -> & _).
  destruct (convert_files_overwriting (selected_files fs region uf wmo_code all_files)
              (start (netcdf_folder fs))) as (Hs & Hc & Hp & Hf).
  unfold convert_files. by rewrite Hs, Hc, Hp, Hf.
Qed.

(** A run over files with distinct outputs, none of them in the folder:
    no file is skipped. *)
Lemma convert_files_fresh (files : list (str * bytes)) (st : progress) :
  NoDup (map (fun f => netcdf_name (fst f)) files) →
  (∀ f, f ∈ files → netcdf_name (fst f) ∉ st_netcdf st) →
  let st' := fold_left (convert_file true) files st in
  st_skipped_files st' = st_skipped_files st
  ∧ st_converted_files st'
    = st_converted_files st + length (filter (fun f => converts f = true) files)
  ∧ st_saved_paths st' = st_saved_paths st ++ converted_outputs files
  ∧ st_failed_files st' = st_failed_files st ++ failing_names files
  ∧ st_netcdf st' = st_netcdf st ++ produced_outputs files.
Proof.
  unfold converted_outputs, failing_names, produced_outputs, produces.
  revert st. induction files as [|f files IH]; intros st Hnd Hfresh.
  { cbn. rewrite !app_nil_r. repeat split; lia. }
  cbn [map] in Hnd. apply NoDup_cons in Hnd as [Hf Hnd].
  cbn [fold_left]. cbv zeta.
  assert (netcdf_name f.1 ∉ st_netcdf st) as Hhere by (apply Hfresh; by left).
  assert (convert_file true st f
          = if converts f then converted_state st f else failed_state st f) as Hstep.
  { rewrite convert_file_cases. unfold skips. by rewrite bool_decide_eq_false_2. }
  assert (st_netcdf (convert_file true st f)
          = st_netcdf st ++ (if converts f || leaves_file f then [netcdf_name f.1] else []))
    as Hfolder.
  { rewrite Hstep.
    destruct (converts f); cbn; unfold written; [by rewrite bool_decide_eq_false_2|].
    destruct (leaves_file f); [by rewrite bool_decide_eq_false_2|by rewrite app_nil_r]. }
  destruct (IH (convert_file true st f) Hnd) as (-> & -> & -> & -> & ->).
  { intros g Hg. rewrite Hfolder. intros [Hin|Hin]%elem_of_app.
    - by apply (Hfresh g); [right|].
    - destruct (converts f || leaves_file f); [|by apply elem_of_nil in Hin].
      apply list_elem_of_singleton in Hin. destruct Hf. rewrite <- Hin.
      apply (elem_of_map (fun f => netcdf_name (fst f))). eauto. }
  rewrite Hfolder, Hstep. rewrite !filter_cons. clear Hstep Hfolder.
  destruct (converts f) eqn:Hok; cbn [orb converted_state failed_state st_skipped_files
    st_converted_files st_saved_paths st_failed_files].
  - rewrite decide_True, decide_False, decide_True by done. cbn [map length].
    rewrite <- !app_assoc. cbn [app]. repeat split; lia.
  - rewrite decide_False, decide_True by done.
    destruct (leaves_file f).
    + rewrite decide_True by done. cbn [map length].
      rewrite <- !app_assoc. cbn [app]. repeat split; lia.
    + rewrite decide_False by done. rewrite app_nil_r.
      rewrite <- !app_assoc. cbn [app]. repeat split; lia.
Qed.

(** X25: on an empty output folder, when the selected files have distinct
    outputs, a call with skip_existing set skips nothing either: it converts
    the files the pipeline reads and writes and fails on the others, and
    the output folder ends with the outputs of the converted files and
    those that a write left as it raised, in the order of the selection,
    and nothing else. (Two files with one output are another matter: the
    second is skipped once the output of the first is there.) *)
Theorem first_run_skips_nothing (fs : filesystem)
    (region uf wmo_code : filter_arg) (all_files debug : bool) :
  netcdf_folder fs = [] →
  NoDup (map (fun f => netcdf_name (fst f))
             (selected_files fs region uf wmo_code all_files)) →
  let run := convert_csvs_to_netcdf fs region uf wmo_code all_files debug true in
  let selected := selected_files fs region uf wmo_code all_files in
  skipped_files (fst run) = 0
  ∧ converted_files (fst run) = length (filter (fun f => converts f = true) selected)
  ∧ saved_paths (fst run) = converted_outputs selected
  ∧ failed_files (fst run) = failing_names selected
  ∧ snd run = produced_outputs selected.
Proof.
  intros Hempty Hnd. cbv zeta.
  destruct (convert_csvs_to_netcdf_result fs region uf wmo_code all_files debug true)
    as (-> & -> & -> & -> & _ & ->).
  destruct (convert_files_fresh (selected_files fs region uf wmo_code all_files)
              (start (netcdf_folder fs)) Hnd) as (Hs & Hc & Hp & Hf & Hn).
  { intros f _. rewrite Hempty. apply not_elem_of_nil. }
  unfold convert_files. rewrite Hs, Hc, Hp, Hf, Hn. cbn. by rewrite Hempty.
Qed.

(** ** The orchestrator: the filters *)

Lemma rejects_values (filter_value : filter_arg) (x : str) :
  rejects (_normalize_filter filter_value) x
  = bool_decide (filter_values filter_value ≠ [] ∧ x ∉ filter_values filter_value).
Proof.
  unfold rejects, active, filter_values.
  destruct (_normalize_filter filter_value) as [[|v values]|]; cbn.
  - done.
  - apply bool_decide_ext. split; [by split|by intros [_ ?]].
  - done.
Qed.

Lemma rejects_same_values (a b : filter_arg) (x : str) :
  (∀ v, v ∈ filter_values a ↔ v ∈ filter_values b) →
  rejects (_normalize_filter a) x = rejects (_normalize_filter b) x.
Proof.
  intros Hsame. rewrite !rejects_values. apply bool_decide_ext.
  assert (filter_values a = [] ↔ filter_values b = []) as Hnil.
  { split; intros Hn.
    - destruct (filter_values b) as [|v ?]; [done|].
      assert (v ∈ filter_values a) as Hv by (apply Hsame; by left).
      rewrite Hn in Hv. by apply elem_of_nil in Hv.
    - destruct (filter_values a) as [|v ?]; [done|].
      assert (v ∈ filter_values b) as Hv by (apply Hsame; by left).
      rewrite Hn in Hv. by apply elem_of_nil in Hv. }
  rewrite Hnil, (Hsame x). done.
Qed.

(** X26: a filter is read as the set of its values in upper case. Two
    arguments with the same such values select the same files: the order
    and the repetitions in a list, and the case of the letters, do not
    matter, a string is the list of that string, and the empty list is no
    filter at all, as [None] is. *)
Theorem filters_are_sets (fs : filesystem)
    (region region' uf uf' wmo_code wmo_code' : filter_arg) (all_files : bool) :
  (∀ v, v ∈ filter_values region ↔ v ∈ filter_values region') →
  (∀ v, v ∈ filter_values uf ↔ v ∈ filter_values uf') →
  (∀ v, v ∈ filter_values wmo_code ↔ v ∈ filter_values wmo_code') →
  selected_files fs region uf wmo_code all_files
  = selected_files fs region' uf' wmo_code' all_files.
Proof.
  intros Hr Hu Hw. unfold selected_files, filter_files.
  destruct all_files; [done|]. apply list_filter_iff. intros [name content].
  unfold include_file. cbn [fst].
  by rewrite !(rejects_same_values region region'), !(rejects_same_values uf uf'),
             !(rejects_same_values wmo_code wmo_code').
Qed.

Lemma include_file_alone (region uf wmo_code : filter_arg) (filename : str) :
  include_file (_normalize_filter region) (_normalize_filter uf)
    (_normalize_filter wmo_code) filename
  = include_file (_normalize_filter region) None None filename
    && include_file None (_normalize_filter uf) None filename
    && include_file None None (_normalize_filter wmo_code) filename.
Proof.
  unfold include_file. case_bool_decide; [done|]. cbn [rejects active andb negb].
  rewrite !andb_true_r.
  by destruct (rejects (_normalize_filter region) _),
              (rejects (_normalize_filter uf) _),
              (rejects (_normalize_filter wmo_code) _).
Qed.

(** X27: the three filters are applied together: without all_files a file
    is selected under a region, a UF and a WMO filter exactly when it is
    selected under each of the three alone. *)
Theorem filters_are_conjunctive (fs : filesystem)
    (region uf wmo_code : filter_arg) (file : str * bytes) :
  file ∈ selected_files fs region uf wmo_code false ↔
  file ∈ selected_files fs region FNone FNone false
  ∧ file ∈ selected_files fs FNone uf FNone false
  ∧ file ∈ selected_files fs FNone FNone wmo_code false.
Proof.
  unfold selected_files, filter_files. rewrite !list_elem_of_filter.
  rewrite include_file_alone. cbn [_normalize_filter].
  rewrite !andb_True. tauto.
Qed.

End BatchMore.

Lemma unsuccessful_call_fails_every_file_witness :
  let fs := {| csv_folder := Some [(Files.gama_name, Files.truncated);
                                   (Files.planaltina_name, Files.percent_first)];
               netcdf_folder := [#"old.nc"] |} in
  let run := convert_csvs_to_netcdf (H := Reference.library)
               fs FNone FNone FNone false false true in
  success (fst run) = false
  ∧ failed_files (fst run) = [Files.gama_name; Files.planaltina_name]
  ∧ snd run = [#"old.nc"; netcdf_name Files.planaltina_name].
Proof.
  intros fs run.
  assert (success (fst run) = false) as Hfail by (vm_compute; reflexivity).
  split; [exact Hfail|].
  destruct (unsuccessful_call_fails_every_file (H := Reference.library)
              fs FNone FNone FNone false false true Hfail) as (_ & _ & _ & Hf & _).
  unfold run. split; [rewrite Hf|]; vm_compute; reflexivity.
Defined.

Lemma first_run_skips_nothing_witness :
  let run := convert_csvs_to_netcdf (H := Reference.library)
               Files.mixed_folder FNone FNone FNone false false true in
  netcdf_folder Files.mixed_folder = []
  ∧ NoDup (map (fun f => netcdf_name (fst f))
               (selected_files (H := Reference.library)
                  Files.mixed_folder FNone FNone FNone false))
  ∧ skipped_files (fst run) = 0
  ∧ saved_paths (fst run) = [netcdf_name Files.brasilia_name]
  ∧ failed_files (fst run) = [Files.gama_name; Files.planaltina_name]
  ∧ snd run = [netcdf_name Files.brasilia_name; netcdf_name Files.planaltina_name].
Proof.
  intros run.
  assert (netcdf_folder Files.mixed_folder = []) as Hempty by reflexivity.
  assert (NoDup (map (fun f => netcdf_name (fst f))
                     (selected_files (H := Reference.library)
                        Files.mixed_folder FNone FNone FNone false))) as Hnd.
  { apply (bool_decide_unpack _). vm_compute. reflexivity. }
  split; [exact Hempty|]. split; [exact Hnd|].
  destruct (first_run_skips_nothing (H := Reference.library)
              Files.mixed_folder FNone FNone FNone false false Hempty Hnd)
    as (Hs & _ & Hp & Hf & Hn).
  split; [exact Hs|]. unfold run.
  split; [rewrite Hp; vm_compute; reflexivity|].
  split; [rewrite Hf; vm_compute; reflexivity|].
  rewrite Hn. vm_compute. reflexivity.
Defined.

Lemma filters_are_sets_witness :
  (∀ v, v ∈ filter_values (H := Reference.library) (FStr #"df")
        ↔ v ∈ filter_values (H := Reference.library) (FList [#"DF"; #"Df"]))
  ∧ selected_files (H := Reference.library) Files.station_folder FNone (FStr #"df") FNone false
    = selected_files (H := Reference.library)
        Files.station_folder (FList []) (FList [#"DF"; #"Df"]) FNone false.
Proof.
  assert (∀ v, v ∈ filter_values (H := Reference.library) (FStr #"df")
               ↔ v ∈ filter_values (H := Reference.library) (FList [#"DF"; #"Df"]))
    as Huf.
  { intros v.
    change (filter_values (H := Reference.library) (FStr #"df")) with [#"DF"].
    change (filter_values (H := Reference.library) (FList [#"DF"; #"Df"]))
      with [#"DF"; #"DF"].
    rewrite !elem_of_cons. tauto. }
  split; [exact Huf|].
  exact (filters_are_sets (H := Reference.library) Files.station_folder
           FNone (FList []) (FStr #"df") (FList [#"DF"; #"Df"]) FNone FNone false
           (fun v => iff_refl _) Huf (fun v => iff_refl _)).
Defined.

(** ** The pipeline: the exceptions of a run *)

Section Errors.

Context `{Library}.

Lemma read_station_file_IndexError (debug : bool) (content : bytes) (e : exn) :
  read_station_file debug content = Raise e → e = IndexError.
Proof.
  unfold read_station_file. destruct debug.
  - unfold debug_inmet_file. cbn [DEBUG_ENCODINGS try_encodings decode decode_latin1].
    intros [[E|(md & _ & [E|(? & _ & E)]%bind_Raise)]%bind_Raise|(? & _ & E)]%bind_Raise;
      try done.
    + by eapply metadata_loop_Raise.
    + by eapply getitem_Raise.
  - destruct (read_silently content) as [enc lines].
    intros [E|(? & _ & E)]%bind_Raise; [|done]. by eapply metadata_loop_Raise.
Qed.

Lemma coordinate_error (metadata : dict str) (key : str) (e : exn) :
  coordinate metadata key = Raise e → e = KeyError key ∨ e = ValueError NotAFloat.
Proof.
  unfold coordinate. destruct (dict_get metadata key); [|intros [= <-]; by left].
  destruct (float_of_str _); [done|]. intros [= <-]. by right.
Qed.

Lemma station_of_error (csv_file_name : str) (metadata : dict str) (e : exn) :
  station_of csv_file_name metadata = Raise e → pipeline_error e.
Proof.
  unfold station_of, pipeline_error. destruct (bool_decide _).
  all: intros [E|(? & _ & [E|(? & _ & [E|(? & _ & E)]%bind_Raise)]%bind_Raise)]%bind_Raise;
    try done.
  all: apply coordinate_error in E as [->| ->]; [|tauto].
  all: right; left; eexists; split; [|done]; unfold COORDINATE_KEYS.
  all: repeat first [by left | right].
Qed.

Lemma time_index_error (debug : bool) (df : DataFrame) (e : exn) :
  time_index debug df = Raise e → pipeline_error e.
Proof.
  unfold time_index, pipeline_error.
  intros [E|(? & _ & [E|(? & _ & [E|(? & _ & E)]%bind_Raise)]%bind_Raise)]%bind_Raise.
  - destruct (select df #"hour_utc") as [|? [|? ?]]; try done; injection E as <-; tauto.
  - destruct (select df #"date") as [|? [|? ?]]; try done; injection E as <-; tauto.
  - destruct debug; [|done]. apply getitem_Raise in E as ->. tauto.
  - done.
Qed.

(** X28: up to the point where it writes its output, a run that fails
    ends with IndexError (a file too short, or with debug no timestamp
    read), with KeyError or the ValueError of float on one of the three
    coordinates, with the exception of the table reader, with the
    ValueError of the missing time columns, with the AttributeError or the
    ValueError of a time column labelled twice, or with the ValueError of a
    variable named as a coordinate. The encoding failure that
    debug_inmet_file declares and the reshape of a grid are never among
    them. *)
Theorem errors_of_a_run
    (csv_file_name : str) (content : bytes) (debug : bool) (e : exn) :
  parse_inmet_csv csv_file_name content debug = Raise e → pipeline_error e.
Proof.
  unfold parse_inmet_csv.
  intros [E|([encoding metadata] & _ & [E|(s & _ & [E|(df0 & _ & E)]
    %bind_Raise)]%bind_Raise)]%bind_Raise.
  - apply read_station_file_IndexError in E as ->. by left.
  - by eapply station_of_error.
  - unfold load_table in E. destruct (read_csv encoding content) as [code|]; [|done].
    injection E as <-. unfold pipeline_error. eauto 10.
  - unfold grid_dataset in E.
    apply bind_Raise in E as [E|(df & _ & [E|(t & _ & E)]%bind_Raise)].
    + apply prepare_table_Raise in E as [-> _]. unfold pipeline_error. tauto.
    + by eapply time_index_error.
    + rewrite build_data_vars_assignments in E. cbn [mbind result_bind] in E.
      unfold make_dataset in E. case_bool_decide; [|done]. injection E as <-.
      unfold pipeline_error. tauto.
Qed.

End Errors.

Lemma errors_of_a_run_witness :
  parse_inmet_csv (H := Reference.library) Files.brasilia_name Cases.latitude_column true
  = Raise (ValueError InDataVarsAndCoords)
  ∧ pipeline_error (ValueError InDataVarsAndCoords).
Proof.
  assert (parse_inmet_csv (H := Reference.library)
            Files.brasilia_name Cases.latitude_column true
          = Raise (ValueError InDataVarsAndCoords)) as E by (vm_compute; reflexivity).
  split; [exact E|].
  exact (errors_of_a_run (H := Reference.library) _ _ _ _ E).
Defined.

(** ** The pipeline: the column behind each variable *)

Lemma last_map {A B} (f : A → B) (l : list A) : last (map f l) = f <$> last l.
Proof.
  induction l as [|x l IH]; [done|]. cbn [map]. rewrite !last_cons, IH.
  by destruct (last l).
Qed.

Lemma items_of_keys {V} (g : str → V) (d : dict V) :
  Forall (fun item => snd item = g (fst item)) d →
  d = map (fun k => (k, g k)) (dict_keys d).
Proof.
  unfold dict_keys. induction 1 as [|[k v] d Hv _ IH]; [done|].
  cbn in *. by rewrite <- IH, Hv.
Qed.

Lemma assignments_of_function {V} (g : str → V) (keys : list str) (acc : dict V) :
  Forall (fun item => snd item = g (fst item)) acc →
  Forall (fun item => snd item = g (fst item))
         (fold_left (fun d kv => dict_set d (fst kv) (snd kv)) (zip keys (map g keys)) acc).
Proof.
  revert acc. induction keys as [|k keys IH]; intros acc Hacc; [done|].
  cbn [map zip zip_with fold_left fst snd]. apply IH. by apply Forall_dict_set.
Qed.

Section Sources.

Context `{Library}.

Lemma build_data_vars_items (df : DataFrame) (t : TimeIndex) (vars : list str) :
  build_data_vars df t vars []
  = Ok (map (fun var => (var, (DIMS, var_array t (column df var)))) (unique vars)).
Proof.
  rewrite build_data_vars_assignments. f_equal.
  set (g := fun var => (DIMS, var_array t (column df var))).
  rewrite (items_of_keys g (fold_left _ _ _))
    by (apply assignments_of_function; constructor).
  rewrite dict_keys_assignments by (by rewrite length_map).
  cbn [dict_keys map app]. by rewrite filter_all by (by intros x _ ?%elem_of_nil).
Qed.

(** X29: each variable of a dataset holds the grid of one column of the
    table: under a name the grid built from the last of the distinct
    labels, in the order of the table, that sanitize to that name; a name
    that no label gives is no variable. *)
Theorem variables_hold_their_source_column
    (csv_file_name : str) (content : bytes) (debug : bool) (ds : Dataset) :
  parse_inmet_csv csv_file_name content debug = Ok ds →
  ∃ df t,
    index_of csv_file_name content debug = Some (df, t)
    ∧ ∀ name,
        dict_get (data_vars ds) name
        = (fun var => (DIMS, var_array t (column df var))) <$> source_column df name.
Proof.
  intros (enc & md & s & df0 & df & t & vars & E1 & E2 & E3 & E4 & E5 & E6 & E7)
         %parse_inmet_csv_Ok.
  exists df, t. split.
  { unfold index_of, table_of, load_table. by rewrite E1, E2, E3, E4, E5. }
  rewrite build_data_vars_items in E6. injection E6 as <-.
  unfold make_dataset in E7. case_bool_decide; [done|]. injection E7 as <-.
  intros name. cbn [data_vars]. unfold clean_variable_names.
  rewrite clean_variable_names_fold. unfold last_cleaned_to, source_column.
  rewrite (filter_map (fun var => (var, (DIMS, var_array t (column df var))))
             (fun item => clean_name (fst item) = name)).
  cbn [fst]. rewrite last_map.
  by destruct (last (filter _ (unique (met_variables df)))).
Qed.

End Sources.

Lemma variables_hold_their_source_column_witness :
  ∃ ds df t,
    parse_inmet_csv (H := Reference.library) Files.brasilia_name Files.brasilia false
    = Ok ds
    ∧ index_of (H := Reference.library) Files.brasilia_name Files.brasilia false
      = Some (df, t)
    ∧ dict_get (data_vars ds) #"unused"
      = (fun var => (DIMS, var_array (H := Reference.library) t (column df var)))
        <$> source_column df #"unused".
Proof.
  destruct (parse_inmet_csv (H := Reference.library)
              Files.brasilia_name Files.brasilia false) as [ds|e] eqn:E.
  - destruct (variables_hold_their_source_column (H := Reference.library) _ _ _ ds E)
      as (df & t & Hindex & Hvars).
    exists ds, df, t. split; [reflexivity|]. split; [exact Hindex|]. exact (Hvars _).
  - assert (succeeds (parse_inmet_csv (H := Reference.library)
                        Files.brasilia_name Files.brasilia false) = true)
      as Hok by (vm_compute; reflexivity).
    rewrite E in Hok. discriminate Hok.
Defined.
